(** * KoboldAI model loading and TPU callbacks: a shallow embedding

  The development follows two source files,
  [modeling/inference_models/generic_hf_torch.py] and
  [modeling/inference_models/hf_mtj.py].  Python code that threads the
  process-wide settings object, raises exceptions and calls into torch,
  numpy, lupa or the hub client is written in a state-and-exception monad;
  what those libraries do is either written out (numpy shapes, dict
  lookups) or taken as a variable of a section. *)

From Stdlib Require Import ZArith String Ascii List Bool Lia.
From stdpp Require Import base gmap strings list.

Local Open Scope string_scope.
Local Open Scope list_scope.
Local Open Scope Z_scope.

(** ** Python values, exceptions and the monad *)

Module Py.

(** The exceptions that the modelled code can raise.  [LibraryError]
    stands for whatever an external collaborator raises. *)
Inductive exn : Type :=
| UnboundLocalError (name : string)
| NameError (name : string)
| AssertionError
| KeyError (key : string)
| IndexError
| TypeError
| ValueError
| ZeroDivisionError
| LibraryError (who : string).

Inductive res (A : Type) : Type :=
| Ok (a : A)
| Raise (e : exn).
Arguments Ok {A} a.
Arguments Raise {A} e.

(** A computation reads and writes a state [S]; the state survives an
    exception, as Python's heap does. *)
Definition M (S A : Type) : Type := S -> res A * S.

Definition ret {S A} (a : A) : M S A := fun s => (Ok a, s).
Definition raise {S A} (e : exn) : M S A := fun s => (Raise e, s).
Definition bind {S A B} (c : M S A) (k : A -> M S B) : M S B :=
  fun s => match c s with
           | (Ok a, s') => k a s'
           | (Raise e, s') => (Raise e, s')
           end.
Definition get {S} : M S S := fun s => (Ok s, s).
Definition gets {S A} (f : S -> A) : M S A := fun s => (Ok (f s), s).
Definition modify {S} (f : S -> S) : M S unit := fun s => (Ok tt, f s).
Definition lift {S A} (r : res A) : M S A := fun s => (r, s).

(** [try: c except Exception as e: h e] *)
Definition try_except {S A} (c : M S A) (h : exn -> M S A) : M S A :=
  fun s => match c s with
           | (Ok a, s') => (Ok a, s')
           | (Raise e, s') => h e s'
           end.

(** [for x in xs: body x] *)
Fixpoint for_each {S A} (xs : list A) (body : A -> M S unit) : M S unit :=
  match xs with
  | [] => ret tt
  | x :: xs' => bind (body x) (fun _ => for_each xs' body)
  end.

Definition when {S} (b : bool) (c : M S unit) : M S unit :=
  if b then c else ret tt.

(** [assert b] *)
Definition assert {S} (b : bool) : M S unit :=
  if b then ret tt else raise AssertionError.

(** [d[k]] on a dict with string keys *)
Definition getitem {V} (d : gmap string V) (k : string) : res V :=
  match d !! k with
  | Some v => Ok v
  | None => Raise (KeyError k)
  end.

(** [d.get(k, default)]; the caller has already evaluated [default]. *)
Definition dict_get {V} (d : gmap string V) (k : string) (default : V) : V :=
  match d !! k with
  | Some v => v
  | None => default
  end.

End Py.

Import Py.

Notation "'do' x <- c ;; k" := (bind c (fun x => k))
(at level 10, x name, c at level 99, k at level 200).
Notation "'run' c ;; k" := (bind c (fun _ => k))
(at level 10, c at level 99, k at level 200).

(** torch and numpy element types that the code names or that typical
  checkpoints carry. *)
Inductive dtype : Type :=
| float32 | float16 | bfloat16 | float64 | int64 | uint32 | uint8.

Definition dtype_is (a b : dtype) : bool :=
match a, b with
| float32, float32 | float16, float16 | bfloat16, bfloat16
| float64, float64 | int64, int64 | uint32, uint32 | uint8, uint8 => true
| _, _ => false
end.

(** [utils.koboldai_vars.badwordsids] is compared with [is], so what
  matters is which object the attribute points to: the default list of
  [koboldai_settings], the NeoX list, or a list built by the caller or by
  [_load]. *)
Inductive badwords : Type :=
| badwordsids_default
| badwordsids_neox
| badwords_list (groups : list (list Z)).

Definition is_badwordsids_default (b : badwords) : bool :=
match b with badwordsids_default => true | _ => false end.

(** ** Bad-words derivation, shared by both [_load] methods

  [[v] for k, v in vocab.items()
       if any(c in str(k) for c in "<>[]")
       if newlinemode != "s" or str(k) != "</s>"] *)

Module Badwords.

Definition char_in (c : ascii) (s : string) : bool :=
  existsb (Ascii.eqb c) (list_ascii_of_string s).

Definition bracket_chars : list ascii := list_ascii_of_string "<>[]".

Definition any_bracket (k : string) : bool :=
  existsb (fun c => char_in c k) bracket_chars.

Definition keeps (newlinemode k : string) : bool :=
  any_bracket k && (negb (String.eqb newlinemode "s") || negb (String.eqb k "</s>")).

Definition comprehension (newlinemode : string) (vocab : list (string * Z))
  : list (list Z) :=
  map (fun kv => [snd kv]) (filter (fun kv => keeps newlinemode (fst kv) = true) vocab).

Definition excluded_model_type (model_type : string) : bool :=
  existsb (String.eqb model_type) ["gpt2"; "gpt_neo"; "gptj"].

(** The guarded assignment of both [_load] methods. *)
Definition derive (current : badwords) (model_type newlinemode : string)
           (vocab : list (string * Z)) : badwords :=
  if is_badwordsids_default current && negb (excluded_model_type model_type)
  then badwords_list (comprehension newlinemode vocab)
  else current.

(** The mode in which [</s>] stands for a newline. *)
Definition spaces_as_newline (newlinemode : string) : Prop := newlinemode = "s".

Definition suppressed (b : badwords) (id : Z) : Prop :=
  match b with
  | badwords_list groups => In [id] groups
  | _ => False
  end.

Definition example_vocab : list (string * Z) :=
  [("<pad>", 0); ("hello", 1); ("</s>", 2)].

End Badwords.

(** ** The numpy operations the TPU adapter uses

    An array is a dtype, a shape and its elements in row-major order. *)

Module Numpy.

Record ndarray (A : Type) : Type := mk_ndarray {
  nd_dtype : dtype;
  nd_shape : list Z;
  nd_data : list A
}.
Arguments mk_ndarray {A} _ _ _.
Arguments nd_dtype {A} _.
Arguments nd_shape {A} _.
Arguments nd_data {A} _.

Definition product (dims : list Z) : Z := fold_right Z.mul 1 dims.

Definition negative (d : Z) : bool := d <? 0.

(** [np.zeros(shape, dtype)]: a negative dimension is a [ValueError]. *)
Definition zeros {A} (zero : A) (shape : list Z) (dt : dtype) : res (ndarray A) :=
  if existsb negative shape then Raise ValueError
  else Ok (mk_ndarray dt shape (repeat zero (Z.to_nat (product shape)))).

(** [np.pad(t, ((0, after), (0, 0)))] with the default constant mode: rows
    of zeros are appended to a 2-D array; a negative width, or an array
    that is not 2-D, is a [ValueError]. *)
Definition pad_rows_after {A} (zero : A) (t : ndarray A) (after : Z) : res (ndarray A) :=
  match nd_shape t with
  | [r; c] =>
      if after <? 0 then Raise ValueError
      else Ok (mk_ndarray (nd_dtype t) [r + after; c]
                 (nd_data t ++ repeat zero (Z.to_nat (after * c))))
  | _ => Raise ValueError
  end.

(** [t.reshape(newshape)].  Every negative entry of [newshape] counts as
    the unknown dimension; there may be one at most, the product of the
    others must be non-zero and divide the size. *)
Definition fix_unknown (unknown : Z) (d : Z) : Z :=
  if negative d then unknown else d.

Definition reshape {A} (t : ndarray A) (newshape : list Z) : res (ndarray A) :=
  let size := product (nd_shape t) in
  let known := product (List.filter (fun d => negb (negative d)) newshape) in
  match List.filter negative newshape with
  | [] =>
      if size =? known then Ok (mk_ndarray (nd_dtype t) newshape (nd_data t))
      else Raise ValueError
  | [_] =>
      if (known =? 0) || negb (size mod known =? 0) then Raise ValueError
      else Ok (mk_ndarray (nd_dtype t) (map (fix_unknown (size / known)) newshape)
                 (nd_data t))
  | _ => Raise ValueError
  end.

Definition two_pow_32 : Z := 4294967296.

(** [np.arange(start, stop, dtype=np.uint32)]: [max 0 (stop - start)]
    elements, each stored in 32 bits (wrap-around written out). *)
Definition arange_uint32 (start stop : Z) : ndarray Z :=
  let n := Z.max 0 (stop - start) in
  mk_ndarray uint32 [n] (map (fun i => (start + i) mod two_pow_32) (seqZ 0 n)).

(** [np.array(tuple of tuples, dtype=dt)]: no rows give shape [(0,)],
    rows of one common length [m] give shape [(n, m)], ragged rows are a
    [ValueError].  [cast] converts one element to [dt]. *)
Definition array_of_rows {A} (cast : dtype -> A -> A) (rows : list (list A)) (dt : dtype)
  : res (ndarray A) :=
  match rows with
  | [] => Ok (mk_ndarray dt [0] [])
  | r :: rs =>
      if forallb (fun r' => Nat.eqb (length r') (length r)) rs
      then Ok (mk_ndarray dt [Z.of_nat (length rows); Z.of_nat (length r)]
                 (map (cast dt) (concat rows)))
      else Raise ValueError
  end.

(** [a[i]] on one axis: negative indices count from the end. *)
Definition index {A} (l : list A) (i : Z) : res A :=
  let n := Z.of_nat (length l) in
  let j := if i <? 0 then i + n else i in
  if (0 <=? j) && (j <? n) then
    match l !! Z.to_nat j with
    | Some x => Ok x
    | None => Raise IndexError
    end
  else Raise IndexError.

(** [a[lo:hi]] on one axis, with Python's clipping of both bounds. *)
Definition clip_bound (n i : Z) : Z :=
  if i <? 0 then Z.max (i + n) 0 else Z.min i n.

Definition slice {A} (l : list A) (lo hi : Z) : list A :=
  let n := Z.of_nat (length l) in
  let a := clip_bound n lo in
  let b := clip_bound n hi in
  take (Z.to_nat (b - a)) (drop (Z.to_nat a) l).

End Numpy.

(** [a % b] with Python's sign convention, which is that of [Z.modulo];
    a zero divisor raises. *)
Definition py_mod (a b : Z) : res Z :=
  if b =? 0 then Raise ZeroDivisionError else Ok (a mod b).

(** ** hf_mtj.py: the adapter for the TPU engine *)

Module HFMTJ.
Import Numpy.

(** A Lua table as lupa shows it: keys with their values, in iteration
    order. *)
Definition lua_table (V : Type) : Type := list (Z * V).

Fixpoint table_from {V} (first : Z) (items : list V) : lua_table V :=
  match items with
  | [] => []
  | x :: rest => (first, x) :: table_from (first + 1) rest
  end.

(** [lua_state.table] applied to the unpacked items: they get the keys
    1, 2, ... *)
Definition table_of_args {V} (items : list V) : lua_table V := table_from 1 items.

(** [t[k] = v] *)
Fixpoint table_set {V} (t : lua_table V) (k : Z) (v : V) : lua_table V :=
  match t with
  | [] => [(k, v)]
  | (k', v') :: rest =>
      if k' =? k then (k, v) :: rest else (k', v') :: table_set rest k v
  end.

(** [t.values()] *)
Definition table_values {V} (t : lua_table V) : list V := map snd t.

(** [enumerate(xs)] *)
Fixpoint enumerate_from {A} (i : Z) (xs : list A) : list (Z * A) :=
  match xs with
  | [] => []
  | x :: rest => (i, x) :: enumerate_from (i + 1) rest
  end.
Definition enumerate {A} (xs : list A) : list (Z * A) := enumerate_from 0 xs.

Section Adapter.

(** Python floats and what the code asks of them. *)
Variable pyfloat : Type.
Variable fzero : pyfloat.
Variable float_of_int : Z -> pyfloat.
Variable int_of_float : pyfloat -> res Z.
Variable np_cast : dtype -> pyfloat -> pyfloat.

(** The engine's sharded tensors and [tpu_mtj_backend.shard_xmap]. *)
Variable Sharded : Type.
Variable shard_xmap : ndarray pyfloat -> res Sharded.

(** [self.tokenizer.decode], [utils.decodenewlines] and the set of world
    info entries that [koboldai_vars.calc_ai_text] finds in a text. *)
Variable decode : list Z -> string.
Variable decodenewlines : string -> string.
Variable calc_ai_text : string -> gset Z.

Inductive pynum : Type :=
| Int (z : Z)
| Float (x : pyfloat).

(** [float(x)] and [int(x)] *)
Definition py_float (x : pynum) : pyfloat :=
  match x with Int z => float_of_int z | Float f => f end.
Definition py_int (x : pynum) : res Z :=
  match x with Int z => Ok z | Float f => int_of_float f end.

(** The sampler settings of [utils.koboldai_vars]; the adapter only reads
    them. *)
Record sampler_vars : Type := mk_sampler_vars {
  sampler_order : list Z;
  top_p : pynum;
  temp : pynum;
  top_k : pynum;
  tfs : pynum;
  typical : pynum;
  top_a : pynum;
  rep_pen : pynum;
  rep_pen_slope : pynum;
  rep_pen_range : pynum
}.

(** The other attributes of [utils.koboldai_vars] that the adapter
    touches. *)
Record koboldai_vars : Type := mk_vars {
  abort : bool;
  generated_tkns : Z;
  genamt : Z;
  numseqs : Z;
  dynamicscan : bool;
  sp : option Sharded;
  sp_length : Z;
  badwordsids : badwords;
  model_type : string;
  newlinemode : string;
  sampling : sampler_vars
}.

(** [utils.koboldai_vars.lua_koboldbridge] *)
Record lua_koboldbridge : Type := mk_bridge {
  generating : bool;
  regeneration_required : bool;
  bridge_generated : gmap Z (gmap Z Z);
  logits : lua_table (lua_table pyfloat);
  vocab_size : Z
}.

(** The state of the process as far as this module sees it: the settings
    object, the Lua bridge, [tpu_mtj_backend.params], and the module's own
    global [past], which no statement of the module binds. *)
Record state : Type := mk_state {
  vars : koboldai_vars;
  bridge : lua_koboldbridge;
  params : gmap string Z;
  past : option (list (list Z))
}.

Definition with_vars (f : koboldai_vars -> koboldai_vars) (s : state) : state :=
  mk_state (f (vars s)) (bridge s) (params s) (past s).
Definition with_bridge (f : lua_koboldbridge -> lua_koboldbridge) (s : state) : state :=
  mk_state (vars s) (f (bridge s)) (params s) (past s).

Definition set_generated_tkns (n : Z) (v : koboldai_vars) : koboldai_vars :=
  mk_vars (abort v) n (genamt v) (numseqs v) (dynamicscan v) (sp v) (sp_length v)
    (badwordsids v) (model_type v) (newlinemode v) (sampling v).
Definition set_sp (x : option Sharded) (v : koboldai_vars) : koboldai_vars :=
  mk_vars (abort v) (generated_tkns v) (genamt v) (numseqs v) (dynamicscan v) x
    (sp_length v) (badwordsids v) (model_type v) (newlinemode v) (sampling v).
Definition set_badwordsids (b : badwords) (v : koboldai_vars) : koboldai_vars :=
  mk_vars (abort v) (generated_tkns v) (genamt v) (numseqs v) (dynamicscan v) (sp v)
    (sp_length v) b (model_type v) (newlinemode v) (sampling v).

Definition set_regeneration_required (b : bool) (l : lua_koboldbridge) : lua_koboldbridge :=
  mk_bridge (generating l) b (bridge_generated l) (logits l) (vocab_size l).
Definition set_bridge_generated (g : gmap Z (gmap Z Z)) (l : lua_koboldbridge)
  : lua_koboldbridge :=
  mk_bridge (generating l) (regeneration_required l) g (logits l) (vocab_size l).
Definition set_logits (t : lua_table (lua_table pyfloat)) (l : lua_koboldbridge)
  : lua_koboldbridge :=
  mk_bridge (generating l) (regeneration_required l) (bridge_generated l) t (vocab_size l).
Definition set_vocab_size (n : Z) (l : lua_koboldbridge) : lua_koboldbridge :=
  mk_bridge (generating l) (regeneration_required l) (bridge_generated l) (logits l) n.

(** [lua_koboldbridge.execute_genmod()]: the user's script; it may change
    the bridge and may raise. *)
Variable execute_genmod : M state unit.

(** *** [mtj_warper_callback] *)

(** The scores the engine hands over: a 2-D array, one row per sequence,
    every row [sb_cols] wide; [sb_rows] is what [tolist()] gives. *)
Record score_batch : Type := mk_scores {
  sb_dtype : dtype;
  sb_cols : nat;
  sb_rows : list (list pyfloat)
}.

Definition scores_shape_of (scores : score_batch) : list Z :=
  [Z.of_nat (length (sb_rows scores)); Z.of_nat (sb_cols scores)].

(** Lines 45-64: the scores go into the bridge's table, the script runs,
    and an array is built again from what the table then holds. *)
Definition rewritten_scores (scores : score_batch) : M state (ndarray pyfloat) :=
  let scores_list := sb_rows scores in
  run modify (with_bridge (set_logits [])) ;;
  run for_each (enumerate scores_list) (fun r_row =>
        modify (with_bridge (fun l =>
          set_logits (table_set (logits l) (fst r_row + 1) (table_of_args (snd r_row))) l))) ;;
  run modify (with_bridge (set_vocab_size (Z.of_nat (sb_cols scores)))) ;;
  run execute_genmod ;;
  do t <- gets (fun s => logits (bridge s)) ;;
  lift (array_of_rows np_cast (map table_values (table_values t)) (sb_dtype scores)).

Definition mtj_warper_callback (scores : score_batch) : M state (ndarray pyfloat) :=
  let scores_shape := scores_shape_of scores in
  do scores' <- rewritten_scores scores ;;
  run assert (bool_decide (nd_shape scores' = scores_shape)) ;;
  ret scores'.

(** *** [mtj_stopping_callback] *)

(** One round of the first loop:
    [bridge.generated[i + 1][generated_tkns] =
       int(generated[i, params["seq"] + n_generated - 1].item())] *)
Definition store_generated (generated : list (list Z)) (n_generated : Z) (i : Z)
  : M state unit :=
  do prm <- gets params ;;
  do seq <- lift (getitem prm "seq") ;;
  do row <- lift (index generated i) ;;
  do tok <- lift (index row (seq + n_generated - 1)) ;;
  do g <- gets (fun s => bridge_generated (bridge s)) ;;
  do tkns <- gets (fun s => generated_tkns (vars s)) ;;
  match g !! (i + 1) with
  | None => raise TypeError
  | Some t => modify (with_bridge (set_bridge_generated (<[i + 1 := <[tkns := tok]> t]> g)))
  end.

(** The second loop, over [enumerate(generated)], with its [break]; the
    result is the final [regeneration_required]. *)
Fixpoint scan_world_info (rows : list (Z * list Z)) (n_generated : Z)
         (excluded_world_info : list (gset Z)) (regeneration_required0 : bool)
  : M state bool :=
  match rows with
  | [] => ret regeneration_required0
  | (i, t) :: rest =>
      do global_past <- gets past ;;
      match global_past with
      | None => raise (NameError "past")
      | Some past_rows =>
          do past_i <- lift (index past_rows i) ;;
          do prm <- gets params ;;
          do seq <- lift (getitem prm "seq") ;;
          let decoded :=
            decodenewlines (decode past_i)
            +:+ decodenewlines (decode (slice t seq (seq + n_generated))) in
          let found := calc_ai_text decoded in
          do excluded_i <- lift (index excluded_world_info i) ;;
          let found := found ∖ excluded_i in
          if negb (Nat.eqb (size found) 0) then ret true
          else scan_world_info rest n_generated excluded_world_info regeneration_required0
      end
  end.

Definition mtj_stopping_callback (generated : list (list Z)) (n_generated : Z)
           (excluded_world_info : list (gset Z))
  : M state (list (gset Z) * bool * bool) :=
  run modify (with_vars (fun v => set_generated_tkns (generated_tkns v + 1) v)) ;;
  run assert (Nat.eqb (length excluded_world_info) (length generated)) ;;
  do regeneration_required0 <- gets (fun s => regeneration_required (bridge s)) ;;
  do halt <- gets (fun s =>
       abort (vars s)
       || negb (generating (bridge s))
       || (genamt (vars s) <=? generated_tkns (vars s))) ;;
  run modify (with_bridge (set_regeneration_required false)) ;;
  do n <- gets (fun s => numseqs (vars s)) ;;
  run for_each (seqZ 0 n) (store_generated generated n_generated) ;;
  do dyn <- gets (fun s => dynamicscan (vars s)) ;;
  if negb dyn || halt then ret (excluded_world_info, regeneration_required0, halt)
  else
    do regeneration_required1 <-
         scan_world_info (enumerate generated) n_generated excluded_world_info
           regeneration_required0 ;;
    ret (excluded_world_info, regeneration_required1, halt).

(** For stating what the hook does: the state once the token has been
    counted and [regeneration_required] reset, and the halt flag the hook
    computes on entry from [s]. *)
Definition counted (s : state) : state :=
  with_bridge (set_regeneration_required false)
    (with_vars (fun v => set_generated_tkns (generated_tkns v + 1) v) s).

Definition halt_of (s : state) : bool :=
  abort (vars s)
  || negb (generating (bridge s))
  || (genamt (vars s) <=? generated_tkns (vars s) + 1).

(** *** [mtj_settings_callback] *)

Inductive setting : Type :=
| SList (l : list Z)
| SFloat (x : pyfloat)
| SInt (z : Z).

Definition mtj_settings_callback : M state (gmap string setting) :=
  do cfg <- gets (fun s => sampling (vars s)) ;;
  let sampler_order0 := sampler_order cfg in
  let sampler_order1 :=
    if (length sampler_order0 <? 7)%nat then 6 :: sampler_order0 else sampler_order0 in
  do top_k' <- lift (py_int (top_k cfg)) ;;
  do rprange' <- lift (py_int (rep_pen_range cfg)) ;;
  ret (list_to_map
         [("sampler_order", SList (sampler_order cfg));
          ("top_p", SFloat (py_float (top_p cfg)));
          ("temp", SFloat (py_float (temp cfg)));
          ("top_k", SInt top_k');
          ("tfs", SFloat (py_float (tfs cfg)));
          ("typical", SFloat (py_float (typical cfg)));
          ("top_a", SFloat (py_float (top_a cfg)));
          ("repetition_penalty", SFloat (py_float (rep_pen cfg)));
          ("rpslope", SFloat (py_float (rep_pen_slope cfg)));
          ("rprange", SInt rprange')]).

(** *** [_load]: the bad-words assignment once the tokenizer is there *)

Definition load_badwords (vocab : list (string * Z)) : M state unit :=
  modify (with_vars (fun v =>
    set_badwordsids (Badwords.derive (badwordsids v) (model_type v) (newlinemode v) vocab) v)).

(** *** [get_soft_tokens] *)

(** [params.get("d_embed", params["d_model"])]: the default is evaluated
    first, so a missing ["d_model"] raises even when ["d_embed"] is there. *)
Definition embedding_width (prm : gmap string Z) : res Z :=
  match getitem prm "d_model" with
  | Ok d_model => Ok (dict_get prm "d_embed" d_model)
  | Raise e => Raise e
  end.

(** The placeholder after [np.pad], before [reshape]. *)
Definition padded_placeholder (prm : gmap string Z) : res (ndarray pyfloat) :=
  match embedding_width prm with
  | Raise e => Raise e
  | Ok width =>
  match zeros fzero [1; width] float32 with
  | Raise e => Raise e
  | Ok tensor =>
  match nd_shape tensor with
  | [] => Raise IndexError
  | rows :: _ =>
  match getitem prm "seq" with
  | Raise e => Raise e
  | Ok seq =>
  match getitem prm "cores_per_replica" with
  | Raise e => Raise e
  | Ok cores =>
  match py_mod seq (- cores) with
  | Raise e => Raise e
  | Ok m =>
      let padding_amount := seq - m - rows in
      pad_rows_after fzero tensor padding_amount
  end end end end end end.

(** The placeholder as it is handed to [shard_xmap]. *)
Definition soft_placeholder (prm : gmap string Z) : res (ndarray pyfloat) :=
  match padded_placeholder prm with
  | Raise e => Raise e
  | Ok tensor =>
  match getitem prm "cores_per_replica" with
  | Raise e => Raise e
  | Ok cores =>
  match embedding_width prm with
  | Raise e => Raise e
  | Ok width => reshape tensor [cores; -1; width]
  end end end.

(** Lines 214-241: without a configured soft prompt the placeholder
    becomes [koboldai_vars.sp]. *)
Definition ensure_soft_prompt : M state unit :=
  do configured <- gets (fun s => sp (vars s)) ;;
  match configured with
  | Some _ => ret tt
  | None =>
      do prm <- gets params ;;
      do tensor <- lift (soft_placeholder prm) ;;
      do sharded <- lift (shard_xmap tensor) ;;
      modify (with_vars (set_sp (Some sharded)))
  end.

Definition get_soft_tokens : M state (ndarray Z) :=
  run ensure_soft_prompt ;;
  do prm <- gets params ;;
  do n_vocab <- lift (getitem prm "n_vocab") ;;
  do n_vocab_padding <- lift (getitem prm "n_vocab_padding") ;;
  do n_vocab' <- lift (getitem prm "n_vocab") ;;
  do n_vocab_padding' <- lift (getitem prm "n_vocab_padding") ;;
  do len <- gets (fun s => sp_length (vars s)) ;;
  let soft_tokens :=
    arange_uint32 (n_vocab + n_vocab_padding) (n_vocab' + n_vocab_padding' + len) in
  ret soft_tokens.

End Adapter.

End HFMTJ.

(** ** generic_hf_torch.py: [GenericHFTorchInferenceModel._load] *)

Module GenericHFTorch.

Inductive device : Type :=
| Cpu
| Cuda (index : Z)
| Meta.

(** File names fixed by [transformers]. *)
Definition CONFIG_NAME : string := "config.json".
Definition WEIGHTS_NAME : string := "pytorch_model.bin".
Definition WEIGHTS_INDEX_NAME : string := "pytorch_model.bin.index.json".

Section Load.

(** The model configuration object and the world outside the process
    (file system, hub cache, devices). *)
Variable Config : Type.
Variable World : Type.

(** What [_load] tracks of a torch module: the precision of its
    parameters, where they are, and its [config]. *)
Record torch_model : Type := mk_model {
  precision : dtype;
  placed_on : device;
  config : Config
}.

Definition half (m : torch_model) : torch_model := mk_model float16 (placed_on m) (config m).
Definition float (m : torch_model) : torch_model := mk_model float32 (placed_on m) (config m).
Definition to (d : device) (m : torch_model) : torch_model := mk_model (precision m) d (config m).

(** Calls that leave the module.  [hf_hub_download] is always called with
    [cache_dir="cache"], [local_files_only=True], [legacy_cache_layout=False];
    [load_weight_map] is [open] and [json.load] of the index file followed
    by [set(map_data["weight_map"].values())]. *)
Inductive call : Type :=
| tokenizer_save_pretrained (path : string)
| model_save_pretrained (m : torch_model) (path max_shard_size : string)
| hf_hub_download (repo filename revision : string)
| shutil_move (src dst : string)
| load_weight_map (index_filename : string)
| shutil_rmtree (path : string)
| breakmodel_device_config (cfg : Config)
| move_to_devices.

Inductive answer : Type :=
| NoAnswer
| Path (p : string)
| Filenames (names : list string).

(** How the outside answers a call. *)
Variable perform : call -> World -> res answer * World.

Variable realpath : string -> string.
Variable path_join : string -> string -> string.
(** [self.get_local_model_path(ignore_existance=True)] and
    [utils.from_pretrained_index_filename] *)
Variable local_model_path : string.
Variable from_pretrained_index_filename : string.

(** [utils.koboldai_vars], as far as the modelled parts of [_load] use it *)
Record koboldai_vars : Type := mk_vars {
  model : string;
  revision : string;
  model_type : string;
  newlinemode : string;
  badwordsids : badwords;
  hascuda : bool;
  usegpu : bool;
  breakmodel : bool;
  lazy_load : bool;
  fp32_model : bool;
  gpu_device : Z
}.

(** The state [_load] works on.  [local_model] is the local variable
    [model] of [_load]: the assignment [model = model.half()] makes the
    name local to the whole function, and it is the only statement that
    binds it.  [calls] lists the calls made so far, oldest first. *)
Record load_state : Type := mk_load_state {
  vars : koboldai_vars;
  disk_blocks : Z;
  num_shards : option Z;
  self_model : torch_model;
  local_model : option torch_model;
  world : World;
  calls : list call
}.

Definition set_fp32_model (b : bool) (v : koboldai_vars) : koboldai_vars :=
  mk_vars (model v) (revision v) (model_type v) (newlinemode v) (badwordsids v)
    (hascuda v) (usegpu v) (breakmodel v) (lazy_load v) b (gpu_device v).
Definition set_badwordsids (b : badwords) (v : koboldai_vars) : koboldai_vars :=
  mk_vars (model v) (revision v) (model_type v) (newlinemode v) b
    (hascuda v) (usegpu v) (breakmodel v) (lazy_load v) (fp32_model v) (gpu_device v).

Definition with_vars (f : koboldai_vars -> koboldai_vars) (s : load_state) : load_state :=
  mk_load_state (f (vars s)) (disk_blocks s) (num_shards s) (self_model s)
    (local_model s) (world s) (calls s).
Definition set_self_model (m : torch_model) (s : load_state) : load_state :=
  mk_load_state (vars s) (disk_blocks s) (num_shards s) m (local_model s) (world s) (calls s).
Definition set_local_model (m : option torch_model) (s : load_state) : load_state :=
  mk_load_state (vars s) (disk_blocks s) (num_shards s) (self_model s) m (world s) (calls s).
Definition set_world (w : World) (s : load_state) : load_state :=
  mk_load_state (vars s) (disk_blocks s) (num_shards s) (self_model s) (local_model s)
    w (calls s).
Definition log_call (c : call) (s : load_state) : load_state :=
  mk_load_state (vars s) (disk_blocks s) (num_shards s) (self_model s) (local_model s)
    (world s) (calls s ++ [c]).

(** Make the call [c]: it is recorded, the outside answers and may raise. *)
Definition extern (c : call) : M load_state answer :=
  fun s =>
    let s1 := log_call c s in
    match perform c (world s1) with
    | (r, w) => (r, set_world w s1)
    end.

Definition extern_path (c : call) : M load_state string :=
  do a <- extern c ;;
  match a with Path p => ret p | _ => raise TypeError end.

Definition extern_filenames (c : call) : M load_state (list string) :=
  do a <- extern c ;;
  match a with Filenames l => ret l | _ => raise TypeError end.

Definition extern_ (c : call) : M load_state unit :=
  run extern c ;; ret tt.

(** Reading the local variable [model]. *)
Definition read_local_model : M load_state torch_model :=
  do m <- gets local_model ;;
  match m with
  | Some m => ret m
  | None => raise (UnboundLocalError "model")
  end.

(** *** The patched [torch._utils._rebuild_tensor] (lines 100-121) *)

(** A storage class such as [torch.FloatStorage]: its class attribute
    [dtype] when that is a [torch.dtype], and the dtype of an instance. *)
Record storage_class : Type := mk_storage_class {
  class_dtype : option dtype;
  instance_dtype : dtype
}.

Variable Payload : Type.
Variable Tensor : Type.

Inductive storage : Type :=
| TorchStorage (dt : dtype) (payload : Payload)
| LazyTensor (storage_type : storage_class) (payload : Payload).

Variable old_rebuild_tensor : storage -> Z -> list Z -> list Z -> res Tensor.

Definition declared_dtype (st : storage) : dtype :=
  match st with
  | TorchStorage dt _ => dt
  | LazyTensor storage_type _ =>
      match class_dtype storage_type with
      | Some dt => dt
      | None => instance_dtype storage_type
      end
  end.

Definition new_rebuild_tensor (st : storage) (storage_offset : Z) (shape stride : list Z)
  : M load_state Tensor :=
  let dt := declared_dtype st in
  run when (dtype_is dt float32 && (2 <=? length shape)%nat)
        (modify (with_vars (set_fp32_model true))) ;;
  lift (old_rebuild_tensor st storage_offset shape stride).

(** *** Saving a downloaded model (lines 123-225) *)

(** [shutil.move(os.path.realpath(hf_hub_download(model, filename, ...)),
                 os.path.join(local_model_path, filename))] *)
Definition move_from_cache (filename : string) : M load_state unit :=
  do v <- gets vars ;;
  do cached <- extern_path (hf_hub_download (model v) filename (revision v)) ;;
  extern_ (shutil_move (realpath cached) (path_join local_model_path filename)).

(** Lines 165-190. *)
Definition save_unsharded_weights : M load_state unit :=
  for_each [WEIGHTS_NAME; "model.safetensors"] (fun possible_weight_name =>
    try_except (move_from_cache possible_weight_name)
      (fun e =>
         if String.eqb possible_weight_name "model.safetensors" then raise e
         else ret tt)).

(** Lines 192-224. *)
Definition save_sharded_weights : M load_state unit :=
  do filenames <- extern_filenames (load_weight_map from_pretrained_index_filename) ;;
  run extern_ (shutil_move (realpath from_pretrained_index_filename)
                 (path_join local_model_path WEIGHTS_INDEX_NAME)) ;;
  for_each filenames move_from_cache.

(** Lines 128-136: [model = model.half()] and [model.save_pretrained]. *)
Definition convert_and_save : M load_state unit :=
  do m <- read_local_model ;;
  run modify (set_local_model (Some (half m))) ;;
  do m' <- read_local_model ;;
  extern_ (model_save_pretrained m' local_model_path "500MiB").

(** Lines 138-224. *)
Definition copy_checkpoint_files : M load_state unit :=
  run move_from_cache CONFIG_NAME ;;
  do shards <- gets num_shards ;;
  match shards with
  | None => save_unsharded_weights
  | Some _ => save_sharded_weights
  end.

Definition save_downloaded_model (save_model : bool) : M load_state unit :=
  when save_model (
    run extern_ (tokenizer_save_pretrained local_model_path) ;;
    do fp32 <- gets (fun s => fp32_model (vars s)) ;;
    do blocks <- gets disk_blocks ;;
    run (if fp32 && (blocks =? 0) then convert_and_save else copy_checkpoint_files) ;;
    extern_ (shutil_rmtree "cache/")).

(** *** The bad-words assignment (lines 227-236) *)

Definition load_badwords (vocab : list (string * Z)) : M load_state unit :=
  modify (with_vars (fun v =>
    set_badwordsids (Badwords.derive (badwordsids v) (model_type v) (newlinemode v) vocab) v)).

(** *** The final placement (lines 240-260) *)

Definition place_on_cpu : M load_state unit :=
  modify (fun s => set_self_model (float (to Cpu (self_model s))) s).

Definition place_model : M load_state unit :=
  do v <- gets vars ;;
  do blocks <- gets disk_blocks ;;
  if hascuda v then
    if usegpu v then
      modify (fun s => set_self_model (to (Cuda (gpu_device v)) (half (self_model s))) s)
    else if breakmodel v then
      run when (negb (lazy_load v))
            (do m <- read_local_model ;;
             extern_ (breakmodel_device_config (config m))) ;;
      extern_ move_to_devices
    else if 0 <? blocks then extern_ move_to_devices
    else if 0 <? blocks then extern_ move_to_devices
    else place_on_cpu
  else if 0 <? blocks then extern_ move_to_devices
  else place_on_cpu.

(** The placement in the specification's words, for comparison with
    [place_model]: four cases in strict priority order, the second asking
    only for the split-placement flag, the plan being computed from the
    loaded model's configuration when lazy loading was off. *)
Definition place_model_as_specified : M load_state unit :=
  do v <- gets vars ;;
  do blocks <- gets disk_blocks ;;
  if hascuda v && usegpu v then
    modify (fun s => set_self_model (to (Cuda (gpu_device v)) (half (self_model s))) s)
  else if breakmodel v then
    run when (negb (lazy_load v))
          (do m <- gets self_model ;;
           extern_ (breakmodel_device_config (config m))) ;;
    extern_ move_to_devices
  else if 0 <? blocks then extern_ move_to_devices
  else place_on_cpu.

End Load.

End GenericHFTorch.

(** ** A small outside world for running the loader

    The hub cache is the list of file names it holds; a download of a
    name that is not cached raises, every other call succeeds. *)

Module ToyWorld.
Import GenericHFTorch.

Definition toy_perform (c : call unit) (cache : list string) : res answer * list string :=
  match c with
  | hf_hub_download _ _ filename _ =>
      if existsb (String.eqb filename) cache
      then (Ok (Path ("cache/" +:+ filename)), cache)
      else (Raise (LibraryError "hf_hub_download"), cache)
  | load_weight_map _ _ => (Ok (Filenames cache), cache)
  | shutil_rmtree _ _ => (Ok NoAnswer, [])
  | _ => (Ok NoAnswer, cache)
  end.

Definition toy_join (a b : string) : string := a +:+ "/" +:+ b.

Definition toy_vars (cuda gpu split lazy fp32 : bool) : koboldai_vars :=
  mk_vars "org/model" "main" "llama" "n" badwordsids_default cuda gpu split lazy fp32 0.

Definition toy_model : torch_model unit := mk_model unit float32 Meta tt.

Definition toy_state (v : koboldai_vars) (blocks : Z) (cache : list string)
  : load_state unit (list string) :=
  mk_load_state unit (list string) v blocks None toy_model None cache [].

(** A download that the probe found to be fp32, no disk blocks. *)
Definition fp32_download_state : load_state unit (list string) :=
  toy_state (toy_vars false false false false true) 0 ["config.json"; "pytorch_model.bin"].

End ToyWorld.

(** ** A small engine for running the TPU adapter

    Floats are stood in for by integers, the tokenizer decodes to the
    empty text and no world info is ever found. *)

Module ToyEngine.
Import Numpy HFMTJ.

Definition toy_float_of_int (z : Z) : Z := z.
Definition toy_int_of_float (x : Z) : res Z := Ok x.
Definition toy_cast (dt : dtype) (x : Z) : Z := x.
Definition toy_shard_xmap (t : ndarray Z) : res (ndarray Z) := Ok t.
Definition toy_decode (tokens : list Z) : string := "".
Definition toy_decodenewlines (text : string) : string := text.
Definition toy_calc_ai_text (text : string) : gset Z := ∅.

Definition toy_sampling (order : list Z) : sampler_vars Z :=
  mk_sampler_vars Z order (Int Z 1) (Int Z 1) (Int Z 0) (Int Z 1) (Int Z 1) (Int Z 0)
    (Int Z 1) (Int Z 0) (Int Z 0).

Definition toy_vars (abort dynamicscan : bool) (generated_tkns genamt sp_length : Z)
           (order : list Z) : koboldai_vars Z (ndarray Z) :=
  mk_vars Z (ndarray Z) abort generated_tkns genamt 1 dynamicscan None sp_length
    badwordsids_default "llama" "n" (toy_sampling order).

Definition toy_bridge : lua_koboldbridge Z :=
  mk_bridge Z true false {[ 1 := ∅ ]} [] 0.

Definition toy_params : gmap string Z :=
  list_to_map [("d_model", 2); ("seq", 20); ("cores_per_replica", 8);
               ("n_vocab", 50257); ("n_vocab_padding", 143)].

Definition toy_state (v : koboldai_vars Z (ndarray Z)) : state Z (ndarray Z) :=
  mk_state Z (ndarray Z) v toy_bridge toy_params None.

(** Four scripts: one that leaves the scores alone, one that adds an
    entry to the first row, one that adds an entry to every row, one that
    drops the last row. *)
Definition genmod_keep : M (state Z (ndarray Z)) unit := ret tt.

Definition genmod_ragged : M (state Z (ndarray Z)) unit :=
  modify (with_bridge Z (ndarray Z) (fun l =>
    set_logits Z
      match logits Z l with
      | [] => []
      | (k, row) :: rest => (k, row ++ [(Z.of_nat (length row) + 1, 0)]) :: rest
      end l)).

Definition genmod_widen : M (state Z (ndarray Z)) unit :=
  modify (with_bridge Z (ndarray Z) (fun l =>
    set_logits Z
      (map (fun k_row => (fst k_row,
                          snd k_row ++ [(Z.of_nat (length (snd k_row)) + 1, 0)]))
           (logits Z l)) l)).

Definition genmod_drop_row : M (state Z (ndarray Z)) unit :=
  modify (with_bridge Z (ndarray Z) (fun l => set_logits Z (removelast (logits Z l)) l)).

Definition toy_scores : score_batch Z := mk_scores Z float32 3 [[1; 2; 3]; [4; 5; 6]].

End ToyEngine.

(** ** hf_mtj.py: the rest of [HFMTJInferenceModel]

    [__init__], the part of [setup_mtj] around the hooks, [_load] and
    [_raw_generate].  They work on more of the process than the hooks do:
    the state of the hooks is one field of the session. *)

Module HFMTJSession.
Import Numpy HFMTJ.

(** Built-in [FileNotFoundError], carried by its class name. *)
Definition FileNotFoundError : exn := LibraryError "FileNotFoundError".

Definition GPTJ : string := "TPUMeshTransformerGPTJ".
Definition GPTNeoX : string := "TPUMeshTransformerGPTNeoX".

(** [model in ("TPUMeshTransformerGPTJ", "TPUMeshTransformerGPTNeoX")] *)
Definition is_mesh_model (model : string) : bool :=
  existsb (String.eqb model) [GPTJ; GPTNeoX].

(** [ModelCapabilities(...)] as [__init__] builds it *)
Record ModelCapabilities : Type := mk_capabilities {
  embedding_manipulation : bool;
  post_token_hooks : bool;
  stopper_hooks : bool;
  post_token_probs : bool
}.

Section Session.

Variable pyfloat : Type.
Variable fzero : pyfloat.
Variable Sharded : Type.
Variable shard_xmap : ndarray pyfloat -> res Sharded.
Variable Config : Type.

(** [os.path.isdir] *)
Variable isdir : string -> bool.

(** Modelled from the spec: [init_model_config] is inherited from a class
    that is not part of these files; it reads the checkpoint's
    configuration, whose model-type tag becomes
    [koboldai_vars.model_type]. *)
Variable init_model_config : res (Config * string).

(** [tpu_mtj_backend.load_model(model, hf_checkpoint=..., initial_load=...,
    **config)]: when it returns, the engine has its parameters and its
    tokenizer, here the tokenizer's vocabulary. *)
Variable load_model :
  string -> bool -> bool -> Config -> res (gmap string Z * list (string * Z)).

(** The keyword arguments of [tpu_mtj_backend.infer_static]. *)
Record infer_static_args : Type := mk_infer_args {
  kw_prompt : ndarray Z;
  kw_gen_len : Z;
  kw_temp : pynum pyfloat;
  kw_top_p : pynum pyfloat;
  kw_top_k : pynum pyfloat;
  kw_tfs : pynum pyfloat;
  kw_typical : pynum pyfloat;
  kw_top_a : pynum pyfloat;
  kw_numseqs : Z;
  kw_repetition_penalty : pynum pyfloat;
  kw_rpslope : pynum pyfloat;
  kw_rprange : pynum pyfloat;
  kw_soft_embeddings : option Sharded;
  kw_soft_tokens : ndarray Z;
  kw_sampler_order : list Z
}.

Variable infer_static : infer_static_args -> res (ndarray Z).

(** Calls into the engine. *)
Inductive engine_call : Type :=
| load_model_call (model : string) (hf_checkpoint initial_load : bool) (cfg : Config)
| infer_static_call (args : infer_static_args).

(** The model object after [__init__]. *)
Record instance : Type := mk_instance {
  model_name : string;
  self_model : option unit;
  self_tokenizer : option (list (string * Z));
  self_model_config : option Config;
  capabilties : ModelCapabilities
}.

Definition __init__ (name : string) : instance :=
  mk_instance name None None None (mk_capabilities false false false false).

(** The session: the state the hooks use, further attributes of
    [utils.koboldai_vars], the model object, what [setup_mtj] assigns in
    [tpu_mtj_backend], and the engine calls made so far, oldest first. *)
Record session : Type := mk_session {
  hooks_state : state pyfloat Sharded;
  model : string;
  custmodpth : string;
  use_colab_tpu : bool;
  allowsp : bool;
  modeldim : Z;
  compiling : bool;
  self : instance;
  pad_token_id : Z;
  hooks_installed : bool;
  engine_calls : list engine_call
}.

Definition on_hooks_state (f : state pyfloat Sharded -> state pyfloat Sharded) (x : session)
  : session :=
  mk_session (f (hooks_state x)) (model x) (custmodpth x) (use_colab_tpu x) (allowsp x)
    (modeldim x) (compiling x) (self x) (pad_token_id x) (hooks_installed x)
    (engine_calls x).
Definition set_allowsp (b : bool) (x : session) : session :=
  mk_session (hooks_state x) (model x) (custmodpth x) (use_colab_tpu x) b
    (modeldim x) (compiling x) (self x) (pad_token_id x) (hooks_installed x)
    (engine_calls x).
Definition set_modeldim (n : Z) (x : session) : session :=
  mk_session (hooks_state x) (model x) (custmodpth x) (use_colab_tpu x) (allowsp x)
    n (compiling x) (self x) (pad_token_id x) (hooks_installed x) (engine_calls x).
Definition set_compiling (b : bool) (x : session) : session :=
  mk_session (hooks_state x) (model x) (custmodpth x) (use_colab_tpu x) (allowsp x)
    (modeldim x) b (self x) (pad_token_id x) (hooks_installed x) (engine_calls x).
Definition set_self (i : instance) (x : session) : session :=
  mk_session (hooks_state x) (model x) (custmodpth x) (use_colab_tpu x) (allowsp x)
    (modeldim x) (compiling x) i (pad_token_id x) (hooks_installed x) (engine_calls x).
Definition set_pad_token_id (n : Z) (x : session) : session :=
  mk_session (hooks_state x) (model x) (custmodpth x) (use_colab_tpu x) (allowsp x)
    (modeldim x) (compiling x) (self x) n (hooks_installed x) (engine_calls x).
Definition set_hooks_installed (b : bool) (x : session) : session :=
  mk_session (hooks_state x) (model x) (custmodpth x) (use_colab_tpu x) (allowsp x)
    (modeldim x) (compiling x) (self x) (pad_token_id x) b (engine_calls x).
Definition log_engine_call (c : engine_call) (x : session) : session :=
  mk_session (hooks_state x) (model x) (custmodpth x) (use_colab_tpu x) (allowsp x)
    (modeldim x) (compiling x) (self x) (pad_token_id x) (hooks_installed x)
    (engine_calls x ++ [c]).

Definition set_tokenizer (t : option (list (string * Z))) (i : instance) : instance :=
  mk_instance (model_name i) (self_model i) t (self_model_config i) (capabilties i).
Definition set_model_config (c : option Config) (i : instance) : instance :=
  mk_instance (model_name i) (self_model i) (self_tokenizer i) c (capabilties i).

Definition set_model_type (t : string) (v : koboldai_vars pyfloat Sharded)
  : koboldai_vars pyfloat Sharded :=
  mk_vars pyfloat Sharded (abort _ _ v) (generated_tkns _ _ v) (genamt _ _ v) (numseqs _ _ v)
    (dynamicscan _ _ v) (sp _ _ v) (sp_length _ _ v) (badwordsids _ _ v) t
    (newlinemode _ _ v) (sampling _ _ v).
Definition set_params (prm : gmap string Z) (s : state pyfloat Sharded)
  : state pyfloat Sharded :=
  mk_state pyfloat Sharded (vars _ _ s) (bridge _ _ s) prm (past _ _ s).

(** Run a computation of the hooks' state inside the session. *)
Definition in_hooks_state {A} (c : M (state pyfloat Sharded) A) : M session A :=
  fun x => match c (hooks_state x) with
           | (r, s') => (r, on_hooks_state (fun _ => s') x)
           end.

(** [mtj_compiling_callback] and [mtj_stopped_compiling_callback]; the
    printed line is left out. *)
Definition mtj_compiling_callback : M session unit := modify (set_compiling true).
Definition mtj_stopped_compiling_callback : M session unit := modify (set_compiling false).

(** [setup_mtj], lines 149-177.  An empty [custmodpth] stands for every
    falsy value.  Installing the five hooks, [koboldai_vars] and [socketio]
    in [tpu_mtj_backend] is the flag [hooks_installed]. *)
Definition setup_mtj : M session unit :=
  do name <- gets model ;;
  run when (String.eqb name GPTNeoX)
        (modify (on_hooks_state
                   (with_vars _ _ (set_badwordsids _ _ badwordsids_neox)))) ;;
  do path <- gets custmodpth ;;
  run when (is_mesh_model name && (String.eqb path "" || negb (isdir path)))
        (raise FileNotFoundError) ;;
  run when (String.eqb name GPTNeoX) (modify (set_pad_token_id 2)) ;;
  modify (set_hooks_installed true).

(** [_load], lines 179-209. *)
Definition _load (save_model initial_load : bool) : M session unit :=
  run setup_mtj ;;
  do cfg_type <- lift init_model_config ;;
  run modify (fun x => set_self (set_model_config (Some (fst cfg_type)) (self x)) x) ;;
  run modify (on_hooks_state (with_vars _ _ (set_model_type (snd cfg_type)))) ;;
  run modify (set_allowsp true) ;;
  do name <- gets model ;;
  do colab <- gets use_colab_tpu ;;
  let hf_checkpoint := negb (is_mesh_model name) && colab in
  run modify (log_engine_call (load_model_call name hf_checkpoint initial_load (fst cfg_type))) ;;
  do loaded <- lift (load_model name hf_checkpoint initial_load (fst cfg_type)) ;;
  run modify (on_hooks_state (set_params (fst loaded))) ;;
  do d_model <- lift (getitem (fst loaded) "d_model") ;;
  run modify (set_modeldim (dict_get (fst loaded) "d_embed" d_model)) ;;
  run modify (fun x => set_self (set_tokenizer (Some (snd loaded)) (self x)) x) ;;
  in_hooks_state (load_badwords pyfloat Sharded (snd loaded)).

(** [np.uint32(prompt_tokens)] on a list of ids: a 1-D array, each id
    stored in 32 bits. *)
Definition np_uint32 (tokens : list Z) : ndarray Z :=
  mk_ndarray uint32 [Z.of_nat (length tokens)] (map (fun t => t mod two_pow_32) tokens).

(** The result [_raw_generate] is annotated to return, with the keyword
    arguments of line 283. *)
Record GenerationResult : Type := mk_generation_result {
  out_batches : ndarray Z;
  prompt : list Z;
  is_whole_generation : bool;
  single_line : bool
}.

(** [_raw_generate], lines 253-289; [np.array] of the engine's array is
    that array.  Line 283 evaluates the name [GenerationResult] before the
    arguments of the call.  Nothing binds that name in [hf_mtj.py]: line 13
    imports [ModelCapabilities] only, and the annotations of lines 257 and
    260 are not evaluated (line 1).  So the lookup raises [NameError] and
    no result is built. *)
Definition _raw_generate (prompt_tokens : list Z) (max_new : Z)
           (gen_settings : sampler_vars pyfloat) (single_line : bool) (batch_count : Z)
  : M session GenerationResult :=
  do soft_tokens <- in_hooks_state (get_soft_tokens pyfloat fzero Sharded shard_xmap) ;;
  do embeddings <- gets (fun x => sp _ _ (vars _ _ (hooks_state x))) ;;
  let args :=
    mk_infer_args (np_uint32 prompt_tokens) max_new
      (temp _ gen_settings) (top_p _ gen_settings) (top_k _ gen_settings)
      (tfs _ gen_settings) (typical _ gen_settings) (top_a _ gen_settings)
      batch_count
      (rep_pen _ gen_settings) (rep_pen_slope _ gen_settings) (rep_pen_range _ gen_settings)
      embeddings soft_tokens (sampler_order _ gen_settings) in
  run modify (log_engine_call (infer_static_call args)) ;;
  do genout <- lift (infer_static args) ;;
  raise (NameError "GenerationResult").

End Session.

End HFMTJSession.

(** ** Notions for stating what the hooks do *)

Module HFMTJNotions.
Import Numpy HFMTJ.

Section Notions.

Variable pyfloat : Type.
Variable Sharded : Type.

(** The newest token of sequence [i] is in the bridge's table [i + 1]
    under the key [tkns]. *)
Definition token_stored (generated : list (list Z)) (n_generated tkns i : Z)
           (s : state pyfloat Sharded) : Prop :=
  exists seq row tok t,
    params _ _ s !! "seq" = Some seq
    /\ index generated i = Ok row
    /\ index row (seq + n_generated - 1) = Ok tok
    /\ bridge_generated _ (bridge _ _ s) !! (i + 1) = Some t
    /\ t !! tkns = Some tok.

(** The script leaves the table of scores as the hook filled it. *)
Definition keeps_logits (script : M (state pyfloat Sharded) unit) : Prop :=
  forall s, fst (script s) = Ok tt
            /\ logits _ (bridge _ _ (snd (script s))) = logits _ (bridge _ _ s).

(** Every row of the batch has [sb_cols] entries. *)
Definition well_formed (scores : score_batch pyfloat) : Prop :=
  Forall (fun row => length row = sb_cols _ scores) (sb_rows _ scores).

End Notions.

End HFMTJNotions.

(** ** Notions for stating what the parts of [_load] do *)

Module GenericNotions.
Import GenericHFTorch.

Section Notions.

Variable Config : Type.
Variable World : Type.

(** The calls recorded between two states. *)
Definition added (s s' : load_state Config World) : list (call Config) :=
  drop (length (calls _ _ s)) (calls _ _ s').

Definition is_rmtree (c : call Config) : bool :=
  match c with shutil_rmtree _ _ => true | _ => false end.

(** Calls that read the hub cache or move a file. *)
Definition is_transfer (c : call Config) : bool :=
  match c with
  | hf_hub_download _ _ _ _ | shutil_move _ _ _ | load_weight_map _ _ => true
  | _ => false
  end.

(** The computation only adds calls, and every call it adds satisfies
    [P]. *)
Definition only_calls {A} (P : call Config -> Prop) (c : M (load_state Config World) A)
  : Prop :=
  forall s, exists l, calls _ _ (snd (c s)) = calls _ _ s ++ l /\ Forall P l.

(** The recorded calls do not hold the answers; the outside does. *)
Variable perform : call Config -> World -> res answer * World.
Variable realpath : string -> string.
Variable path_join : string -> string -> string.
Variable local_model_path : string.

(** The world after the outside has answered the calls [cs] one after the
    other, starting from [w]. *)
Fixpoint world_after (cs : list (call Config)) (w : World) : World :=
  match cs with
  | [] => w
  | c :: cs' => world_after cs' (snd (perform c w))
  end.

(** The calls [tr], made from the world [w], are these and no others: for
    each name of [files], in order, the download of that name from [repo]
    at [revision], answered with a cached path, and then the move of that
    very path's real path to the name under the local model path, which
    returns. *)
Fixpoint cache_moves (repo revision : string) (files : list string) (w : World)
         (tr : list (call Config)) : Prop :=
  match files with
  | [] => tr = []
  | f :: files' =>
      exists cached rest,
        let get := hf_hub_download Config repo f revision in
        let move := shutil_move Config (realpath cached) (path_join local_model_path f) in
        tr = get :: move :: rest
        /\ fst (perform get w) = Ok (Path cached)
        /\ (exists a, fst (perform move (world_after [get] w)) = Ok a)
        /\ cache_moves repo revision files' (world_after [get; move] w) rest
  end.

End Notions.

End GenericNotions.

(** ** [_load] of [generic_hf_torch.py] as a whole

    The parts modelled above run inside the whole function.  What the
    function calls in its base class, in [utils], [torch_lazy_loader] and
    [transformers] is a call answered by the world outside; the
    assignments this file makes ([utils.koboldai_vars], [self], [utils],
    [torch._utils._rebuild_tensor]) are written out.  A call changes the
    world and gives an answer; what [init_model_config] assigns is its
    answer. *)

Module GenericLoad.
Import GenericHFTorch.

(** Built-in [AttributeError], carried by its class name. *)
Definition AttributeError : exn := LibraryError "AttributeError".

Definition low_cpu_mem_usage : string := "low_cpu_mem_usage".

Definition set_model (name : string) (v : koboldai_vars) : koboldai_vars :=
  mk_vars name (revision v) (model_type v) (newlinemode v) (badwordsids v)
    (hascuda v) (usegpu v) (breakmodel v) (lazy_load v) (fp32_model v) (gpu_device v).
Definition set_model_type (t : string) (v : koboldai_vars) : koboldai_vars :=
  mk_vars (model v) (revision v) t (newlinemode v) (badwordsids v)
    (hascuda v) (usegpu v) (breakmodel v) (lazy_load v) (fp32_model v) (gpu_device v).
Definition set_lazy_load (b : bool) (v : koboldai_vars) : koboldai_vars :=
  mk_vars (model v) (revision v) (model_type v) (newlinemode v) (badwordsids v)
    (hascuda v) (usegpu v) (breakmodel v) b (fp32_model v) (gpu_device v).

Section WholeLoad.

Variable Config : Type.
Variable World : Type.
Variable Payload : Type.
Variable Tensor : Type.
(** Any object the function only passes on: a metamodel, a callback, a
    list of names. *)
Variable Obj : Type.
Variable obj_truthy : Obj -> bool.

Variable perform : call Config -> World -> res answer * World.
Variable realpath : string -> string.
Variable path_join : string -> string -> string.
Variable from_pretrained_index_filename : string.
Variable old_rebuild_tensor : storage Payload -> Z -> list Z -> list Z -> res Tensor.

(** [os.path.basename] and [os.path.normpath] *)
Variable basename : string -> string.
Variable normpath : string -> string.

(** [self.get_local_model_path(ignore_existance=True)], without and with
    [legacy=True], as evaluated after line 33. *)
Variable local_model_path : string.
Variable legacy_model_path : string.

(** What a call answers.  [ConfigAnd] is what [init_model_config] leaves
    in [self.model_config] and [utils.koboldai_vars.model_type]. *)
Inductive value : Type :=
| PyNone
| Str (s : string)
| Bool (b : bool)
| Int (n : Z)
| Object (o : Obj)
| ConfigAnd (cfg : Config) (model_type : string)
| ModelOf (m : torch_model Config)
| TokenizerOf (vocab : list (string * Z)).

(** Python's truth value *)
Definition truthy (a : value) : bool :=
  match a with
  | PyNone => false
  | Str s => negb (String.eqb s "")
  | Bool b => b
  | Int n => negb (n =? 0)
  | Object o => obj_truthy o
  | ConfigAnd _ _ => true
  | ModelOf _ => true
  | TokenizerOf vocab => negb (Nat.eqb (length vocab) 0)
  end.

(** The keyword arguments of [torch_lazy_loader.use_lazy_torch_load]; an
    argument that is not passed is [None]. *)
Record lazy_load_kwargs : Type := mk_lazy_kwargs {
  enable : option bool;
  callback : option value;
  dematerialized_modules : option bool;
  use_accelerate_init_empty_weights : option bool
}.

(** What [_load] does outside itself, in the order it does it.  [part] is
    a call of the parts modelled above.  Entering a context manager is the
    call that makes it; leaving it says whether an exception is being
    raised.  [set_rebuild_tensor true] is the assignment of
    [new_rebuild_tensor] to [torch._utils._rebuild_tensor], and
    [set_rebuild_tensor false] the assignment of [old_rebuild_tensor], the
    value that line 100 kept. *)
Inductive load_call : Type :=
| part (c : call Config)
| get_local_model_path (legacy : bool)
| init_model_config
| use_lazy_torch_load (kwargs : lazy_load_kwargs)
| exit_lazy_torch_load (raised : bool)
| _maybe_use_float16
| exit_maybe_use_float16 (raised : bool)
| AutoModelForCausalLM_from_config (cfg : Config)
| GPTNeoForCausalLM_from_config (cfg : Config)
| get_layers_module_names (metamodel : value)
| state_dict_keys (metamodel : value)
| named_buffers (metamodel : value)
| num_layers (cfg : Config)
| _get_lazy_load_callback (n_layers : value)
| set_rebuild_tensor (probe : bool)
| _get_model (location : value) (tf_kwargs : gmap string bool)
| _get_tokenizer (location : value)
| patch_embedding
| get_hidden_size.

(** How the outside answers a call that is not a [part]. *)
Variable answer_of : load_call -> World -> res value * World.

(** The arguments of one call of [torch._utils._rebuild_tensor]. *)
Record rebuild_args : Type := mk_rebuild_args {
  ra_storage : storage Payload;
  ra_storage_offset : Z;
  ra_shape : list Z;
  ra_stride : list Z
}.

(** The calls of [torch._utils._rebuild_tensor] that the library makes
    while it answers a call, in the world the call starts in. *)
Variable rebuilds_during : load_call -> World -> list rebuild_args.

(** The state of [_load]: the state of its parts, further attributes of
    [utils.koboldai_vars], [self] and [utils], the trace of what was done
    outside, oldest first, and what [torch._utils._rebuild_tensor] holds:
    [probe_installed] says that it is a [new_rebuild_tensor], of this call
    of [_load] or left by an earlier one (line 121 is not reached when a
    load raises), and not the library's function. *)
Record loader : Type := mk_loader {
  parts : load_state Config World;
  allowsp : bool;
  custmodpth : string;
  nobreakmodel : bool;
  self_model_config : Config;
  self_tokenizer : value;
  layers_module_names : value;
  module_names_ : value;
  utils_named_buffers : value;
  kai_model : bool;
  modeldim : value;
  trace : list load_call;
  probe_installed : bool
}.

Definition set_parts (s : load_state Config World) (x : loader) : loader :=
  mk_loader s (allowsp x) (custmodpth x) (nobreakmodel x) (self_model_config x)
    (self_tokenizer x) (layers_module_names x) (module_names_ x) (utils_named_buffers x)
    (kai_model x) (modeldim x) (trace x) (probe_installed x).
Definition on_parts (f : load_state Config World -> load_state Config World) (x : loader)
  : loader :=
  set_parts (f (parts x)) x.
Definition set_allowsp (b : bool) (x : loader) : loader :=
  mk_loader (parts x) b (custmodpth x) (nobreakmodel x) (self_model_config x)
    (self_tokenizer x) (layers_module_names x) (module_names_ x) (utils_named_buffers x)
    (kai_model x) (modeldim x) (trace x) (probe_installed x).
Definition set_model_config (cfg : Config) (x : loader) : loader :=
  mk_loader (parts x) (allowsp x) (custmodpth x) (nobreakmodel x) cfg
    (self_tokenizer x) (layers_module_names x) (module_names_ x) (utils_named_buffers x)
    (kai_model x) (modeldim x) (trace x) (probe_installed x).
Definition set_tokenizer (t : value) (x : loader) : loader :=
  mk_loader (parts x) (allowsp x) (custmodpth x) (nobreakmodel x) (self_model_config x)
    t (layers_module_names x) (module_names_ x) (utils_named_buffers x)
    (kai_model x) (modeldim x) (trace x) (probe_installed x).
Definition set_layers_module_names (a : value) (x : loader) : loader :=
  mk_loader (parts x) (allowsp x) (custmodpth x) (nobreakmodel x) (self_model_config x)
    (self_tokenizer x) a (module_names_ x) (utils_named_buffers x)
    (kai_model x) (modeldim x) (trace x) (probe_installed x).
Definition set_module_names (a : value) (x : loader) : loader :=
  mk_loader (parts x) (allowsp x) (custmodpth x) (nobreakmodel x) (self_model_config x)
    (self_tokenizer x) (layers_module_names x) a (utils_named_buffers x)
    (kai_model x) (modeldim x) (trace x) (probe_installed x).
Definition set_named_buffers (a : value) (x : loader) : loader :=
  mk_loader (parts x) (allowsp x) (custmodpth x) (nobreakmodel x) (self_model_config x)
    (self_tokenizer x) (layers_module_names x) (module_names_ x) a
    (kai_model x) (modeldim x) (trace x) (probe_installed x).
Definition set_kai_model (b : bool) (x : loader) : loader :=
  mk_loader (parts x) (allowsp x) (custmodpth x) (nobreakmodel x) (self_model_config x)
    (self_tokenizer x) (layers_module_names x) (module_names_ x) (utils_named_buffers x)
    b (modeldim x) (trace x) (probe_installed x).
Definition set_modeldim (n : value) (x : loader) : loader :=
  mk_loader (parts x) (allowsp x) (custmodpth x) (nobreakmodel x) (self_model_config x)
    (self_tokenizer x) (layers_module_names x) (module_names_ x) (utils_named_buffers x)
    (kai_model x) n (trace x) (probe_installed x).
Definition log (l : list load_call) (x : loader) : loader :=
  mk_loader (parts x) (allowsp x) (custmodpth x) (nobreakmodel x) (self_model_config x)
    (self_tokenizer x) (layers_module_names x) (module_names_ x) (utils_named_buffers x)
    (kai_model x) (modeldim x) (trace x ++ l) (probe_installed x).
Definition set_probe_installed (b : bool) (x : loader) : loader :=
  mk_loader (parts x) (allowsp x) (custmodpth x) (nobreakmodel x) (self_model_config x)
    (self_tokenizer x) (layers_module_names x) (module_names_ x) (utils_named_buffers x)
    (kai_model x) (modeldim x) (trace x) b.

Definition on_vars (f : koboldai_vars -> koboldai_vars) : loader -> loader :=
  on_parts (with_vars Config World f).
Definition the_vars (x : loader) : koboldai_vars := vars _ _ (parts x).

(** Run one of the parts; the calls it records go to the trace. *)
Definition in_parts {A} (c : M (load_state Config World) A) : M loader A :=
  fun x =>
    match c (parts x) with
    | (r, s') =>
        (r, log (map part (drop (length (calls _ _ (parts x))) (calls _ _ s')))
              (set_parts s' x))
    end.

(** Make a call that is not a [part]. *)
Definition ask (c : load_call) : M loader value :=
  fun x =>
    match answer_of c (world _ _ (parts x)) with
    | (r, w) => (r, log [c] (on_parts (set_world _ _ w) x))
    end.

(** One call of the installed [new_rebuild_tensor] by the library: the
    library gets what the function returns or raises, [_load] sees the
    settings it leaves. *)
Definition rebuild_seen (r : rebuild_args) : M (load_state Config World) unit :=
  try_except
    (run new_rebuild_tensor Config World Payload Tensor old_rebuild_tensor
           (ra_storage r) (ra_storage_offset r) (ra_shape r) (ra_stride r) ;;
     ret tt)
    (fun _ => ret tt).

(** A call made while [new_rebuild_tensor] is installed. *)
Definition ask_probed (c : load_call) : M loader value :=
  do w <- gets (fun x => world _ _ (parts x)) ;;
  run in_parts (for_each (rebuilds_during c w) rebuild_seen) ;;
  ask c.

(** A call that loads a checkpoint.  The library rebuilds the tensors
    through whatever [torch._utils._rebuild_tensor] holds at that time:
    the call runs under the probe exactly when one is installed.  (A
    [new_rebuild_tensor] installed over another one sets the same flag and
    ends in the same library function.) *)
Definition ask_loading (c : load_call) : M loader value :=
  do probed <- gets probe_installed ;;
  if probed then ask_probed c else ask c.

(** [with manager: body].  The manager is left also when the body raises;
    the exception goes on unless leaving answers a true value. *)
Definition with_ (enter : load_call) (leave : bool -> load_call) (body : M loader unit)
  : M loader unit :=
  run ask enter ;;
  fun x =>
    match body x with
    | (Ok _, x1) => (run ask (leave false) ;; ret tt) x1
    | (Raise e, x1) =>
        (do a <- ask (leave true) ;; if truthy a then ret tt else raise e) x1
    end.

Definition as_model (a : value) : M loader (torch_model Config) :=
  match a with
  | ModelOf m => ret m
  | _ => raise TypeError
  end.

(** [tokenizer.get_vocab()] *)
Definition get_vocab (t : value) : res (list (string * Z)) :=
  match t with
  | TokenizerOf vocab => Ok vocab
  | _ => Raise AttributeError
  end.

(** Lines 21-43: soft prompts, the name of a custom model, the legacy
    folder, the configuration. *)
Definition resolve_model : M loader unit :=
  run modify (set_allowsp true) ;;
  do name <- gets (fun x => model (the_vars x)) ;;
  run when (String.eqb name "NeoCustom")
        (do path <- gets custmodpth ;;
         modify (on_vars (set_model (basename (normpath path))))) ;;
  do legacy <- ask (get_local_model_path true) ;;
  run when (truthy legacy)
        (in_parts (extern_ Config World perform
                     (shutil_move Config legacy_model_path local_model_path))) ;;
  do a <- ask init_model_config ;;
  match a with
  | ConfigAnd cfg model_type =>
      run modify (set_model_config cfg) ;;
      modify (on_vars (set_model_type model_type))
  | _ => raise TypeError
  end.

(** Lines 45-65: [tf_kwargs], GPT-2, and the early device plan. *)
Definition choose_tf_kwargs : M loader (gmap string bool) :=
  let tf_kwargs : gmap string bool := {[ low_cpu_mem_usage := true ]} in
  do model_type <- gets (fun x => model_type (the_vars x)) ;;
  let gpt2 := String.eqb model_type "gpt2" in
  let tf_kwargs := if gpt2 then delete low_cpu_mem_usage tf_kwargs else tf_kwargs in
  run when gpt2 (modify (on_vars (set_lazy_load false))) ;;
  do v <- gets the_vars ;;
  do nobreak <- gets nobreakmodel ;;
  run when (lazy_load v && hascuda v && breakmodel v && negb nobreak)
        (do cfg <- gets self_model_config ;;
         in_parts (extern_ Config World perform (breakmodel_device_config Config cfg))) ;;
  ret tf_kwargs.

(** Lines 67-78: the names of the model's layers, from a model built
    without weights. *)
Definition discover_layers : M loader unit :=
  with_ (use_lazy_torch_load (mk_lazy_kwargs None None (Some true) (Some true)))
        exit_lazy_torch_load
    (do cfg <- gets self_model_config ;;
     do metamodel <-
       try_except (ask (AutoModelForCausalLM_from_config cfg))
         (fun _ =>
            do cfg' <- gets self_model_config ;;
            ask (GPTNeoForCausalLM_from_config cfg')) ;;
     do names <- ask (get_layers_module_names metamodel) ;;
     run modify (set_layers_module_names names) ;;
     do keys <- ask (state_dict_keys metamodel) ;;
     run modify (set_module_names keys) ;;
     do buffers <- ask (named_buffers metamodel) ;;
     modify (set_named_buffers buffers)).

(** Lines 92-95: the model is stored locally.  Nothing is assigned to
    [torch._utils._rebuild_tensor] here: the two loads run under what it
    holds on entry. *)
Definition load_local (tf_kwargs : gmap string bool) : M loader unit :=
  do location <- ask (get_local_model_path false) ;;
  do a <- ask_loading (_get_model location tf_kwargs) ;;
  do m <- as_model a ;;
  run modify (on_parts (set_self_model Config World m)) ;;
  do location' <- ask (get_local_model_path false) ;;
  do t <- ask_loading (_get_tokenizer location') ;;
  modify (set_tokenizer t).

(** Lines 96-225: the model is downloaded, under the dtype probe, and
    saved.  Line 100 keeps what [torch._utils._rebuild_tensor] holds, line
    118 installs the probe and line 121 puts back what line 100 kept; there
    is no [try] around lines 119-120, so line 121 is skipped when one of
    the two loads raises. *)
Definition download (save_model : bool) (tf_kwargs : gmap string bool) : M loader unit :=
  do old_probed <- gets probe_installed ;;
  run modify (set_probe_installed true) ;;
  run modify (log [set_rebuild_tensor true]) ;;
  do name <- gets (fun x => model (the_vars x)) ;;
  do a <- ask_loading (_get_model (Str name) tf_kwargs) ;;
  do m <- as_model a ;;
  run modify (on_parts (set_self_model Config World m)) ;;
  do name' <- gets (fun x => model (the_vars x)) ;;
  do t <- ask_loading (_get_tokenizer (Str name')) ;;
  run modify (set_tokenizer t) ;;
  run modify (set_probe_installed old_probed) ;;
  run modify (log [set_rebuild_tensor false]) ;;
  in_parts (save_downloaded_model Config World perform realpath path_join local_model_path
              from_pretrained_index_filename save_model).

(** Lines 88-225, the body of the second [with]. *)
Definition fetch_body (save_model : bool) (tf_kwargs : gmap string bool) : M loader unit :=
  do lazy <- gets (fun x => lazy_load (the_vars x)) ;;
  let tf_kwargs := if lazy then delete low_cpu_mem_usage tf_kwargs else tf_kwargs in
  do local <- ask (get_local_model_path false) ;;
  if truthy local then load_local tf_kwargs else download save_model tf_kwargs.

(** Lines 81-225. *)
Definition fetch (save_model : bool) (tf_kwargs : gmap string bool) : M loader unit :=
  with_ _maybe_use_float16 exit_maybe_use_float16
    (do lazy <- gets (fun x => lazy_load (the_vars x)) ;;
     do cb <-
       (if lazy then
          do cfg <- gets self_model_config ;;
          do n <- ask (num_layers cfg) ;;
          ask (_get_lazy_load_callback n)
        else ret PyNone) ;;
     with_ (use_lazy_torch_load (mk_lazy_kwargs (Some lazy) (Some cb) (Some true) None))
           exit_lazy_torch_load
       (fetch_body save_model tf_kwargs)).

(** Lines 227-236. *)
Definition assign_badwords : M loader unit :=
  do v <- gets the_vars ;;
  when (is_badwordsids_default (badwordsids v)
        && negb (Badwords.excluded_model_type (model_type v)))
    (do t <- gets self_tokenizer ;;
     do vocab <- lift (get_vocab t) ;;
     in_parts (load_badwords Config World vocab)).

(** [_load].  On entry the local variable [model] is unbound. *)
Definition _load (save_model initial_load : bool) : M loader unit :=
  run modify (on_parts (set_local_model Config World None)) ;;
  run resolve_model ;;
  do tf_kwargs <- choose_tf_kwargs ;;
  do lazy <- gets (fun x => lazy_load (the_vars x)) ;;
  run when lazy discover_layers ;;
  run fetch save_model tf_kwargs ;;
  run assign_badwords ;;
  run ask patch_embedding ;;
  run in_parts (place_model Config World perform) ;;
  run modify (set_kai_model true) ;;
  do n <- ask get_hidden_size ;;
  modify (set_modeldim n).

(** What was done outside between two states. *)
Definition done_between (x x' : loader) : list load_call :=
  drop (length (trace x)) (trace x').

End WholeLoad.

Arguments PyNone {Config Obj}.
Arguments Str {Config Obj} s.
Arguments Bool {Config Obj} b.
Arguments Int {Config Obj} n.
Arguments Object {Config Obj} o.
Arguments ConfigAnd {Config Obj} cfg model_type.
Arguments ModelOf {Config Obj} m.
Arguments TokenizerOf {Config Obj} vocab.
Arguments mk_lazy_kwargs {Config Obj} _ _ _ _.
Arguments part {Config Obj} c.
Arguments get_local_model_path {Config Obj} legacy.
Arguments init_model_config {Config Obj}.
Arguments use_lazy_torch_load {Config Obj} kwargs.
Arguments exit_lazy_torch_load {Config Obj} raised.
Arguments _maybe_use_float16 {Config Obj}.
Arguments exit_maybe_use_float16 {Config Obj} raised.
Arguments AutoModelForCausalLM_from_config {Config Obj} cfg.
Arguments GPTNeoForCausalLM_from_config {Config Obj} cfg.
Arguments get_layers_module_names {Config Obj} metamodel.
Arguments state_dict_keys {Config Obj} metamodel.
Arguments named_buffers {Config Obj} metamodel.
Arguments num_layers {Config Obj} cfg.
Arguments _get_lazy_load_callback {Config Obj} n_layers.
Arguments set_rebuild_tensor {Config Obj} probe.
Arguments _get_model {Config Obj} location tf_kwargs.
Arguments _get_tokenizer {Config Obj} location.
Arguments patch_embedding {Config Obj}.
Arguments get_hidden_size {Config Obj}.
Arguments mk_rebuild_args {Payload} _ _ _ _.
Arguments ra_storage {Payload} r.
Arguments ra_storage_offset {Payload} r.
Arguments ra_shape {Payload} r.
Arguments ra_stride {Payload} r.
Arguments mk_loader {Config World Obj} _ _ _ _ _ _ _ _ _ _ _ _ _.
Arguments parts {Config World Obj} x : rename.
Arguments allowsp {Config World Obj} x : rename.
Arguments custmodpth {Config World Obj} x : rename.
Arguments nobreakmodel {Config World Obj} x : rename.
Arguments self_model_config {Config World Obj} x : rename.
Arguments self_tokenizer {Config World Obj} x : rename.
Arguments layers_module_names {Config World Obj} x : rename.
Arguments module_names_ {Config World Obj} x : rename.
Arguments utils_named_buffers {Config World Obj} x : rename.
Arguments kai_model {Config World Obj} x : rename.
Arguments modeldim {Config World Obj} x : rename.
Arguments trace {Config World Obj} x : rename.
Arguments probe_installed {Config World Obj} x : rename.
Arguments set_parts {Config World Obj} s x.
Arguments on_parts {Config World Obj} f x.
Arguments set_allowsp {Config World Obj} b x.
Arguments set_model_config {Config World Obj} cfg x.
Arguments set_tokenizer {Config World Obj} t x.
Arguments set_layers_module_names {Config World Obj} a x.
Arguments set_module_names {Config World Obj} a x.
Arguments set_named_buffers {Config World Obj} a x.
Arguments set_kai_model {Config World Obj} b x.
Arguments set_modeldim {Config World Obj} n x.
Arguments log {Config World Obj} l x.
Arguments set_probe_installed {Config World Obj} b x.
Arguments on_vars {Config World Obj} f _.
Arguments the_vars {Config World Obj} x.
Arguments in_parts {Config World Obj A} c _.
Arguments ask {Config World Obj} answer_of c _.
Arguments truthy {Config Obj} obj_truthy a.
Arguments as_model {Config World Obj} a _.
Arguments get_vocab {Config Obj} t.
Arguments done_between {Config World Obj} x x'.

End GenericLoad.

(** ** A small session for running the TPU model *)

Module ToySession.
Import Numpy HFMTJ HFMTJSession ToyEngine.

Definition toy_isdir (path : string) : bool := String.eqb path "models/neox".
Definition toy_init_model_config : res (unit * string) := Ok (tt, "gpt_neox").
Definition toy_load_model (name : string) (hf_checkpoint initial_load : bool) (cfg : unit)
  : res (gmap string Z * list (string * Z)) :=
  Ok (toy_params, Badwords.example_vocab).
Definition toy_infer_static (args : infer_static_args Z (ndarray Z)) : res (ndarray Z) :=
  Ok (mk_ndarray uint32 [1; 3] [11; 12; 13]).

Definition toy_session (name path : string) : session Z (ndarray Z) unit :=
  mk_session Z (ndarray Z) unit (toy_state (toy_vars false false 0 80 4 []))
    name path true false 0 false (__init__ unit name) 50256 false [].

End ToySession.

(** ** Notions for stating what the whole [_load] does *)

Module Outcome.

(** [Q] holds of the outcome of [c] started in [s]. *)
Definition post {S A} (c : M S A) (s : S) (Q : res A -> S -> Prop) : Prop :=
  Q (fst (c s)) (snd (c s)).

Definition raised {A} (r : res A) : Prop := exists e, r = Raise e.

End Outcome.

Module GenericLoadNotions.
Import GenericHFTorch GenericLoad.

Section Notions.

Variable Config : Type.
Variable World : Type.
Variable Obj : Type.

(** The settings that the parts read. *)
Record part_view : Type := mk_part_view {
  pv_hascuda : bool;
  pv_usegpu : bool;
  pv_breakmodel : bool;
  pv_lazy_load : bool;
  pv_model_type : string;
  pv_fp32_model : bool;
  pv_disk_blocks : Z
}.

Definition part_view_of (s : load_state Config World) : part_view :=
  let v := vars _ _ s in
  mk_part_view (hascuda v) (usegpu v) (breakmodel v) (lazy_load v) (model_type v)
    (fp32_model v) (disk_blocks _ _ s).

(** What a call of a part leaves as it is, but for the calls it adds. *)
Definition part_quiet (P : call Config -> Prop) (s s' : load_state Config World) : Prop :=
  part_view_of s' = part_view_of s
  /\ (local_model _ _ s = None -> local_model _ _ s' = None)
  /\ exists l, calls _ _ s' = calls _ _ s ++ l /\ Forall P l.

Record view : Type := mk_view {
  v_parts : part_view;
  v_nobreakmodel : bool;
  v_model_config : Config;
  v_modeldim : value Config Obj;
  v_kai_model : bool;
  v_probe_installed : bool
}.

Definition view_of (x : loader Config World Obj) : view :=
  mk_view (part_view_of (parts x)) (nobreakmodel x) (self_model_config x) (modeldim x)
    (kai_model x) (probe_installed x).

(** The local variable [model] is unbound. *)
Definition unbound (x : loader Config World Obj) : Prop :=
  local_model _ _ (parts x) = None.

(** Between [x] and [x'] only things satisfying [P] were done outside. *)
Definition adds (P : load_call Config Obj -> Prop) (x x' : loader Config World Obj) : Prop :=
  exists l, trace x' = trace x ++ l /\ Forall P l.

(** From [x] to [x'] what [pick] takes of the settings stayed as it was,
    [model] stayed unbound and only things satisfying [P] were done. *)
Definition calm {V} (pick : view -> V) (P : load_call Config Obj -> Prop)
           (x x' : loader Config World Obj) : Prop :=
  pick (view_of x') = pick (view_of x)
  /\ (unbound x -> unbound x')
  /\ adds P x x'.

Definition is_get_model (c : load_call Config Obj) : bool :=
  match c with _get_model _ _ => true | _ => false end.

(** Calls that compute the device plan or move the blocks. *)
Definition is_placement (c : call Config) : bool :=
  match c with
  | breakmodel_device_config _ _ | move_to_devices _ => true
  | _ => false
  end.

(** The calls of the save of a downloaded model. *)
Definition is_save (c : call Config) : bool :=
  match c with
  | tokenizer_save_pretrained _ _ | model_save_pretrained _ _ _ _
  | hf_hub_download _ _ _ _ | shutil_move _ _ _ | load_weight_map _ _
  | shutil_rmtree _ _ => true
  | _ => false
  end.

(** What only the download branch does: the assignments to
    [torch._utils._rebuild_tensor], the saves, the reads of the hub cache
    and the removal of the cache. *)
Definition is_download_step (c : load_call Config Obj) : bool :=
  match c with
  | set_rebuild_tensor _ => true
  | part (tokenizer_save_pretrained _ _) | part (model_save_pretrained _ _ _ _)
  | part (hf_hub_download _ _ _ _) | part (load_weight_map _ _)
  | part (shutil_rmtree _ _) => true
  | _ => false
  end.

(** What lines 21-43 do outside. *)
Definition is_resolve_step (c : load_call Config Obj) : bool :=
  match c with
  | get_local_model_path true | init_model_config => true
  | part (shutil_move _ _ _) => true
  | _ => false
  end.

(** What lines 67-78 do outside. *)
Definition is_discover_step (c : load_call Config Obj) : bool :=
  match c with
  | use_lazy_torch_load _ | exit_lazy_torch_load _
  | AutoModelForCausalLM_from_config _ | GPTNeoForCausalLM_from_config _
  | get_layers_module_names _ | state_dict_keys _ | named_buffers _ => true
  | _ => false
  end.

(** What lines 81-225 do outside, when lazy loading is [lazy] and
    [tf_kwargs] is what the lines before left. *)
Definition fetch_step (lazy : bool) (tf_kwargs : gmap string bool)
           (c : load_call Config Obj) : Prop :=
  match c with
  | _maybe_use_float16 | exit_maybe_use_float16 _ | num_layers _
  | _get_lazy_load_callback _ | use_lazy_torch_load _ | exit_lazy_torch_load _
  | get_local_model_path false | _get_tokenizer _ | set_rebuild_tensor _ => True
  | _get_model _ kwargs =>
      kwargs = (if lazy then delete low_cpu_mem_usage tf_kwargs else tf_kwargs)
  | part c => is_save c = true
  | _ => False
  end.

(** What comes after the bad-words assignment and [patch_embedding]:
    the device plan, the move of the blocks, the hidden size. *)
Definition is_final_step (c : load_call Config Obj) : bool :=
  match c with
  | part c => is_placement c
  | get_hidden_size => true
  | _ => false
  end.

(** What writes the model's files: the conversion, the reads of the hub
    cache and of the index, the removal of the cache. *)
Definition is_model_save_step (c : load_call Config Obj) : bool :=
  match c with
  | part (model_save_pretrained _ _ _ _) | part (hf_hub_download _ _ _ _)
  | part (load_weight_map _ _) | part (shutil_rmtree _ _) => true
  | _ => false
  end.

(** Leaving a context manager while an exception is being raised. *)
Definition is_exit_raising (c : load_call Config Obj) : bool :=
  match c with
  | exit_lazy_torch_load true | exit_maybe_use_float16 true => true
  | _ => false
  end.

(** A rebuilt tensor that the dtype probe takes for fp32 weights. *)
Definition probe_hit (Payload : Type) (r : rebuild_args Payload) : bool :=
  dtype_is (declared_dtype Payload (ra_storage r)) float32
  && (2 <=? length (ra_shape r))%nat.

End Notions.

Arguments part_view_of {Config World} s.
Arguments part_quiet {Config World} P s s'.
Arguments view_of {Config World Obj} x.
Arguments unbound {Config World Obj} x.
Arguments adds {Config World Obj} P x x'.
Arguments calm {Config World Obj V} pick P x x'.
Arguments is_get_model {Config Obj} c.
Arguments is_placement {Config} c.
Arguments is_save {Config} c.
Arguments is_download_step {Config Obj} c.
Arguments is_resolve_step {Config Obj} c.
Arguments is_model_save_step {Config Obj} c.
Arguments is_exit_raising {Config Obj} c.
Arguments is_final_step {Config Obj} c.
Arguments is_discover_step {Config Obj} c.
Arguments fetch_step {Config Obj} lazy tf_kwargs c.
Arguments probe_hit {Payload} r.
Arguments v_parts {Config Obj} v.
Arguments v_nobreakmodel {Config Obj} v.
Arguments v_model_config {Config Obj} v.
Arguments v_modeldim {Config Obj} v.
Arguments v_kai_model {Config Obj} v.
Arguments v_probe_installed {Config Obj} v.

End GenericLoadNotions.

(** ** A small world for running the whole [_load]

    The hub cache is that of the parts; a model is stored locally or not;
    the one tensor that [_get_model] rebuilds is an fp32 matrix. *)

Module ToyLoad.
Import GenericHFTorch GenericLoad ToyWorld.

Definition toy_answer (local : bool) (c : load_call unit unit) (cache : list string)
  : res (value unit unit) * list string :=
  match c with
  | get_local_model_path false =>
      (Ok (if local then Str "models/org_model" else PyNone), cache)
  | init_model_config => (Ok (ConfigAnd tt "llama"), cache)
  | _get_model _ _ => (Ok (ModelOf toy_model), cache)
  | _get_tokenizer _ => (Ok (TokenizerOf Badwords.example_vocab), cache)
  | get_hidden_size => (Ok (Int 4096), cache)
  | _ => (Ok PyNone, cache)
  end.

Definition toy_rebuilds (c : load_call unit unit) (cache : list string)
  : list (rebuild_args unit) :=
  match c with
  | _get_model _ _ => [mk_rebuild_args (TorchStorage unit float32 tt) 0 [2; 2] [2; 1]]
  | _ => []
  end.

Definition toy_old_rebuild_tensor (st : storage unit) (storage_offset : Z)
           (shape stride : list Z) : res unit :=
  Ok tt.

(** The same world with a tokenizer that cannot be loaded. *)
Definition toy_answer_no_tokenizer (c : load_call unit unit) (cache : list string)
  : res (value unit unit) * list string :=
  match c with
  | _get_tokenizer _ => (Raise (LibraryError "_get_tokenizer"), cache)
  | _ => toy_answer false c cache
  end.

Definition toy_loader (v : koboldai_vars) (cache : list string)
  : loader unit (list string) unit :=
  mk_loader (toy_state v 0 cache) false "" false tt PyNone PyNone PyNone PyNone false
    (Int 0) [] false.

End ToyLoad.

(** * Properties of [generic_hf_torch.py] *)

Module GenericHFTorchFacts.
Import GenericHFTorch.

Section Facts.

Context {Config World Payload Tensor : Type}.
Variable perform : call Config -> World -> res answer * World.
Variable realpath : string -> string.
Variable path_join : string -> string -> string.
Variable local_model_path : string.
Variable from_pretrained_index_filename : string.
Variable old_rebuild_tensor : storage Payload -> Z -> list Z -> list Z -> res Tensor.

Local Abbreviation state := (load_state Config World).
Local Abbreviation extern := (extern Config World perform).
Local Abbreviation extern_ := (extern_ Config World perform).
Local Abbreviation move_from_cache :=
  (move_from_cache Config World perform realpath path_join local_model_path).
Local Abbreviation save_unsharded_weights :=
  (save_unsharded_weights Config World perform realpath path_join local_model_path).
Local Abbreviation copy_checkpoint_files :=
  (copy_checkpoint_files Config World perform realpath path_join local_model_path
     from_pretrained_index_filename).
Local Abbreviation save_downloaded_model :=
  (save_downloaded_model Config World perform realpath path_join local_model_path
     from_pretrained_index_filename).
Local Abbreviation place_model := (place_model Config World perform).
Local Abbreviation place_on_cpu := (place_on_cpu Config World).
Local Abbreviation new_rebuild_tensor :=
  (new_rebuild_tensor Config World Payload Tensor old_rebuild_tensor).

Lemma dtype_is_true (a b : dtype) : dtype_is a b = true <-> a = b.
Proof. destruct a, b; simpl; split; congruence. Qed.

Lemma with_vars_same_flag (s : state) :
  with_vars Config World (set_fp32_model (fp32_model (vars _ _ s))) s = s.
Proof. destruct s as [[] ? ? ? ? ? ?]; reflexivity. Qed.

(** C8.  The patched rebuild returns exactly what the original rebuild
    returns.  Afterwards the fp32 flag is set if and only if it was set
    before or the storage's declared dtype is [float32] and the shape has
    at least two dimensions; nothing but the flag changes, and a flag that
    was set stays set. *)
Theorem new_rebuild_tensor_probe
  (st : storage Payload) (storage_offset : Z) (shape stride : list Z) (s : state) :
  let out := new_rebuild_tensor st storage_offset shape stride s in
  fst out = old_rebuild_tensor st storage_offset shape stride
  /\ (fp32_model (vars _ _ (snd out)) = true <->
      fp32_model (vars _ _ s) = true
      \/ (declared_dtype Payload st = float32 /\ (2 <= length shape)%nat))
  /\ (fp32_model (vars _ _ s) = true -> fp32_model (vars _ _ (snd out)) = true)
  /\ with_vars Config World (set_fp32_model (fp32_model (vars _ _ s))) (snd out) = s.
Proof.
  unfold GenericHFTorch.new_rebuild_tensor, bind, when, modify, lift, ret.
  destruct (dtype_is (declared_dtype Payload st) float32) eqn:Hd;
    destruct (2 <=? length shape)%nat eqn:Hl; cbn [andb fst snd].
  - apply dtype_is_true in Hd. apply Nat.leb_le in Hl.
    repeat split; auto.
    destruct s as [[] ? ? ? ? ? ?]; reflexivity.
  - apply Nat.leb_gt in Hl.
    repeat split; auto.
    + intros [H | [_ H]]; [exact H | lia].
    + apply with_vars_same_flag.
  - assert (declared_dtype Payload st <> float32) as Hne.
    { intros H. apply dtype_is_true in H. congruence. }
    repeat split; auto.
    + intros [H | [H _]]; [exact H | contradiction].
    + apply with_vars_same_flag.
  - assert (declared_dtype Payload st <> float32) as Hne.
    { intros H. apply dtype_is_true in H. congruence. }
    repeat split; auto.
    + intros [H | [H _]]; [exact H | contradiction].
    + apply with_vars_same_flag.
Qed.

(** Every call is recorded, whatever the outside answers, and the
    settings are not touched. *)
Lemma extern_calls (c : call Config) (s : state) :
  calls _ _ (snd (extern c s)) = calls _ _ s ++ [c]
  /\ vars _ _ (snd (extern c s)) = vars _ _ s.
Proof.
  unfold GenericHFTorch.extern. simpl.
  destruct (perform c (world _ _ s)) as [r w]. simpl. auto.
Qed.

Lemma move_from_cache_calls (filename : string) (s : state) :
  vars _ _ (snd (move_from_cache filename s)) = vars _ _ s
  /\ exists rest,
       calls _ _ (snd (move_from_cache filename s))
       = calls _ _ s
         ++ hf_hub_download Config (model (vars _ _ s)) filename (revision (vars _ _ s))
         :: rest.
Proof.
  unfold GenericHFTorch.move_from_cache, extern_path, GenericHFTorch.extern_, bind, gets, ret,
    raise. simpl.
  set (c := hf_hub_download Config _ filename _).
  pose proof (extern_calls c s) as [Hc Hv].
  destruct (extern c s) as [[a | e] s1]; simpl in *.
  - destruct a as [ | p | names]; simpl.
    + split; [exact Hv | exists []; exact Hc].
    + set (c2 := shutil_move Config _ _).
      pose proof (extern_calls c2 s1) as [Hc2 Hv2].
      destruct (extern c2 s1) as [[a2 | e2] s2]; simpl in *.
      * split; [congruence | exists [c2]]. rewrite Hc2, Hc, <- app_assoc. reflexivity.
      * split; [congruence | exists [c2]]. rewrite Hc2, Hc, <- app_assoc. reflexivity.
    + split; [exact Hv | exists []; exact Hc].
  - split; [exact Hv | exists []; exact Hc].
Qed.

(** Saving an unsharded model is: the attempt on [pytorch_model.bin],
    then the attempt on [model.safetensors] in the state the first attempt
    left, and the outcome is the outcome of that second attempt, whatever
    the first attempt did.  The recorded calls show the two downloads in
    this order. *)
Lemma save_unsharded_weights_attempts (s : state) :
  let first := move_from_cache "pytorch_model.bin" s in
  let second := move_from_cache "model.safetensors" (snd first) in
  save_unsharded_weights s = second
  /\ (forall e, fst first = Raise e -> save_unsharded_weights s = second)
  /\ (forall e, fst (save_unsharded_weights s) = Raise e <-> fst second = Raise e)
  /\ exists rest1 rest2,
       calls _ _ (snd first)
       = calls _ _ s
         ++ hf_hub_download Config (model (vars _ _ s)) "pytorch_model.bin"
              (revision (vars _ _ s)) :: rest1
       /\ calls _ _ (snd (save_unsharded_weights s))
          = calls _ _ (snd first)
            ++ hf_hub_download Config (model (vars _ _ s)) "model.safetensors"
                 (revision (vars _ _ s)) :: rest2.
Proof.
  intros first second.
  assert (save_unsharded_weights s = second) as Heq.
  { subst first second.
    unfold GenericHFTorch.save_unsharded_weights, WEIGHTS_NAME, for_each, try_except, bind,
      ret, raise.
    destruct (move_from_cache "pytorch_model.bin" s) as [[[] | e1] s1]; simpl;
      destruct (move_from_cache "model.safetensors" s1) as [[[] | e2] s2];
      reflexivity. }
  split; [exact Heq |].
  split; [intros; exact Heq |].
  split; [intros e; rewrite Heq; reflexivity |].
  rewrite Heq. subst first second.
  destruct (move_from_cache_calls "pytorch_model.bin" s) as [Hv1 [rest1 H1]].
  destruct (move_from_cache_calls "model.safetensors"
              (snd (move_from_cache "pytorch_model.bin" s))) as [_ [rest2 H2]].
  exists rest1, rest2. split; [exact H1 |].
  rewrite H2, Hv1. reflexivity.
Qed.

(** C9, where the code departs from the claim.  The loop over the two
    names has no [break]: when [pytorch_model.bin] was found in the cache
    and moved to the local model path, [model.safetensors] is looked up all
    the same, and when the cache does not hold it the exception of that
    lookup is re-raised by line 190.  The weights were saved under the
    first name, and the save fails: the recorded calls are the download
    and the move of [pytorch_model.bin] and the failed download of
    [model.safetensors]. *)
Theorem save_unsharded_weights_raises_after_first_saved
  (s : state) (cached : string) (a : answer) (e : exn) (w1 w2 w3 : World) :
  let v := vars _ _ s in
  let get_bin := hf_hub_download Config (model v) "pytorch_model.bin" (revision v) in
  let move_bin :=
    shutil_move Config (realpath cached) (path_join local_model_path "pytorch_model.bin") in
  let get_safetensors := hf_hub_download Config (model v) "model.safetensors" (revision v) in
  perform get_bin (world _ _ s) = (Ok (Path cached), w1) ->
  perform move_bin w1 = (Ok a, w2) ->
  perform get_safetensors w2 = (Raise e, w3) ->
  move_from_cache "pytorch_model.bin" s
  = (Ok tt, mk_load_state Config World v (disk_blocks _ _ s) (num_shards _ _ s)
              (self_model _ _ s) (local_model _ _ s) w2
              (calls _ _ s ++ [get_bin; move_bin]))
  /\ save_unsharded_weights s
     = (Raise e, mk_load_state Config World v (disk_blocks _ _ s) (num_shards _ _ s)
                   (self_model _ _ s) (local_model _ _ s) w3
                   (calls _ _ s ++ [get_bin; move_bin; get_safetensors])).
Proof.
  intros v get_bin move_bin get_safetensors Hget Hmove Hmiss.
  assert (move_from_cache "pytorch_model.bin" s
          = (Ok tt, mk_load_state Config World v (disk_blocks _ _ s) (num_shards _ _ s)
                      (self_model _ _ s) (local_model _ _ s) w2
                      (calls _ _ s ++ [get_bin; move_bin]))) as Hfirst.
  { unfold GenericHFTorch.move_from_cache, extern_path, GenericHFTorch.extern_,
      GenericHFTorch.extern, bind, gets, ret, raise.
    cbn [log_call world set_world vars model revision fst snd].
    fold v. fold get_bin. rewrite Hget.
    cbn [set_world log_call world vars disk_blocks num_shards self_model local_model calls].
    fold move_bin. rewrite Hmove.
    unfold set_world, log_call.
    cbn [world vars disk_blocks num_shards self_model local_model calls].
    rewrite <- app_assoc. reflexivity. }
  split; [exact Hfirst |].
  unfold GenericHFTorch.save_unsharded_weights, WEIGHTS_NAME, for_each, try_except, bind,
    ret, raise.
  rewrite Hfirst.
  unfold GenericHFTorch.move_from_cache, extern_path, GenericHFTorch.extern_,
    GenericHFTorch.extern, bind, gets, ret, raise.
  cbn [log_call world set_world vars model revision fst snd
       disk_blocks num_shards self_model local_model calls].
  fold v. fold get_safetensors. rewrite Hmiss.
  unfold set_world, log_call.
  cbn [String.eqb Ascii.eqb Bool.eqb world vars disk_blocks num_shards
       self_model local_model calls].
  rewrite <- app_assoc. reflexivity.
Qed.

(** C1, as amended.  The placement goes by priority.  With an accelerator
    and the VRAM-only flag the model is made 16-bit and put on the
    accelerator, whatever the split flag says.  Otherwise, with an
    accelerator and the split flag, and lazy loading on, the blocks are
    moved by [_move_to_devices] and this pass computes no plan.  Otherwise
    (no accelerator, or an accelerator with neither flag), the blocks are
    moved if disk blocks were allocated, and else the model is put on the
    CPU in [float32]. *)
Theorem place_model_priority (s : state) :
  let v := vars _ _ s in
  let m := self_model _ _ s in
  (hascuda v = true -> usegpu v = true ->
     place_model s
     = (Ok tt, set_self_model _ _ (mk_model Config float16 (Cuda (gpu_device v)) (config _ m)) s))
  /\ (hascuda v = true -> usegpu v = false -> breakmodel v = true -> lazy_load v = true ->
        place_model s = extern_ (move_to_devices Config) s)
  /\ (hascuda v = false \/ (usegpu v = false /\ breakmodel v = false) ->
        0 < disk_blocks _ _ s ->
        place_model s = extern_ (move_to_devices Config) s)
  /\ (hascuda v = false \/ (usegpu v = false /\ breakmodel v = false) ->
        disk_blocks _ _ s <= 0 ->
        place_model s
        = (Ok tt, set_self_model _ _ (mk_model Config float32 Cpu (config _ m)) s)).
Proof.
  unfold GenericHFTorch.place_model, GenericHFTorch.place_on_cpu, bind, gets, when, modify, ret.
  cbn zeta. repeat split.
  - intros -> ->. reflexivity.
  - intros -> -> -> ->. simpl.
    destruct (extern_ (move_to_devices Config) s) as [[[] | e] s1]; reflexivity.
  - intros Hflags Hblocks. apply Z.ltb_lt in Hblocks. rewrite Hblocks.
    destruct Hflags as [-> | [-> ->]]; [reflexivity |].
    destruct (hascuda (vars Config World s)); reflexivity.
  - intros Hflags Hblocks. apply Z.ltb_ge in Hblocks. rewrite Hblocks.
    destruct Hflags as [-> | [-> ->]]; [reflexivity |].
    destruct (hascuda (vars Config World s)); reflexivity.
Qed.

(** What the split case does when lazy loading was off: the plan is to be
    computed from [model.config], and [model] is unbound. *)
Lemma place_model_split_eager (s : state) :
  hascuda (vars _ _ s) = true -> usegpu (vars _ _ s) = false ->
  breakmodel (vars _ _ s) = true -> lazy_load (vars _ _ s) = false ->
  local_model _ _ s = None ->
  place_model s = (Raise (UnboundLocalError "model"), s).
Proof.
  intros H1 H2 H3 H4 H5.
  unfold GenericHFTorch.place_model, bind, gets.
  rewrite H1, H2, H3, H4. simpl.
  unfold read_local_model, bind, gets, raise. rewrite H5. reflexivity.
Qed.

(** C2.  A downloaded model is to be saved, the fp32 flag is set and no
    disk blocks are configured: after the tokenizer has been saved the
    conversion reads the local [model], which nothing has bound, so the
    call ends in [UnboundLocalError] (or in the tokenizer's own exception);
    the tokenizer's save is the only call that was made, so no model was
    serialized and no file was copied. *)
Theorem save_downloaded_model_fp32_unbound (s : state) :
  local_model _ _ s = None ->
  fp32_model (vars _ _ s) = true ->
  disk_blocks _ _ s = 0 ->
  let saved := extern (tokenizer_save_pretrained Config local_model_path) s in
  let out := save_downloaded_model true s in
  fst out = match fst saved with
            | Ok _ => Raise (UnboundLocalError "model")
            | Raise e => Raise e
            end
  /\ snd out = snd saved
  /\ calls _ _ (snd out) = calls _ _ s ++ [tokenizer_save_pretrained Config local_model_path].
Proof.
  intros Hlocal Hfp32 Hblocks saved out.
  pose proof (extern_calls (tokenizer_save_pretrained Config local_model_path) s)
    as [Hcalls Hvars].
  assert (local_model _ _ (snd saved) = None
          /\ disk_blocks _ _ (snd saved) = 0) as [Hlocal' Hblocks'].
  { subst saved. unfold GenericHFTorch.extern. simpl.
    destruct (perform _ _) as [r w]. simpl. auto. }
  subst out.
  unfold GenericHFTorch.save_downloaded_model, when, GenericHFTorch.extern_, bind, gets, ret.
  fold saved. fold saved in Hcalls, Hvars.
  destruct saved as [[a | e] s1]; simpl in *.
  - rewrite Hvars, Hfp32, Hblocks'. simpl.
    unfold convert_and_save, read_local_model, bind, gets, raise.
    rewrite Hlocal'. simpl. auto.
  - auto.
Qed.


(** The assignment in [_load] stores what the derivation gives and
    touches nothing else. *)
Lemma load_badwords_derives (vocab : list (string * Z)) (s : state) :
  let v := vars _ _ s in
  load_badwords Config World vocab s
  = (Ok tt,
     with_vars _ _
       (set_badwordsids
          (Badwords.derive (badwordsids v) (model_type v) (newlinemode v) vocab)) s).
Proof. reflexivity. Qed.

End Facts.

(** *** The loader run in the toy world *)

Import ToyWorld.

Local Abbreviation toy_place := (place_model unit (list string) toy_perform).
Local Abbreviation toy_place_as_specified :=
  (place_model_as_specified unit (list string) toy_perform).
Local Abbreviation toy_save :=
  (save_downloaded_model unit (list string) toy_perform id toy_join "models/m"
     "cache/index.json").
Local Abbreviation toy_save_unsharded :=
  (save_unsharded_weights unit (list string) toy_perform id toy_join "models/m").

(** C1, the claim as worded fails: no accelerator, the split flag set,
    lazy loading on, no disk blocks.  The specification's wording moves the
    blocks; the code makes no call and leaves the model on the CPU in
    [float32]. *)
Lemma place_model_split_needs_accelerator :
  let s := toy_state (toy_vars false false true true false) 0 [] in
  calls _ _ (snd (toy_place_as_specified s)) = [move_to_devices unit]
  /\ calls _ _ (snd (toy_place s)) = []
  /\ self_model _ _ (snd (toy_place s)) = mk_model unit float32 Cpu tt
  /\ toy_place s <> toy_place_as_specified s.
Proof.
  cbn zeta. repeat split; try reflexivity.
  intros H. vm_compute in H. discriminate H.
Qed.

(** The priority test of the specification: both flags set, accelerator
    present. *)
Example place_model_both_flags :
  self_model _ _ (snd (toy_place (toy_state (toy_vars true true true true false) 0 [])))
  = mk_model unit float16 (Cuda 0) tt.
Proof. reflexivity. Qed.

Example place_model_split_lazy :
  calls _ _ (snd (toy_place (toy_state (toy_vars true false true true false) 0 [])))
  = [move_to_devices unit].
Proof. reflexivity. Qed.

Example place_model_split_eager_toy :
  toy_place (toy_state (toy_vars true false true false false) 0 [])
  = (Raise (UnboundLocalError "model"), toy_state (toy_vars true false true false false) 0 []).
Proof. reflexivity. Qed.

Lemma save_downloaded_model_fp32_unbound_witness :
  let s := fp32_download_state in
  local_model _ _ s = None
  /\ fp32_model (vars _ _ s) = true
  /\ disk_blocks _ _ s = 0
  /\ fst (toy_save true s) = Raise (UnboundLocalError "model")
  /\ calls _ _ (snd (toy_save true s)) = [tokenizer_save_pretrained unit "models/m"].
Proof.
  cbn zeta.
  split; [reflexivity |]. split; [reflexivity |]. split; [reflexivity |]. split.
  - exact (proj1 (save_downloaded_model_fp32_unbound toy_perform id toy_join "models/m"
                    "cache/index.json" fp32_download_state eq_refl eq_refl eq_refl)).
  - exact (proj2 (proj2 (save_downloaded_model_fp32_unbound toy_perform id toy_join
                           "models/m" "cache/index.json" fp32_download_state eq_refl eq_refl
                           eq_refl))).
Defined.

(** With disk blocks configured the cached files are moved instead. *)
Example save_downloaded_model_disk_blocks :
  let s := toy_state (toy_vars false false false false true) 2
             ["config.json"; "pytorch_model.bin"; "model.safetensors"] in
  toy_save true s
  = (Ok tt,
     mk_load_state unit (list string) (toy_vars false false false false true) 2 None
       toy_model None []
       [tokenizer_save_pretrained unit "models/m";
        hf_hub_download unit "org/model" "config.json" "main";
        shutil_move unit "cache/config.json" "models/m/config.json";
        hf_hub_download unit "org/model" "pytorch_model.bin" "main";
        shutil_move unit "cache/pytorch_model.bin" "models/m/pytorch_model.bin";
        hf_hub_download unit "org/model" "model.safetensors" "main";
        shutil_move unit "cache/model.safetensors" "models/m/model.safetensors";
        shutil_rmtree unit "cache/"]).
Proof. reflexivity. Qed.

(** The two attempts in the toy world: only the second name cached, and
    only the first. *)
Example save_unsharded_only_safetensors :
  fst (toy_save_unsharded (toy_state (toy_vars false false false false false) 0
                             ["model.safetensors"]))
  = Ok tt.
Proof. reflexivity. Qed.

Example save_unsharded_only_bin :
  fst (toy_save_unsharded (toy_state (toy_vars false false false false false) 0
                             ["pytorch_model.bin"]))
  = Raise (LibraryError "hf_hub_download").
Proof. reflexivity. Qed.

(** The cache holds [pytorch_model.bin] only: it is moved to the local
    model path, and the save raises the miss on [model.safetensors]. *)
Lemma save_unsharded_weights_raises_after_first_saved_witness :
  let s := toy_state (toy_vars false false false false false) 0 ["pytorch_model.bin"] in
  move_from_cache unit (list string) toy_perform id toy_join "models/m" "pytorch_model.bin" s
  = (Ok tt,
     mk_load_state unit (list string) (toy_vars false false false false false) 0 None
       toy_model None ["pytorch_model.bin"]
       [hf_hub_download unit "org/model" "pytorch_model.bin" "main";
        shutil_move unit "cache/pytorch_model.bin" "models/m/pytorch_model.bin"])
  /\ toy_save_unsharded s
     = (Raise (LibraryError "hf_hub_download"),
        mk_load_state unit (list string) (toy_vars false false false false false) 0 None
          toy_model None ["pytorch_model.bin"]
          [hf_hub_download unit "org/model" "pytorch_model.bin" "main";
           shutil_move unit "cache/pytorch_model.bin" "models/m/pytorch_model.bin";
           hf_hub_download unit "org/model" "model.safetensors" "main"]).
Proof.
  exact (save_unsharded_weights_raises_after_first_saved toy_perform id toy_join "models/m"
           (toy_state (toy_vars false false false false false) 0 ["pytorch_model.bin"])
           "cache/pytorch_model.bin" NoAnswer (LibraryError "hf_hub_download")
           ["pytorch_model.bin"] ["pytorch_model.bin"] ["pytorch_model.bin"]
           eq_refl eq_refl eq_refl).
Defined.

End GenericHFTorchFacts.

(** * Properties of the bad-words derivation *)

Module BadwordsFacts.
Import Badwords.

Lemma char_in_spec (c : ascii) (k : string) :
  char_in c k = true <-> In c (list_ascii_of_string k).
Proof.
  unfold char_in. rewrite existsb_exists. split.
  - intros [x [Hin Heq]]. apply Ascii.eqb_eq in Heq. subst x. exact Hin.
  - intros Hin. exists c. split; [exact Hin | apply Ascii.eqb_refl].
Qed.

Lemma any_bracket_spec (k : string) :
  any_bracket k = true
  <-> exists c, In c bracket_chars /\ In c (list_ascii_of_string k).
Proof.
  unfold any_bracket. rewrite existsb_exists.
  split; intros [c [Hc Hk]]; exists c; (split; [exact Hc |]); apply char_in_spec; exact Hk.
Qed.

Lemma keeps_spec (newlinemode k : string) :
  keeps newlinemode k = true
  <-> (exists c, In c bracket_chars /\ In c (list_ascii_of_string k))
      /\ (spaces_as_newline newlinemode -> k <> "</s>").
Proof.
  unfold keeps, spaces_as_newline.
  rewrite andb_true_iff, any_bracket_spec, orb_true_iff, !negb_true_iff, !String.eqb_neq.
  split; intros [Hb Hs]; (split; [exact Hb |]).
  - intros Hmode. destruct Hs as [Hs | Hs]; [contradiction | exact Hs].
  - destruct (String.eqb_spec newlinemode "s") as [Heq | Hne]; [right; auto | left; exact Hne].
Qed.

Lemma comprehension_groups (newlinemode : string) (vocab : list (string * Z)) (g : list Z) :
  In g (comprehension newlinemode vocab)
  <-> exists k id, g = [id] /\ In (k, id) vocab /\ keeps newlinemode k = true.
Proof.
  unfold comprehension. rewrite in_map_iff. split.
  - intros [[k id] [Hg Hin]]. apply list_elem_of_In, list_elem_of_filter in Hin.
    destruct Hin as [Hkeep Hin]. apply list_elem_of_In in Hin. simpl in *.
    exists k, id. auto.
  - intros (k & id & -> & Hin & Hkeep). exists (k, id). split; [reflexivity |].
    apply list_elem_of_In, list_elem_of_filter. split; [exact Hkeep |].
    apply list_elem_of_In. exact Hin.
Qed.

(** C3, as amended.  With the default list still in place and a model
    type outside [gpt2], [gpt_neo], [gptj], the derived list is the
    comprehension over the vocabulary: its groups are singletons, and an
    id is suppressed exactly when one of its token strings contains one of
    the characters of ["<>[]"] and, in case the mode is ["s"], is not
    ["</s>"].  So ["</s>"] is left out exactly when the mode is ["s"].  For
    the vocabulary [<pad>:0, hello:1, </s>:2] the result is [[0], [2]] when
    the mode is not ["s"] and [[0]] when it is. *)
Theorem derive_default_list (model_type newlinemode : string) (vocab : list (string * Z)) :
  excluded_model_type model_type = false ->
  let out := derive badwordsids_default model_type newlinemode vocab in
  out = badwords_list (comprehension newlinemode vocab)
  /\ (forall g, In g (comprehension newlinemode vocab) -> exists id, g = [id])
  /\ (forall id,
        suppressed out id
        <-> exists k, In (k, id) vocab
                      /\ (exists c, In c bracket_chars /\ In c (list_ascii_of_string k))
                      /\ (spaces_as_newline newlinemode -> k <> "</s>"))
  /\ (~ spaces_as_newline newlinemode ->
        derive badwordsids_default model_type newlinemode example_vocab
        = badwords_list [[0]; [2]])
  /\ (spaces_as_newline newlinemode ->
        derive badwordsids_default model_type newlinemode example_vocab
        = badwords_list [[0]]).
Proof.
  intros Hmt out.
  assert (forall v, derive badwordsids_default model_type newlinemode v
                    = badwords_list (comprehension newlinemode v)) as Hderive.
  { intros v. unfold derive. rewrite Hmt. reflexivity. }
  subst out. rewrite !Hderive. split; [reflexivity |]. split; [| split; [| split]].
  - intros g Hg. apply comprehension_groups in Hg. destruct Hg as (k & id & -> & _).
    exists id. reflexivity.
  - intros id. simpl. rewrite comprehension_groups. split.
    + intros (k & id' & Heq & Hin & Hkeep). injection Heq as ->.
      exists k. split; [exact Hin |]. apply keeps_spec. exact Hkeep.
    + intros (k & Hin & Hkeep). exists k, id.
      split; [reflexivity |]. split; [exact Hin |]. apply keeps_spec. exact Hkeep.
  - unfold spaces_as_newline. intros Hmode. apply String.eqb_neq in Hmode.
    unfold comprehension, example_vocab, keeps. rewrite Hmode. reflexivity.
  - unfold spaces_as_newline. intros ->. reflexivity.
Qed.

Lemma derive_default_list_witness :
  excluded_model_type "llama" = false
  /\ derive badwordsids_default "llama" "s" example_vocab = badwords_list [[0]].
Proof.
  split; [reflexivity |].
  exact (proj2 (proj2 (proj2 (proj2
           (derive_default_list "llama" "s" example_vocab eq_refl)))) eq_refl).
Defined.

(** C3, the claim as worded fails: with the mode off (["n"]) the id of
    ["</s>"] is in the derived list, next to the id of ["<pad>"]. *)
Lemma derive_keeps_eos_when_mode_off :
  let out := derive badwordsids_default "llama" "n" example_vocab in
  ~ spaces_as_newline "n"
  /\ out = badwords_list [[0]; [2]]
  /\ ~ (suppressed out 0 /\ ~ suppressed out 2).
Proof.
  cbn zeta. split; [unfold spaces_as_newline; discriminate |].
  split; [reflexivity |].
  intros [_ Hnot]. apply Hnot. simpl. right. left. reflexivity.
Qed.

(** A customized list or an excluded model type leaves the list alone. *)
Lemma derive_untouched (current : badwords) (model_type newlinemode : string)
      (vocab : list (string * Z)) :
  is_badwordsids_default current = false \/ excluded_model_type model_type = true ->
  derive current model_type newlinemode vocab = current.
Proof.
  unfold derive. intros [-> | ->]; [reflexivity |].
  rewrite andb_false_r. reflexivity.
Qed.

End BadwordsFacts.

(** * Properties of [hf_mtj.py] *)

Module HFMTJFacts.
Import Numpy HFMTJ.

(** [seq - seq % -cores] is the least multiple of [cores] that is at
    least [seq]. *)
Lemma round_up_to_cores (seq cores : Z) :
  0 < cores ->
  let padded := seq - seq mod (- cores) in
  (cores | padded)
  /\ seq <= padded
  /\ padded < seq + cores
  /\ forall m, (cores | m) -> seq <= m -> padded <= m.
Proof.
  intros Hcores padded.
  assert (- cores < seq mod (- cores) <= 0) as Hbound by (apply Z.mod_neg_bound; lia).
  pose proof (Z.div_mod seq (- cores) ltac:(lia)) as Hdiv.
  assert (padded = cores * (- (seq / (- cores)))) as Hpadded.
  { subst padded. rewrite Hdiv at 1. ring. }
  split; [exists (- (seq / (- cores))); rewrite Hpadded; ring |].
  split; [unfold padded; lia |].
  split; [unfold padded; lia |].
  intros m [k ->] Hm.
  assert (padded < seq + cores) as Hlt by (unfold padded; lia).
  rewrite Hpadded in *. set (q := - (seq / (- cores))) in *.
  assert (q <= k) by nia. nia.
Qed.

Lemma repeat_join {A} (x : A) (a b : Z) :
  0 <= a -> 0 <= b -> repeat x (Z.to_nat a) ++ repeat x (Z.to_nat b) = repeat x (Z.to_nat (a + b)).
Proof. intros Ha Hb. rewrite Z2Nat.inj_add by lia. symmetry. apply repeat_app. Qed.

Section Facts.

Context {pyfloat Sharded : Type}.
Variable fzero : pyfloat.
Variable float_of_int : Z -> pyfloat.
Variable int_of_float : pyfloat -> res Z.
Variable np_cast : dtype -> pyfloat -> pyfloat.
Variable shard_xmap : ndarray pyfloat -> res Sharded.
Variable decode : list Z -> string.
Variable decodenewlines : string -> string.
Variable calc_ai_text : string -> gset Z.
Variable execute_genmod : M (state pyfloat Sharded) unit.

Local Abbreviation state := (HFMTJ.state pyfloat Sharded).
Local Abbreviation padded_placeholder := (HFMTJ.padded_placeholder pyfloat fzero).
Local Abbreviation soft_placeholder := (HFMTJ.soft_placeholder pyfloat fzero).
Local Abbreviation ensure_soft_prompt :=
  (HFMTJ.ensure_soft_prompt pyfloat fzero Sharded shard_xmap).
Local Abbreviation get_soft_tokens :=
  (HFMTJ.get_soft_tokens pyfloat fzero Sharded shard_xmap).
Local Abbreviation rewritten_scores :=
  (HFMTJ.rewritten_scores pyfloat np_cast Sharded execute_genmod).
Local Abbreviation mtj_warper_callback :=
  (HFMTJ.mtj_warper_callback pyfloat np_cast Sharded execute_genmod).
Local Abbreviation mtj_stopping_callback :=
  (HFMTJ.mtj_stopping_callback pyfloat Sharded decode decodenewlines calc_ai_text).
Local Abbreviation mtj_settings_callback :=
  (HFMTJ.mtj_settings_callback pyfloat float_of_int int_of_float Sharded).
Local Abbreviation counted := (HFMTJ.counted pyfloat Sharded).
Local Abbreviation halt_of := (HFMTJ.halt_of pyfloat Sharded).
Local Abbreviation store_generated := (HFMTJ.store_generated pyfloat Sharded).

Lemma embedding_width_ok (prm : gmap string Z) (d_model : Z) :
  prm !! "d_model" = Some d_model ->
  embedding_width prm = Ok (dict_get prm "d_embed" d_model).
Proof. intros H. unfold embedding_width, getitem. rewrite H. reflexivity. Qed.

Ltac case_getitem :=
  repeat match goal with
         | |- context [getitem ?m ?k] => destruct (getitem m k); simpl
         end.

(** Only the first part of [get_soft_tokens] writes to the state, and it
    writes [sp] alone. *)
Lemma get_soft_tokens_state (s : state) :
  snd (get_soft_tokens s) = snd (ensure_soft_prompt s).
Proof.
  unfold HFMTJ.get_soft_tokens, bind, gets, lift, ret.
  destruct (ensure_soft_prompt s) as [[[] | e] s1]; simpl; [| reflexivity].
  case_getitem; reflexivity.
Qed.

Lemma ensure_soft_prompt_frame (s : state) :
  params _ _ (snd (ensure_soft_prompt s)) = params _ _ s
  /\ sp_length _ _ (vars _ _ (snd (ensure_soft_prompt s))) = sp_length _ _ (vars _ _ s).
Proof.
  unfold HFMTJ.ensure_soft_prompt, bind, gets, lift, modify, ret.
  destruct (sp _ _ (vars _ _ s)); simpl; [auto |].
  destruct (HFMTJ.soft_placeholder _ _ _); simpl; [| auto].
  destruct (shard_xmap _); simpl; auto.
Qed.

(** C6.  With no soft prompt configured, [d_model], [seq] and
    [cores_per_replica] present and positive sizes, the zero placeholder
    is padded to [seq - seq mod (- cores)] rows, the least multiple of the
    core count that is at least [seq]; it is then reshaped to
    [(cores, padded / cores, width)], and that array goes through
    [shard_xmap] into [koboldai_vars.sp]. *)
Theorem soft_placeholder_geometry (prm : gmap string Z) (d_model seq cores : Z) :
  prm !! "d_model" = Some d_model ->
  prm !! "seq" = Some seq ->
  prm !! "cores_per_replica" = Some cores ->
  0 < dict_get prm "d_embed" d_model ->
  0 < cores ->
  0 < seq ->
  let width := dict_get prm "d_embed" d_model in
  let padded := seq - seq mod (- cores) in
  let zeroes := repeat fzero (Z.to_nat (padded * width)) in
  ((cores | padded) /\ seq <= padded /\ forall m, (cores | m) -> seq <= m -> padded <= m)
  /\ padded_placeholder prm = Ok (mk_ndarray float32 [padded; width] zeroes)
  /\ soft_placeholder prm = Ok (mk_ndarray float32 [cores; padded / cores; width] zeroes)
  /\ forall s : state,
       params _ _ s = prm -> sp _ _ (vars _ _ s) = None ->
       sp _ _ (vars _ _ (snd (get_soft_tokens s)))
       = match shard_xmap (mk_ndarray float32 [cores; padded / cores; width] zeroes) with
         | Ok sharded => Some sharded
         | Raise _ => None
         end.
Proof.
  intros Hdm Hseq Hcores Hwidth Hcpos Hspos width padded zeroes.
  destruct (round_up_to_cores seq cores Hcpos) as (Hdiv & Hge & Hlt & Hleast).
  fold padded in Hdiv, Hge, Hlt, Hleast.
  assert (padded_placeholder prm = Ok (mk_ndarray float32 [padded; width] zeroes)) as Hpad.
  { unfold HFMTJ.padded_placeholder. rewrite (embedding_width_ok _ _ Hdm). fold width.
    unfold zeros. simpl existsb. unfold negative.
    assert ((width <? 0) = false) as -> by (apply Z.ltb_ge; lia).
    simpl.
    unfold getitem. rewrite Hseq, Hcores. unfold py_mod.
    assert ((- cores =? 0) = false) as -> by (apply Z.eqb_neq; lia).
    unfold pad_rows_after. simpl. fold padded.
    assert ((padded - 1 <? 0) = false) as -> by (apply Z.ltb_ge; lia).
    subst zeroes. rewrite repeat_join by nia.
    do 2 f_equal; [f_equal; lia | f_equal; lia]. }
  assert (soft_placeholder prm
          = Ok (mk_ndarray float32 [cores; padded / cores; width] zeroes)) as Hsoft.
  { unfold HFMTJ.soft_placeholder. rewrite Hpad.
    unfold getitem. rewrite Hcores. rewrite (embedding_width_ok _ _ Hdm). fold width.
    unfold reshape, negative, fix_unknown. simpl.
    assert ((cores <? 0) = false) as Hc by (apply Z.ltb_ge; lia).
    assert ((width <? 0) = false) as Hw by (apply Z.ltb_ge; lia).
    rewrite Hc, Hw. simpl. rewrite !Z.mul_1_r.
    destruct Hdiv as [q Hq].
    assert ((cores * width =? 0) = false) as -> by (apply Z.eqb_neq; nia).
    assert (padded * width = q * (cores * width)) as Hsize by (rewrite Hq; ring).
    assert (((padded * width) mod (cores * width) =? 0) = true) as ->.
    { apply Z.eqb_eq. rewrite Hsize. apply Z.mod_mul. nia. }
    simpl. unfold negative. rewrite Hc, Hw.
    assert ((padded * width) / (cores * width) = padded / cores) as ->.
    { rewrite Hsize, Z.div_mul by nia. rewrite Hq, Z.div_mul by lia. reflexivity. }
    reflexivity. }
  split; [auto |]. split; [exact Hpad |]. split; [exact Hsoft |].
  intros s Hprm Hsp.
  rewrite get_soft_tokens_state.
  unfold HFMTJ.ensure_soft_prompt, bind, gets, lift, modify, ret.
  rewrite Hsp, Hprm, Hsoft.
  destruct (shard_xmap _) as [sharded | e]; simpl; [reflexivity | exact Hsp].
Qed.

Lemma arange_uint32_in_range (first len : Z) :
  0 <= first -> 0 <= len -> first + len <= two_pow_32 ->
  arange_uint32 first (first + len)
  = mk_ndarray uint32 [len] (map (Z.add first) (seqZ 0 len)).
Proof.
  intros Hfirst Hlen Hfit. unfold arange_uint32.
  replace (Z.max 0 (first + len - first)) with len by lia.
  f_equal. apply map_ext_in. intros i Hi.
  apply list_elem_of_In, elem_of_seqZ in Hi.
  apply Z.mod_small. lia.
Qed.

(** C10.  Whenever [get_soft_tokens] returns, [n_vocab] and
    [n_vocab_padding] are engine parameters, and (the ids fitting 32 bits)
    the array holds exactly the [sp_length] consecutive ids that start at
    [n_vocab + n_vocab_padding]; each one is at or above the padded
    vocabulary size. *)
Theorem get_soft_tokens_ids (s : state) (out : ndarray Z) (s' : state) :
  get_soft_tokens s = (Ok out, s') ->
  exists n_vocab n_vocab_padding,
    params _ _ s !! "n_vocab" = Some n_vocab
    /\ params _ _ s !! "n_vocab_padding" = Some n_vocab_padding
    /\ let first := n_vocab + n_vocab_padding in
       let len := sp_length _ _ (vars _ _ s) in
       (0 <= first -> 0 <= len -> first + len <= two_pow_32 ->
        out = mk_ndarray uint32 [len] (map (Z.add first) (seqZ 0 len))
        /\ length (nd_data out) = Z.to_nat len
        /\ Forall (fun id => first <= id < first + len) (nd_data out)).
Proof.
  unfold HFMTJ.get_soft_tokens, bind, gets, lift, ret.
  destruct (ensure_soft_prompt_frame s) as [Hprm Hlen].
  destruct (ensure_soft_prompt s) as [[[] | e] s1]; simpl in *; [| discriminate].
  rewrite Hprm, Hlen. unfold getitem.
  destruct (params _ _ s !! "n_vocab") as [n_vocab |]; simpl; [| discriminate].
  destruct (params _ _ s !! "n_vocab_padding") as [n_vocab_padding |]; simpl;
    [| discriminate].
  intros Hout. injection Hout as <- _.
  exists n_vocab, n_vocab_padding. split; [reflexivity |]. split; [reflexivity |].
  cbn zeta. intros Hfirst Hlen0 Hfit.
  rewrite arange_uint32_in_range by assumption. simpl.
  split; [reflexivity |].
  split; [rewrite length_map, length_seqZ; reflexivity |].
  apply Forall_forall. intros id Hid. apply list_elem_of_In, in_map_iff in Hid.
  destruct Hid as (i & <- & Hi). apply list_elem_of_In, elem_of_seqZ in Hi. lia.
Qed.

(** And it does return: when a soft prompt is configured (or the
    placeholder can be built and sharded) and the two vocabulary sizes are
    among the engine parameters. *)
Lemma get_soft_tokens_returns (s : state) (n_vocab n_vocab_padding : Z) :
  params _ _ s !! "n_vocab" = Some n_vocab ->
  params _ _ s !! "n_vocab_padding" = Some n_vocab_padding ->
  fst (ensure_soft_prompt s) = Ok tt ->
  fst (get_soft_tokens s)
  = Ok (arange_uint32 (n_vocab + n_vocab_padding)
          (n_vocab + n_vocab_padding + sp_length _ _ (vars _ _ s))).
Proof.
  intros Hv Hp Hok.
  unfold HFMTJ.get_soft_tokens, bind, gets, lift, ret.
  destruct (ensure_soft_prompt_frame s) as [Hprm Hlen].
  destruct (ensure_soft_prompt s) as [[[] | e] s1]; simpl in *; [| discriminate].
  rewrite Hprm, Hlen. unfold getitem. rewrite Hv, Hp. reflexivity.
Qed.

Lemma ensure_soft_prompt_configured (s : state) (x : Sharded) :
  sp _ _ (vars _ _ s) = Some x -> ensure_soft_prompt s = (Ok tt, s).
Proof.
  intros H. unfold HFMTJ.ensure_soft_prompt, bind, gets, ret. rewrite H. reflexivity.
Qed.

Lemma array_of_rows_dtype (rows : list (list pyfloat)) (dt : dtype) (a : ndarray pyfloat) :
  array_of_rows np_cast rows dt = Ok a -> nd_dtype a = dt.
Proof.
  unfold array_of_rows. destruct rows as [| r rs].
  - intros H. injection H as <-. reflexivity.
  - destruct (forallb _ rs); [| discriminate].
    intros H. injection H as <-. reflexivity.
Qed.

Lemma rewritten_scores_dtype (scores : score_batch pyfloat) (s s' : state)
      (a : ndarray pyfloat) :
  rewritten_scores scores s = (Ok a, s') -> nd_dtype a = sb_dtype _ scores.
Proof.
  unfold HFMTJ.rewritten_scores, bind, gets, lift, modify. simpl.
  destruct (for_each _ _ _) as [[[] | e] s1]; [| discriminate].
  destruct (execute_genmod _) as [[[] | e] s2]; [| discriminate].
  destruct (array_of_rows _ _ _) as [b | e] eqn:Harr; [| discriminate].
  intros H. injection H as <- _. apply (array_of_rows_dtype _ _ _ Harr).
Qed.

(** C5.  The hook checks the rebuilt array against the input's shape.
    If the array built from the table after the script has the input's
    shape, the hook returns it, and its dtype is the input's; if it has
    another shape, the hook fails with [AssertionError]; if no array could
    be built, that exception is the outcome.  Hence whatever the hook
    returns has the shape and the dtype of the input.  A failed check
    leaves the state as the script left it: the exception is all that
    happens. *)
Theorem mtj_warper_callback_validates (scores : score_batch pyfloat) (s : state) :
  let shape := scores_shape_of _ scores in
  (forall a s', rewritten_scores scores s = (Ok a, s') ->
     nd_dtype a = sb_dtype _ scores
     /\ (nd_shape a = shape -> mtj_warper_callback scores s = (Ok a, s'))
     /\ (nd_shape a <> shape -> mtj_warper_callback scores s = (Raise AssertionError, s')))
  /\ (forall e s', rewritten_scores scores s = (Raise e, s') ->
        mtj_warper_callback scores s = (Raise e, s'))
  /\ (forall out s', mtj_warper_callback scores s = (Ok out, s') ->
        nd_shape out = shape /\ nd_dtype out = sb_dtype _ scores).
Proof.
  intros shape. unfold HFMTJ.mtj_warper_callback, bind, assert, ret, raise.
  fold shape. split; [| split].
  - intros a s' Hre. rewrite Hre. split; [apply (rewritten_scores_dtype _ _ _ _ Hre) |].
    split; intros Hshape.
    + rewrite bool_decide_eq_true_2 by exact Hshape. reflexivity.
    + rewrite bool_decide_eq_false_2 by exact Hshape. reflexivity.
  - intros e s' Hre. rewrite Hre. reflexivity.
  - intros out s'.
    destruct (rewritten_scores scores s) as [[a | e] s1] eqn:Hre; [| discriminate].
    destruct (bool_decide (nd_shape a = shape)) eqn:Hdec; [| discriminate].
    intros H. injection H as <- <-.
    split; [apply bool_decide_eq_true_1 in Hdec; exact Hdec |].
    apply (rewritten_scores_dtype _ _ _ _ Hre).
Qed.

(** *** The settings and the stopping hook *)

(** Whatever the settings are, the record handed to the engine carries
    the configured sampler order itself. *)
Lemma mtj_settings_callback_sampler_order (s s' : state)
      (settings : gmap string (setting pyfloat)) :
  mtj_settings_callback s = (Ok settings, s') ->
  settings !! "sampler_order"
  = Some (SList _ (sampler_order _ (sampling _ _ (vars _ _ s)))).
Proof.
  unfold HFMTJ.mtj_settings_callback, bind, gets, lift, ret.
  destruct (py_int _ _ (top_k _ _)) as [k | e]; [| discriminate].
  destruct (py_int _ _ (rep_pen_range _ _)) as [r | e]; [| discriminate].
  intros H. injection H as <- _. reflexivity.
Qed.

Lemma halt_of_spec (s : state) :
  halt_of s = true
  <-> abort _ _ (vars _ _ s) = true
      \/ generating _ (bridge _ _ s) = false
      \/ genamt _ _ (vars _ _ s) <= generated_tkns _ _ (vars _ _ s) + 1.
Proof.
  unfold HFMTJ.halt_of. rewrite !orb_true_iff, negb_true_iff, Z.leb_le. tauto.
Qed.

Lemma store_generated_frame (generated : list (list Z)) (n_generated i : Z) (s : state) :
  vars _ _ (snd (store_generated generated n_generated i s)) = vars _ _ s
  /\ past _ _ (snd (store_generated generated n_generated i s)) = past _ _ s
  /\ params _ _ (snd (store_generated generated n_generated i s)) = params _ _ s.
Proof.
  unfold HFMTJ.store_generated, bind, gets, lift, modify, raise.
  destruct (getitem _ "seq"); simpl; [| auto].
  destruct (index generated i) as [row | e]; simpl; [| auto].
  destruct (index row _); simpl; [| auto].
  destruct (_ !! (i + 1)); simpl; auto.
Qed.

Lemma store_all_frame (generated : list (list Z)) (n_generated : Z) (rows : list Z)
      (s : state) :
  vars _ _ (snd (for_each rows (store_generated generated n_generated) s)) = vars _ _ s
  /\ past _ _ (snd (for_each rows (store_generated generated n_generated) s)) = past _ _ s.
Proof.
  revert s. induction rows as [| i rows IH]; intros s; simpl; [auto |].
  unfold bind.
  destruct (store_generated_frame generated n_generated i s) as (Hv & Hp & _).
  destruct (store_generated generated n_generated i s) as [[[] | e] s1]; simpl in *.
  - destruct (IH s1) as [Hv1 Hp1]. split; congruence.
  - auto.
Qed.

(** Without dynamic scanning, or when halting, the hook returns the
    exclusion sets it was given, the [regeneration_required] it found, and
    the halt flag. *)
Lemma mtj_stopping_callback_static (generated : list (list Z)) (n_generated : Z)
      (excluded_world_info : list (gset Z)) (s s2 : state) :
  length excluded_world_info = length generated ->
  for_each (seqZ 0 (numseqs _ _ (vars _ _ s))) (store_generated generated n_generated)
    (counted s) = (Ok tt, s2) ->
  dynamicscan _ _ (vars _ _ s) = false \/ halt_of s = true ->
  mtj_stopping_callback generated n_generated excluded_world_info s
  = (Ok (excluded_world_info, regeneration_required _ (bridge _ _ s), halt_of s), s2).
Proof.
  intros Hlen Hloop Hcase.
  destruct (store_all_frame generated n_generated
              (seqZ 0 (numseqs _ _ (vars _ _ s))) (counted s)) as [Hv _].
  rewrite Hloop in Hv. simpl in Hv.
  unfold HFMTJ.mtj_stopping_callback, bind, gets, modify, assert, ret, raise.
  rewrite Hlen, Nat.eqb_refl. simpl.
  fold (counted s). rewrite Hloop. rewrite Hv.
  fold (halt_of s). unfold set_generated_tkns. cbn [dynamicscan].
  destruct Hcase as [-> | ->]; [reflexivity |].
  rewrite orb_true_r. reflexivity.
Qed.

(** With dynamic scanning on and no reason to halt the hook goes on to
    its second loop, whose first round reads the global [past]. *)
Lemma mtj_stopping_callback_unbound_past (generated : list (list Z)) (n_generated : Z)
      (excluded_world_info : list (gset Z)) (s s2 : state) :
  length excluded_world_info = length generated ->
  for_each (seqZ 0 (numseqs _ _ (vars _ _ s))) (store_generated generated n_generated)
    (counted s) = (Ok tt, s2) ->
  dynamicscan _ _ (vars _ _ s) = true ->
  halt_of s = false ->
  generated <> [] ->
  past _ _ s = None ->
  mtj_stopping_callback generated n_generated excluded_world_info s
  = (Raise (NameError "past"), s2).
Proof.
  intros Hlen Hloop Hdyn Hhalt Hrows Hpast.
  destruct (store_all_frame generated n_generated
              (seqZ 0 (numseqs _ _ (vars _ _ s))) (counted s)) as [Hv Hp].
  rewrite Hloop in Hv, Hp. simpl in Hv, Hp.
  unfold HFMTJ.mtj_stopping_callback, bind, gets, modify, assert, ret, raise.
  rewrite Hlen, Nat.eqb_refl. simpl.
  fold (counted s). rewrite Hloop. rewrite Hv.
  fold (halt_of s). unfold set_generated_tkns. cbn [dynamicscan]. rewrite Hdyn, Hhalt. simpl.
  destruct generated as [| t rest]; [contradiction |].
  unfold enumerate. simpl. unfold bind, gets, raise.
  rewrite Hp. change (past _ _ (counted s)) with (past _ _ s). rewrite Hpast.
  reflexivity.
Qed.

(** The assignment in the TPU [_load] stores what the derivation gives. *)
Lemma mtj_load_badwords_derives (vocab : list (string * Z)) (s : state) :
  let v := vars _ _ s in
  badwordsids _ _ (vars _ _ (snd (HFMTJ.load_badwords pyfloat Sharded vocab s)))
  = Badwords.derive (badwordsids _ _ v) (model_type _ _ v) (newlinemode _ _ v) vocab.
Proof. reflexivity. Qed.

End Facts.

(** *** The adapter run on the toy engine *)

Import ToyEngine.

Local Abbreviation toy_get_soft_tokens := (get_soft_tokens Z 0 (ndarray Z) toy_shard_xmap).
Local Abbreviation toy_warper := (mtj_warper_callback Z toy_cast (ndarray Z)).
Local Abbreviation toy_stopping :=
  (mtj_stopping_callback Z (ndarray Z) toy_decode toy_decodenewlines toy_calc_ai_text).
Local Abbreviation toy_settings :=
  (mtj_settings_callback Z toy_float_of_int toy_int_of_float (ndarray Z)).

(** Eight cores and a sequence length of 20: 24 rows. *)
Lemma soft_placeholder_geometry_witness :
  toy_params !! "d_model" = Some 2
  /\ toy_params !! "seq" = Some 20
  /\ toy_params !! "cores_per_replica" = Some 8
  /\ padded_placeholder Z 0 toy_params
     = Ok (mk_ndarray float32 [24; 2] (repeat 0 48))
  /\ soft_placeholder Z 0 toy_params
     = Ok (mk_ndarray float32 [8; 3; 2] (repeat 0 48))
  /\ (8 | 24) /\ 20 <= 24.
Proof.
  pose proof (soft_placeholder_geometry (Sharded := ndarray Z) 0 toy_shard_xmap toy_params
                2 20 8 eq_refl eq_refl eq_refl eq_refl eq_refl eq_refl) as H.
  cbn zeta in H. destruct H as ((Hdiv & Hge & _) & Hpad & Hsoft & _).
  split; [reflexivity |]. split; [reflexivity |]. split; [reflexivity |].
  split; [exact Hpad |]. split; [exact Hsoft |]. split; [exact Hdiv | exact Hge].
Defined.

Lemma get_soft_tokens_ids_witness :
  let s := toy_state (toy_vars false false 0 80 4 []) in
  let out := mk_ndarray uint32 [4] [50400; 50401; 50402; 50403] in
  toy_get_soft_tokens s = (Ok out, snd (toy_get_soft_tokens s))
  /\ Forall (fun id => 50400 <= id < 50404) (nd_data out).
Proof.
  cbn zeta.
  set (s := toy_state (toy_vars false false 0 80 4 [])).
  assert (toy_get_soft_tokens s
          = (Ok (mk_ndarray uint32 [4] [50400; 50401; 50402; 50403]),
             snd (toy_get_soft_tokens s))) as Hrun by reflexivity.
  split; [exact Hrun |].
  destruct (get_soft_tokens_ids 0 toy_shard_xmap s _ _ Hrun)
    as (n_vocab & n_vocab_padding & Hv & Hp & Hids).
  assert (n_vocab = 50257) as -> by (vm_compute in Hv; congruence).
  assert (n_vocab_padding = 143) as -> by (vm_compute in Hp; congruence).
  destruct (Hids ltac:(vm_compute; discriminate) ltac:(vm_compute; discriminate)
              ltac:(vm_compute; discriminate)) as (_ & _ & Hall).
  exact Hall.
Defined.

(** C7.  Six stages are configured.  The hook hands the engine these six
    stages; the list with the repetition-penalty stage 6 in front is
    computed and dropped. *)
Theorem mtj_settings_callback_keeps_configured_order :
  let configured := [0; 1; 2; 3; 4; 5] in
  let s := toy_state (toy_vars false false 0 80 0 configured) in
  (length configured < 7)%nat
  /\ exists settings,
       toy_settings s = (Ok settings, s)
       /\ settings !! "sampler_order" = Some (SList Z configured)
       /\ settings !! "sampler_order" <> Some (SList Z (6 :: configured)).
Proof.
  cbn zeta. split; [simpl; lia |].
  eexists. split; [reflexivity |].
  split; [reflexivity |].
  intros H. vm_compute in H. discriminate H.
Qed.

(** C4.  Nothing asks for a halt (no abort, generation enabled, one
    token counted out of a budget of 80) and dynamic scanning is on: the
    hook does not return, it raises [NameError] on the global [past]. *)
Theorem mtj_stopping_callback_name_error :
  let s := toy_state (toy_vars false true 0 80 0 []) in
  abort _ _ (vars _ _ s) = false
  /\ generating _ (bridge _ _ s) = true
  /\ generated_tkns _ _ (vars _ _ s) + 1 < genamt _ _ (vars _ _ s)
  /\ halt_of Z (ndarray Z) s = false
  /\ fst (toy_stopping [seqZ 0 21] 1 [∅] s) = Raise (NameError "past").
Proof.
  cbn zeta. split; [reflexivity |]. split; [reflexivity |]. split; [reflexivity |].
  split; [reflexivity |]. vm_compute. reflexivity.
Qed.

(** The same call without dynamic scanning, and at the end of the
    budget. *)
Example mtj_stopping_callback_no_scan :
  fst (toy_stopping [seqZ 0 21] 1 [∅] (toy_state (toy_vars false false 0 80 0 [])))
  = Ok ([∅], false, false).
Proof. vm_compute. reflexivity. Qed.

Example mtj_stopping_callback_budget :
  fst (toy_stopping [seqZ 0 21] 1 [∅] (toy_state (toy_vars false true 79 80 0 [])))
  = Ok ([∅], false, true).
Proof. vm_compute. reflexivity. Qed.

Example mtj_stopping_callback_abort :
  fst (toy_stopping [seqZ 0 21] 1 [∅] (toy_state (toy_vars true true 0 80 0 [])))
  = Ok ([∅], false, true).
Proof. vm_compute. reflexivity. Qed.

(** The score hook with the four scripts. *)
Example mtj_warper_callback_keep :
  fst (toy_warper genmod_keep toy_scores (toy_state (toy_vars false false 0 80 0 [])))
  = Ok (mk_ndarray float32 [2; 3] [1; 2; 3; 4; 5; 6]).
Proof. reflexivity. Qed.

Example mtj_warper_callback_widen :
  fst (toy_warper genmod_widen toy_scores (toy_state (toy_vars false false 0 80 0 [])))
  = Raise AssertionError.
Proof. reflexivity. Qed.

Example mtj_warper_callback_drop_row :
  fst (toy_warper genmod_drop_row toy_scores (toy_state (toy_vars false false 0 80 0 [])))
  = Raise AssertionError.
Proof. reflexivity. Qed.

Example mtj_warper_callback_ragged :
  fst (toy_warper genmod_ragged toy_scores (toy_state (toy_vars false false 0 80 0 [])))
  = Raise ValueError.
Proof. reflexivity. Qed.

End HFMTJFacts.

(** * Further properties of the hooks of [hf_mtj.py] *)

Module HFMTJHooksFacts.
Import Numpy HFMTJ.

Section Hooks.

Context {pyfloat Sharded : Type}.
Variable fzero : pyfloat.
Variable np_cast : dtype -> pyfloat -> pyfloat.
Variable shard_xmap : ndarray pyfloat -> res Sharded.
Variable decode : list Z -> string.
Variable decodenewlines : string -> string.
Variable calc_ai_text : string -> gset Z.
Variable execute_genmod : M (state pyfloat Sharded) unit.

Local Abbreviation state := (HFMTJ.state pyfloat Sharded).
Local Abbreviation get_soft_tokens :=
  (HFMTJ.get_soft_tokens pyfloat fzero Sharded shard_xmap).
Local Abbreviation ensure_soft_prompt :=
  (HFMTJ.ensure_soft_prompt pyfloat fzero Sharded shard_xmap).
Local Abbreviation soft_placeholder := (HFMTJ.soft_placeholder pyfloat fzero).
Local Abbreviation rewritten_scores :=
  (HFMTJ.rewritten_scores pyfloat np_cast Sharded execute_genmod).
Local Abbreviation mtj_warper_callback :=
  (HFMTJ.mtj_warper_callback pyfloat np_cast Sharded execute_genmod).
Local Abbreviation mtj_stopping_callback :=
  (HFMTJ.mtj_stopping_callback pyfloat Sharded decode decodenewlines calc_ai_text).
Local Abbreviation counted := (HFMTJ.counted pyfloat Sharded).
Local Abbreviation halt_of := (HFMTJ.halt_of pyfloat Sharded).
Local Abbreviation store_generated := (HFMTJ.store_generated pyfloat Sharded).

(** *** The stopping hook *)

(** What one successful round of the first loop read and wrote. *)
Lemma store_generated_ok (generated : list (list Z)) (n_generated i : Z) (s s' : state) :
  store_generated generated n_generated i s = (Ok tt, s') ->
  exists seq row tok t,
    params _ _ s !! "seq" = Some seq
    /\ index generated i = Ok row
    /\ index row (seq + n_generated - 1) = Ok tok
    /\ bridge_generated _ (bridge _ _ s) !! (i + 1) = Some t
    /\ s' = with_bridge _ _
              (set_bridge_generated _
                 (<[i + 1 := <[generated_tkns _ _ (vars _ _ s) := tok]> t]>
                    (bridge_generated _ (bridge _ _ s)))) s.
Proof.
  unfold HFMTJ.store_generated, bind, gets, lift, modify, raise, getitem.
  destruct (params _ _ s !! "seq") as [seq |] eqn:Hseq; simpl; [| discriminate].
  destruct (index generated i) as [row | e] eqn:Hrow; simpl; [| discriminate].
  destruct (index row (seq + n_generated - 1)) as [tok | e] eqn:Htok; simpl;
    [| discriminate].
  destruct (bridge_generated _ (bridge _ _ s) !! (i + 1)) as [t |] eqn:Ht; simpl;
    [| discriminate].
  intros H. injection H as <-. exists seq, row, tok, t.
  repeat split; first [reflexivity | assumption].
Qed.

Local Abbreviation token_stored := (HFMTJNotions.token_stored pyfloat Sharded).

Lemma index_in_range {A} (l : list A) (i : Z) (x : A) :
  0 <= i -> index l i = Ok x -> i < Z.of_nat (length l).
Proof.
  intros Hi. unfold index.
  assert ((i <? 0) = false) as -> by (apply Z.ltb_ge; lia).
  destruct ((0 <=? i) && (i <? Z.of_nat (length l))) eqn:Hin; [| discriminate].
  intros _. apply andb_true_iff in Hin. destruct Hin as [_ Hlt].
  apply Z.ltb_lt in Hlt. exact Hlt.
Qed.

Lemma store_sets_token (generated : list (list Z)) (n_generated i : Z) (s s' : state) :
  store_generated generated n_generated i s = (Ok tt, s') ->
  token_stored generated n_generated (generated_tkns _ _ (vars _ _ s)) i s'.
Proof.
  intros H. apply store_generated_ok in H.
  destruct H as (seq & row & tok & t & Hseq & Hrow & Htok & Ht & ->).
  exists seq, row, tok, (<[generated_tkns _ _ (vars _ _ s) := tok]> t).
  repeat split; try assumption; simpl.
  - apply lookup_insert_eq.
  - apply lookup_insert_eq.
Qed.

Lemma store_keeps_token (generated : list (list Z)) (n_generated i j : Z) (s s' : state) :
  token_stored generated n_generated (generated_tkns _ _ (vars _ _ s)) i s ->
  store_generated generated n_generated j s = (Ok tt, s') ->
  token_stored generated n_generated (generated_tkns _ _ (vars _ _ s)) i s'.
Proof.
  intros (seq & row & tok & t & Hseq & Hrow & Htok & Ht & Hlook) H.
  destruct (Z.eq_dec j i) as [-> | Hne].
  - apply (store_sets_token _ _ _ _ _ H).
  - apply store_generated_ok in H.
    destruct H as (seq' & row' & tok' & t' & _ & _ & _ & _ & ->).
    exists seq, row, tok, t. repeat split; try assumption. simpl.
    rewrite lookup_insert_ne by lia. exact Ht.
Qed.

Lemma store_all_keeps_token (generated : list (list Z)) (n_generated i : Z)
      (rows : list Z) (s s' : state) :
  token_stored generated n_generated (generated_tkns _ _ (vars _ _ s)) i s ->
  for_each rows (store_generated generated n_generated) s = (Ok tt, s') ->
  token_stored generated n_generated (generated_tkns _ _ (vars _ _ s)) i s'.
Proof.
  revert s. induction rows as [| j rows IH]; intros s Hi; simpl.
  - unfold ret. intros H. injection H as <-. exact Hi.
  - unfold bind.
    destruct (store_generated generated n_generated j s) as [[[] | e] s1] eqn:Hj;
      [| discriminate].
    intros Hrest.
    destruct (HFMTJFacts.store_generated_frame generated n_generated j s) as (Hv & _).
    rewrite Hj in Hv. simpl in Hv.
    pose proof (store_keeps_token _ _ _ _ _ _ Hi Hj) as Hi1.
    rewrite <- Hv in Hi1 |- *. apply (IH s1 Hi1 Hrest).
Qed.

Lemma store_all_tokens (generated : list (list Z)) (n_generated : Z)
      (rows : list Z) (s s' : state) :
  for_each rows (store_generated generated n_generated) s = (Ok tt, s') ->
  forall i, In i rows ->
    token_stored generated n_generated (generated_tkns _ _ (vars _ _ s)) i s'.
Proof.
  revert s. induction rows as [| j rows IH]; intros s; simpl; [intros _ i [] |].
  unfold bind.
  destruct (store_generated generated n_generated j s) as [[[] | e] s1] eqn:Hj;
    [| discriminate].
  intros Hrest i Hin.
  destruct (HFMTJFacts.store_generated_frame generated n_generated j s) as (Hv & _).
  rewrite Hj in Hv. simpl in Hv.
  destruct Hin as [<- | Hin].
  - pose proof (store_sets_token _ _ _ _ _ Hj) as H1.
    rewrite <- Hv in H1 |- *. apply (store_all_keeps_token _ _ _ _ _ _ H1 Hrest).
  - rewrite <- Hv. apply (IH s1 Hrest i Hin).
Qed.

(** The second loop reads the state and never writes it. *)
Lemma scan_world_info_state (rows : list (Z * list Z)) (n_generated : Z)
      (excluded_world_info : list (gset Z)) (flag : bool) (s : state) :
  snd (scan_world_info pyfloat Sharded decode decodenewlines calc_ai_text rows n_generated
         excluded_world_info flag s) = s.
Proof.
  revert s. induction rows as [| [i t] rows IH]; intros s; simpl; [reflexivity |].
  unfold bind, gets, lift, raise, ret.
  destruct (past _ _ s) as [past_rows |]; simpl; [| reflexivity].
  destruct (index past_rows i); simpl; [| reflexivity].
  destruct (getitem (params _ _ s) "seq"); simpl; [| reflexivity].
  destruct (index excluded_world_info i); simpl; [| reflexivity].
  destruct (negb _); [reflexivity | apply IH].
Qed.

(** What a normal return of the hook tells: the lengths agreed, the first
    loop went through from the counted state to the final state, the
    exclusion sets come back as they were, and the halt flag is the one
    computed on entry. *)
Lemma mtj_stopping_callback_returned (generated : list (list Z)) (n_generated : Z)
      (excluded_world_info : list (gset Z)) (s s' : state)
      (r : list (gset Z) * bool * bool) :
  mtj_stopping_callback generated n_generated excluded_world_info s = (Ok r, s') ->
  length excluded_world_info = length generated
  /\ for_each (seqZ 0 (numseqs _ _ (vars _ _ s))) (store_generated generated n_generated)
       (counted s) = (Ok tt, s')
  /\ fst (fst r) = excluded_world_info
  /\ snd r = halt_of s
  /\ (dynamicscan _ _ (vars _ _ s) = false \/ halt_of s = true ->
      snd (fst r) = regeneration_required _ (bridge _ _ s)).
Proof.
  unfold HFMTJ.mtj_stopping_callback, bind, gets, modify, assert, ret, raise.
  destruct (Nat.eqb (length excluded_world_info) (length generated)) eqn:Hlen;
    [| discriminate].
  apply Nat.eqb_eq in Hlen. simpl. fold (counted s).
  destruct (HFMTJFacts.store_all_frame generated n_generated
              (seqZ 0 (numseqs _ _ (vars _ _ s))) (counted s)) as [Hv _].
  destruct (for_each _ _ (counted s)) as [[[] | e] s2] eqn:Hloop; [| discriminate].
  simpl in Hv. rewrite Hv. fold (halt_of s). unfold set_generated_tkns. cbn [dynamicscan].
  destruct (negb (dynamicscan _ _ (vars _ _ s)) || halt_of s) eqn:Hstatic.
  - intros H. injection H as <- <-. repeat split; auto.
  - pose proof (scan_world_info_state (enumerate generated) n_generated
                  excluded_world_info (regeneration_required _ (bridge _ _ s)) s2) as Hscan.
    destruct (scan_world_info _ _ _ _ _ _ _ _ _ s2) as [[flag | e] s3]; [| discriminate].
    simpl in Hscan. subst s3.
    intros H. injection H as <- <-. repeat split; auto.
    apply orb_false_iff in Hstatic. destruct Hstatic as [Hdyn Hhalt].
    apply negb_false_iff in Hdyn.
    intros [H | H]; congruence.
Qed.

Lemma store_all_bridge_frame (generated : list (list Z)) (n_generated : Z) (rows : list Z)
      (s : state) :
  regeneration_required _
    (bridge _ _ (snd (for_each rows (store_generated generated n_generated) s)))
  = regeneration_required _ (bridge _ _ s).
Proof.
  revert s. induction rows as [| j rows IH]; intros s; simpl; [reflexivity |].
  unfold bind.
  assert (regeneration_required _
            (bridge _ _ (snd (store_generated generated n_generated j s)))
          = regeneration_required _ (bridge _ _ s)) as Hj.
  { unfold HFMTJ.store_generated, bind, gets, lift, modify, raise.
    destruct (getitem _ "seq"); simpl; [| reflexivity].
    destruct (index generated j) as [row | e]; simpl; [| reflexivity].
    destruct (index row _); simpl; [| reflexivity].
    destruct (_ !! (j + 1)); reflexivity. }
  destruct (store_generated generated n_generated j s) as [[[] | e] s1]; simpl in *.
  - rewrite IH. exact Hj.
  - exact Hj.
Qed.

(** X1.  Whenever the stopping hook returns, it hands back the exclusion
    sets it was given; the halt flag is true exactly when the abort flag
    is set, generation is disabled, or the token count after this call
    has reached [genamt]; the count has gone up by one and
    [regeneration_required] has been reset.  Without dynamic scanning, or
    when halting, the returned regeneration flag is the one found in the
    bridge on entry. *)
Theorem stopping_hook_result (generated : list (list Z)) (n_generated : Z)
        (excluded_world_info : list (gset Z)) (s s' : state)
        (r : list (gset Z) * bool * bool) :
  mtj_stopping_callback generated n_generated excluded_world_info s = (Ok r, s') ->
  fst (fst r) = excluded_world_info
  /\ (snd r = true <->
      abort _ _ (vars _ _ s) = true
      \/ generating _ (bridge _ _ s) = false
      \/ genamt _ _ (vars _ _ s) <= generated_tkns _ _ (vars _ _ s) + 1)
  /\ generated_tkns _ _ (vars _ _ s') = generated_tkns _ _ (vars _ _ s) + 1
  /\ regeneration_required _ (bridge _ _ s') = false
  /\ (dynamicscan _ _ (vars _ _ s) = false \/ snd r = true ->
      snd (fst r) = regeneration_required _ (bridge _ _ s)).
Proof.
  intros H. apply mtj_stopping_callback_returned in H.
  destruct H as (_ & Hloop & Hex & Hhalt & Hflag).
  split; [exact Hex |]. split.
  { rewrite Hhalt. unfold HFMTJ.halt_of.
    rewrite !orb_true_iff, negb_true_iff, Z.leb_le. tauto. }
  destruct (HFMTJFacts.store_all_frame generated n_generated
              (seqZ 0 (numseqs _ _ (vars _ _ s))) (counted s)) as [Hv _].
  pose proof (store_all_bridge_frame generated n_generated
                (seqZ 0 (numseqs _ _ (vars _ _ s))) (counted s)) as Hb.
  rewrite Hloop in Hv, Hb. simpl in Hv, Hb.
  split; [rewrite Hv; reflexivity |]. split; [exact Hb |].
  rewrite Hhalt. exact Hflag.
Qed.

(** X2.  Whenever the stopping hook returns, the newest token of every
    sequence [i] below [numseqs] (the entry of row [i] at column
    [seq + n_generated - 1]) is in the bridge's table [i + 1] under the
    new token count. *)
Theorem stopping_hook_stores_tokens (generated : list (list Z)) (n_generated : Z)
        (excluded_world_info : list (gset Z)) (s s' : state)
        (r : list (gset Z) * bool * bool) :
  mtj_stopping_callback generated n_generated excluded_world_info s = (Ok r, s') ->
  forall i, 0 <= i < numseqs _ _ (vars _ _ s) ->
    token_stored generated n_generated (generated_tkns _ _ (vars _ _ s) + 1) i s'.
Proof.
  intros H i Hi. apply mtj_stopping_callback_returned in H.
  destruct H as (_ & Hloop & _).
  apply (store_all_tokens _ _ _ _ _ Hloop i).
  apply list_elem_of_In, elem_of_seqZ. lia.
Qed.

(** X3.  The stopping hook returns only if it was given as many
    exclusion sets as rows and at least [numseqs] rows. *)
Theorem stopping_hook_needs_rows (generated : list (list Z)) (n_generated : Z)
        (excluded_world_info : list (gset Z)) (s s' : state)
        (r : list (gset Z) * bool * bool) :
  mtj_stopping_callback generated n_generated excluded_world_info s = (Ok r, s') ->
  length excluded_world_info = length generated
  /\ numseqs _ _ (vars _ _ s) <= Z.of_nat (length generated).
Proof.
  intros H. apply mtj_stopping_callback_returned in H.
  destruct H as (Hlen & Hloop & _). split; [exact Hlen |].
  destruct (Z_le_gt_dec (numseqs _ _ (vars _ _ s)) 0) as [Hn | Hn]; [lia |].
  assert (In (numseqs _ _ (vars _ _ s) - 1) (seqZ 0 (numseqs _ _ (vars _ _ s)))) as Hin.
  { apply list_elem_of_In, elem_of_seqZ. lia. }
  destruct (store_all_tokens _ _ _ _ _ Hloop _ Hin) as (seq & row & tok & t & _ & Hrow & _).
  apply index_in_range in Hrow; lia.
Qed.

(** X4.  When the number of exclusion sets differs from the number of
    rows the hook fails with [AssertionError]; the token has been counted
    all the same, and nothing else has changed. *)
Theorem stopping_hook_length_mismatch (generated : list (list Z)) (n_generated : Z)
        (excluded_world_info : list (gset Z)) (s : state) :
  length excluded_world_info <> length generated ->
  mtj_stopping_callback generated n_generated excluded_world_info s
  = (Raise AssertionError,
     with_vars _ _ (fun v => set_generated_tkns _ _ (generated_tkns _ _ v + 1) v) s).
Proof.
  intros Hlen. apply Nat.eqb_neq in Hlen.
  unfold HFMTJ.mtj_stopping_callback, bind, gets, modify, assert, ret, raise.
  rewrite Hlen. reflexivity.
Qed.

(** *** The score hook *)

Local Abbreviation keeps_logits := (HFMTJNotions.keeps_logits pyfloat Sharded).
Local Abbreviation well_formed := (HFMTJNotions.well_formed pyfloat).

Lemma table_from_app {V} (a : Z) (items : list V) (x : V) :
  table_from a (items ++ [x]) = table_from a items ++ [(a + Z.of_nat (length items), x)].
Proof.
  revert a. induction items as [| y items IH]; intros a; cbn [table_from app length].
  - rewrite Z.add_0_r. reflexivity.
  - rewrite IH, Nat2Z.inj_succ.
    replace (a + Z.succ (Z.of_nat (length items))) with (a + 1 + Z.of_nat (length items))
      by lia.
    reflexivity.
Qed.

Lemma table_from_keys {V} (a : Z) (items : list V) :
  Forall (fun kv => a <= fst kv < a + Z.of_nat (length items)) (table_from a items).
Proof.
  revert a. induction items as [| y items IH]; intros a; cbn [table_from length];
    constructor.
  - cbn [fst]. rewrite Nat2Z.inj_succ. lia.
  - eapply Forall_impl; [apply (IH (a + 1)) |].
    intros [k v] Hk. cbn [fst] in *. rewrite Nat2Z.inj_succ. lia.
Qed.

Lemma table_set_fresh {V} (t : lua_table V) (k : Z) (v : V) :
  Forall (fun kv => fst kv <> k) t -> table_set t k v = t ++ [(k, v)].
Proof.
  induction 1 as [| [k' v'] t Hk _ IH]; simpl; [reflexivity |].
  simpl in Hk. apply Z.eqb_neq in Hk. rewrite Hk, IH. reflexivity.
Qed.

Lemma table_values_from {V} (a : Z) (items : list V) :
  table_values (table_from a items) = items.
Proof.
  unfold table_values.
  revert a. induction items as [| y items IH]; intros a; simpl; [reflexivity |].
  f_equal. apply IH.
Qed.

Lemma rows_through_tables {V} (rows : list (list V)) :
  map table_values (map table_of_args rows) = rows.
Proof.
  induction rows as [| r rows IH]; simpl; [reflexivity |].
  rewrite IH. unfold table_of_args. rewrite table_values_from. reflexivity.
Qed.

(** A loop of plain updates is a fold. *)
Lemma for_each_modify {S A} (f : A -> S -> S) (xs : list A) (s : S) :
  for_each xs (fun a => modify (f a)) s = (Ok tt, fold_left (fun s a => f a s) xs s).
Proof.
  revert s. induction xs as [| x xs IH]; intros s; [reflexivity |].
  cbn [for_each fold_left]. unfold bind.
  change (modify (f x) s) with (@Ok unit tt, f x s). cbv iota beta. apply IH.
Qed.

Lemma bind_modify {S B} (f : S -> S) (k : unit -> M S B) (s : S) :
  bind (modify f) k s = k tt (f s).
Proof. reflexivity. Qed.

Lemma bind_for_each_modify {S A B} (f : A -> S -> S) (xs : list A) (k : unit -> M S B)
      (s : S) :
  bind (for_each xs (fun a => modify (f a))) k s
  = k tt (fold_left (fun s a => f a s) xs s).
Proof. unfold bind at 1. rewrite for_each_modify. reflexivity. Qed.

(** The loop that fills the table, started on a table that holds the
    rows done so far. *)
Lemma fill_logits (rows done : list (list pyfloat)) (s : state) :
  logits _ (bridge _ _ s) = table_from 1 (map table_of_args done) ->
  fold_left
    (fun (s : state) (r_row : Z * list pyfloat) =>
       with_bridge pyfloat Sharded (fun l =>
         set_logits pyfloat
           (table_set (logits pyfloat l) (fst r_row + 1) (table_of_args (snd r_row))) l) s)
    (enumerate_from (Z.of_nat (length done)) rows) s
  = with_bridge _ _
      (set_logits _ (table_from 1 (map table_of_args (done ++ rows)))) s.
Proof.
  revert done s. induction rows as [| row rows IH]; intros done s Hs.
  - cbn [enumerate_from fold_left]. rewrite app_nil_r, <- Hs.
    destruct s as [v [] p q]; reflexivity.
  - cbn [enumerate_from fold_left fst snd].
    set (s1 := with_bridge _ _ _ s).
    assert (logits _ (bridge _ _ s1)
            = table_from 1 (map table_of_args (done ++ [row]))) as Hs1.
    { subst s1. unfold with_bridge, set_logits. cbn [bridge logits fst snd].
      rewrite Hs, table_set_fresh.
      - rewrite map_app. cbn [map]. rewrite table_from_app, length_map.
        replace (1 + Z.of_nat (length done)) with (Z.of_nat (length done) + 1) by lia.
        reflexivity.
      - eapply Forall_impl; [apply table_from_keys |].
        intros [k v] Hk. cbn [fst] in *. rewrite length_map in Hk. lia. }
    specialize (IH (done ++ [row]) s1 Hs1).
    rewrite length_app in IH. cbn [length] in IH.
    replace (Z.of_nat (length done + 1)) with (Z.of_nat (length done) + 1) in IH by lia.
    rewrite IH. rewrite <- app_assoc. cbn [app].
    subst s1. destruct s as [v [] p q]; reflexivity.
Qed.

(** With a script that keeps the table, the array rebuilt from the table
    is the array of the rows. *)
Lemma rewritten_scores_kept (scores : score_batch pyfloat) (s : state) :
  keeps_logits execute_genmod ->
  fst (rewritten_scores scores s)
  = array_of_rows np_cast (sb_rows _ scores) (sb_dtype _ scores).
Proof.
  intros Hkeep.
  unfold HFMTJ.rewritten_scores, enumerate.
  rewrite bind_modify, bind_for_each_modify.
  change 0 with (Z.of_nat (length (@nil (list pyfloat)))).
  rewrite (fill_logits (sb_rows _ scores) []) by reflexivity.
  rewrite bind_modify. unfold bind, gets, lift.
  match goal with
  | |- context [execute_genmod ?x] =>
      destruct (Hkeep x) as [Hok Hlog]; destruct (execute_genmod x) as [[[] | e] s2]
  end; simpl in *; [| discriminate].
  rewrite Hlog. simpl. rewrite table_values_from, rows_through_tables.
  destruct (array_of_rows _ _ _); reflexivity.
Qed.

(** X5.  Round trip: with a script that leaves the table of scores alone
    and a batch of at least one row, all of the declared width, the score
    hook returns an array of the input's dtype and shape whose entries are
    the input's entries, each converted to the dtype, in row-major
    order. *)
Theorem warper_hook_round_trip (scores : score_batch pyfloat) (s : state) :
  keeps_logits execute_genmod ->
  well_formed scores ->
  sb_rows _ scores <> [] ->
  fst (mtj_warper_callback scores s)
  = Ok (mk_ndarray (sb_dtype _ scores) (scores_shape_of _ scores)
          (map (np_cast (sb_dtype _ scores)) (concat (sb_rows _ scores)))).
Proof.
  intros Hkeep Hwf Hrows.
  pose proof (rewritten_scores_kept scores s Hkeep) as Hre.
  unfold HFMTJ.mtj_warper_callback, bind, assert, ret, raise.
  destruct (rewritten_scores scores s) as [r s1]. simpl in Hre. subst r.
  unfold HFMTJNotions.well_formed in Hwf. unfold scores_shape_of.
  destruct (sb_rows _ scores) as [| row rows] eqn:Hsb; [contradiction |].
  unfold array_of_rows.
  inversion Hwf as [| ? ? Hrow Hrest]; subst.
  assert (forallb (fun r' => Nat.eqb (length r') (length row)) rows = true) as ->.
  { apply forallb_forall. intros r' Hin. apply Nat.eqb_eq.
    rewrite Forall_forall in Hrest. rewrite Hrow.
    apply Hrest, list_elem_of_In, Hin. }
  rewrite Hrow. case_bool_decide as Hshape; [reflexivity |].
  exfalso. apply Hshape. reflexivity.
Qed.

(** X6.  An empty batch never passes: with a script that leaves the
    table alone, no rows give an array of shape [(0,)], which is not the
    input's shape [(0, cols)], and the hook fails with
    [AssertionError]. *)
Theorem warper_hook_empty_batch (scores : score_batch pyfloat) (s : state) :
  keeps_logits execute_genmod ->
  sb_rows _ scores = [] ->
  fst (mtj_warper_callback scores s) = Raise AssertionError.
Proof.
  intros Hkeep Hrows.
  pose proof (rewritten_scores_kept scores s Hkeep) as Hre.
  unfold HFMTJ.mtj_warper_callback, bind, assert, ret, raise.
  destruct (rewritten_scores scores s) as [r s1]. simpl in Hre. subst r.
  unfold scores_shape_of. rewrite Hrows. cbn [array_of_rows length].
  rewrite bool_decide_eq_false_2 by (cbn [nd_shape]; discriminate). reflexivity.
Qed.

(** *** [get_soft_tokens] *)

Lemma ensure_soft_prompt_installs (s s1 : state) :
  ensure_soft_prompt s = (Ok tt, s1) -> exists x, sp _ _ (vars _ _ s1) = Some x.
Proof.
  unfold HFMTJ.ensure_soft_prompt, bind, gets, lift, modify, ret.
  destruct (sp _ _ (vars _ _ s)) as [x |] eqn:Hsp; simpl.
  - intros H. injection H as <-. exists x. exact Hsp.
  - destruct (HFMTJ.soft_placeholder _ _ _); simpl; [| discriminate].
    destruct (shard_xmap _) as [sharded | e]; simpl; [| discriminate].
    intros H. injection H as <-. exists sharded. reflexivity.
Qed.

(** X7.  After a call of [get_soft_tokens] that returned, a soft prompt
    is configured, and calling again returns the same ids and changes
    nothing. *)
Theorem get_soft_tokens_again (s s' : state) (out : ndarray Z) :
  get_soft_tokens s = (Ok out, s') ->
  is_Some (sp _ _ (vars _ _ s')) /\ get_soft_tokens s' = (Ok out, s').
Proof.
  intros Hrun.
  pose proof (HFMTJFacts.get_soft_tokens_state fzero shard_xmap s) as Hstate.
  rewrite Hrun in Hstate. simpl in Hstate.
  destruct (HFMTJFacts.ensure_soft_prompt_frame fzero shard_xmap s) as [Hprm Hlen].
  revert Hrun. unfold HFMTJ.get_soft_tokens, bind, gets, lift, ret.
  destruct (ensure_soft_prompt s) as [[[] | e] s1] eqn:Hens; simpl in *; [| discriminate].
  subst s1.
  destruct (ensure_soft_prompt_installs _ _ Hens) as [x Hx].
  rewrite (HFMTJFacts.ensure_soft_prompt_configured fzero shard_xmap s' x Hx). simpl.
  destruct (getitem (params _ _ s') "n_vocab"); simpl; [| discriminate].
  destruct (getitem (params _ _ s') "n_vocab_padding"); simpl; [| discriminate].
  intros H. injection H as <-. split; [exists x; exact Hx | reflexivity].
Qed.

(** X8.  Without a configured soft prompt, a missing ["d_model"] is a
    [KeyError] even when ["d_embed"] is there (the default of [get] is
    evaluated first); nothing is changed. *)
Theorem get_soft_tokens_missing_d_model (s : state) :
  sp _ _ (vars _ _ s) = None ->
  params _ _ s !! "d_model" = None ->
  get_soft_tokens s = (Raise (KeyError "d_model"), s).
Proof.
  intros Hsp Hdm.
  unfold HFMTJ.get_soft_tokens, HFMTJ.ensure_soft_prompt, bind, gets, lift.
  rewrite Hsp. simpl.
  unfold HFMTJ.soft_placeholder, HFMTJ.padded_placeholder, embedding_width, getitem.
  rewrite Hdm. reflexivity.
Qed.

(** X9.  The placeholder is built only for a sound geometry: if
    [soft_placeholder] gives an array, then ["d_model"], ["seq"] and
    ["cores_per_replica"] are engine parameters and the embedding width,
    the core count and the sequence length are all positive. *)
Theorem soft_placeholder_only_if (prm : gmap string Z) (t : ndarray pyfloat) :
  soft_placeholder prm = Ok t ->
  exists d_model seq cores,
    prm !! "d_model" = Some d_model
    /\ prm !! "seq" = Some seq
    /\ prm !! "cores_per_replica" = Some cores
    /\ 0 < dict_get prm "d_embed" d_model
    /\ 0 < cores
    /\ 0 < seq.
Proof.
  unfold HFMTJ.soft_placeholder, HFMTJ.padded_placeholder, embedding_width, getitem.
  destruct (prm !! "d_model") as [d_model |]; [| discriminate].
  set (width := dict_get prm "d_embed" d_model).
  unfold zeros. cbn [existsb]. unfold negative.
  destruct (1 <? 0) eqn:H1; [discriminate |]. cbn [orb].
  destruct (width <? 0) eqn:Hw; [discriminate |]. cbn [orb nd_shape].
  apply Z.ltb_ge in Hw.
  destruct (prm !! "seq") as [seq |]; [| discriminate].
  destruct (prm !! "cores_per_replica") as [cores |]; [| discriminate].
  unfold py_mod. destruct (- cores =? 0) eqn:Hc0; [discriminate |].
  apply Z.eqb_neq in Hc0.
  unfold pad_rows_after. cbn [nd_shape nd_dtype nd_data].
  destruct (seq - seq mod - cores - 1 <? 0) eqn:Hpad; [discriminate |].
  apply Z.ltb_ge in Hpad.
  unfold reshape, negative. cbn [nd_shape nd_dtype nd_data List.filter product fold_right].
  destruct (cores <? 0) eqn:Hc; cbn [negb List.filter].
  { change (-1 <? 0) with true. cbn [negb List.filter].
    destruct (width <? 0); discriminate. }
  apply Z.ltb_ge in Hc.
  change (-1 <? 0) with true. cbn [negb List.filter].
  assert ((width <? 0) = false) as -> by (apply Z.ltb_ge; lia).
  cbn [negb List.filter product fold_right].
  destruct (cores * (width * 1) =? 0) eqn:Hknown; [discriminate |].
  apply Z.eqb_neq in Hknown. intros _.
  exists d_model, seq, cores.
  assert (0 < cores) as Hcpos by lia.
  split; [reflexivity |]. split; [reflexivity |]. split; [reflexivity |].
  split; [| split; [exact Hcpos |]].
  - assert (0 < width) as Hwpos; [| exact Hwpos].
    destruct (Z.eq_dec width 0) as [E | E]; [| lia].
    exfalso. apply Hknown. rewrite E. ring.
  - destruct (HFMTJFacts.round_up_to_cores seq cores Hcpos) as (_ & _ & _ & Hleast).
    destruct (Z_le_gt_dec seq 0) as [Hle | Hgt]; [| lia].
    specialize (Hleast 0 (Z.divide_0_r cores) Hle). lia.
Qed.

(** X10.  When the placeholder has been built and sharded but
    ["n_vocab"] is not an engine parameter, the call fails with
    [KeyError] and the placeholder stays installed as the soft prompt. *)
Theorem get_soft_tokens_late_key_error (s : state) (t : ndarray pyfloat)
        (sharded : Sharded) :
  sp _ _ (vars _ _ s) = None ->
  soft_placeholder (params _ _ s) = Ok t ->
  shard_xmap t = Ok sharded ->
  params _ _ s !! "n_vocab" = None ->
  get_soft_tokens s
  = (Raise (KeyError "n_vocab"), with_vars _ _ (set_sp _ _ (Some sharded)) s).
Proof.
  intros Hsp Hsoft Hshard Hv.
  unfold HFMTJ.get_soft_tokens, HFMTJ.ensure_soft_prompt, bind, gets, lift, modify, ret.
  rewrite Hsp. simpl. rewrite Hsoft. simpl. rewrite Hshard. simpl.
  unfold getitem. rewrite Hv. reflexivity.
Qed.

(** X11.  With a soft-prompt length of zero or less the returned array
    of ids is empty. *)
Theorem get_soft_tokens_no_ids (s s' : state) (out : ndarray Z) :
  get_soft_tokens s = (Ok out, s') ->
  sp_length _ _ (vars _ _ s) <= 0 ->
  out = mk_ndarray uint32 [0] [].
Proof.
  unfold HFMTJ.get_soft_tokens, bind, gets, lift, ret.
  destruct (HFMTJFacts.ensure_soft_prompt_frame fzero shard_xmap s) as [Hprm Hlen].
  destruct (ensure_soft_prompt s) as [[[] | e] s1]; simpl in *; [| discriminate].
  destruct (getitem (params _ _ s1) "n_vocab") as [n_vocab | e]; simpl; [| discriminate].
  destruct (getitem (params _ _ s1) "n_vocab_padding") as [padding | e]; simpl;
    [| discriminate].
  intros H Hle. injection H as <- _. rewrite Hlen. unfold arange_uint32.
  replace (Z.max 0 (n_vocab + padding + sp_length _ _ (vars _ _ s) - (n_vocab + padding)))
    with 0 by lia.
  reflexivity.
Qed.

End Hooks.

(** *** The hooks run on the toy engine *)

Import ToyEngine.

Local Abbreviation toy_stopping :=
  (mtj_stopping_callback Z (ndarray Z) toy_decode toy_decodenewlines toy_calc_ai_text).
Local Abbreviation toy_warper := (mtj_warper_callback Z toy_cast (ndarray Z)).
Local Abbreviation toy_get_soft_tokens := (get_soft_tokens Z 0 (ndarray Z) toy_shard_xmap).
Local Abbreviation quiet := (toy_state (toy_vars false false 0 80 0 [])).

Lemma stopping_hook_result_witness :
  let out := toy_stopping [seqZ 0 21] 1 [∅] quiet in
  out = (Ok ([∅], false, false), snd out)
  /\ generated_tkns _ _ (vars _ _ (snd out)) = 1
  /\ regeneration_required _ (bridge _ _ (snd out)) = false.
Proof.
  cbn zeta.
  assert (toy_stopping [seqZ 0 21] 1 [∅] quiet
          = (Ok ([∅], false, false), snd (toy_stopping [seqZ 0 21] 1 [∅] quiet))) as Hrun
    by (vm_compute; reflexivity).
  destruct (stopping_hook_result toy_decode toy_decodenewlines toy_calc_ai_text
              _ _ _ _ _ _ Hrun) as (_ & _ & Hcount & Hreset & _).
  split; [exact Hrun |]. split; [exact Hcount | exact Hreset].
Defined.

Lemma stopping_hook_stores_tokens_witness :
  let out := toy_stopping [seqZ 0 21] 1 [∅] quiet in
  out = (Ok ([∅], false, false), snd out)
  /\ HFMTJNotions.token_stored Z (ndarray Z) [seqZ 0 21] 1 1 0 (snd out).
Proof.
  cbn zeta.
  assert (toy_stopping [seqZ 0 21] 1 [∅] quiet
          = (Ok ([∅], false, false), snd (toy_stopping [seqZ 0 21] 1 [∅] quiet))) as Hrun
    by (vm_compute; reflexivity).
  split; [exact Hrun |].
  apply (stopping_hook_stores_tokens toy_decode toy_decodenewlines toy_calc_ai_text
           _ _ _ _ _ _ Hrun 0).
  split; [discriminate | reflexivity].
Defined.

Lemma stopping_hook_needs_rows_witness :
  let out := toy_stopping [seqZ 0 21] 1 [∅] quiet in
  out = (Ok ([∅], false, false), snd out)
  /\ length [(∅ : gset Z)] = length [seqZ 0 21]
  /\ numseqs _ _ (vars _ _ quiet) <= 1.
Proof.
  cbn zeta.
  assert (toy_stopping [seqZ 0 21] 1 [∅] quiet
          = (Ok ([∅], false, false), snd (toy_stopping [seqZ 0 21] 1 [∅] quiet))) as Hrun
    by (vm_compute; reflexivity).
  split; [exact Hrun |].
  exact (stopping_hook_needs_rows toy_decode toy_decodenewlines toy_calc_ai_text
           _ _ _ _ _ _ Hrun).
Defined.

Lemma stopping_hook_length_mismatch_witness :
  length (@nil (gset Z)) <> length [seqZ 0 21]
  /\ fst (toy_stopping [seqZ 0 21] 1 [] quiet) = Raise AssertionError
  /\ generated_tkns _ _ (vars _ _ (snd (toy_stopping [seqZ 0 21] 1 [] quiet))) = 1.
Proof.
  assert (length (@nil (gset Z)) <> length [seqZ 0 21]) as Hlen by (simpl; discriminate).
  split; [exact Hlen |].
  rewrite (stopping_hook_length_mismatch toy_decode toy_decodenewlines toy_calc_ai_text
             [seqZ 0 21] 1 [] quiet Hlen).
  split; reflexivity.
Defined.

Lemma genmod_keep_keeps_logits : HFMTJNotions.keeps_logits Z (ndarray Z) genmod_keep.
Proof. intros s. split; reflexivity. Qed.

Lemma warper_hook_round_trip_witness :
  HFMTJNotions.keeps_logits Z (ndarray Z) genmod_keep
  /\ HFMTJNotions.well_formed Z toy_scores
  /\ sb_rows _ toy_scores <> []
  /\ fst (toy_warper genmod_keep toy_scores quiet)
     = Ok (mk_ndarray float32 [2; 3] [1; 2; 3; 4; 5; 6]).
Proof.
  assert (HFMTJNotions.well_formed Z toy_scores) as Hwf
    by (repeat constructor).
  assert (sb_rows _ toy_scores <> []) as Hrows by discriminate.
  split; [exact genmod_keep_keeps_logits |]. split; [exact Hwf |]. split; [exact Hrows |].
  exact (warper_hook_round_trip toy_cast genmod_keep toy_scores quiet
           genmod_keep_keeps_logits Hwf Hrows).
Defined.

Lemma warper_hook_empty_batch_witness :
  HFMTJNotions.keeps_logits Z (ndarray Z) genmod_keep
  /\ fst (toy_warper genmod_keep (mk_scores Z float32 3 []) quiet) = Raise AssertionError.
Proof.
  split; [exact genmod_keep_keeps_logits |].
  exact (warper_hook_empty_batch toy_cast genmod_keep (mk_scores Z float32 3 []) quiet
           genmod_keep_keeps_logits eq_refl).
Defined.

Lemma get_soft_tokens_again_witness :
  let s := toy_state (toy_vars false false 0 80 4 []) in
  let out := mk_ndarray uint32 [4] [50400; 50401; 50402; 50403] in
  let s' := snd (toy_get_soft_tokens s) in
  toy_get_soft_tokens s = (Ok out, s')
  /\ sp _ _ (vars _ _ s) = None
  /\ is_Some (sp _ _ (vars _ _ s'))
  /\ toy_get_soft_tokens s' = (Ok out, s').
Proof.
  cbn zeta.
  set (s := toy_state (toy_vars false false 0 80 4 [])).
  assert (toy_get_soft_tokens s
          = (Ok (mk_ndarray uint32 [4] [50400; 50401; 50402; 50403]),
             snd (toy_get_soft_tokens s))) as Hrun by reflexivity.
  split; [exact Hrun |]. split; [reflexivity |].
  exact (get_soft_tokens_again 0 toy_shard_xmap _ _ _ Hrun).
Defined.

Lemma get_soft_tokens_missing_d_model_witness :
  let s := mk_state Z (ndarray Z) (toy_vars false false 0 80 4 []) toy_bridge
             (list_to_map [("d_embed", 2); ("seq", 20); ("cores_per_replica", 8);
                           ("n_vocab", 50257); ("n_vocab_padding", 143)]) None in
  params _ _ s !! "d_embed" = Some 2
  /\ toy_get_soft_tokens s = (Raise (KeyError "d_model"), s).
Proof.
  intros s. split; [reflexivity |].
  exact (get_soft_tokens_missing_d_model 0 toy_shard_xmap s eq_refl eq_refl).
Defined.

Lemma soft_placeholder_only_if_witness :
  soft_placeholder Z 0 toy_params = Ok (mk_ndarray float32 [8; 3; 2] (repeat 0 48))
  /\ exists d_model seq cores,
       toy_params !! "d_model" = Some d_model
       /\ toy_params !! "seq" = Some seq
       /\ toy_params !! "cores_per_replica" = Some cores
       /\ 0 < dict_get toy_params "d_embed" d_model
       /\ 0 < cores
       /\ 0 < seq.
Proof.
  assert (soft_placeholder Z 0 toy_params
          = Ok (mk_ndarray float32 [8; 3; 2] (repeat 0 48))) as Hrun by reflexivity.
  split; [exact Hrun |].
  exact (soft_placeholder_only_if 0 toy_params _ Hrun).
Defined.

Lemma get_soft_tokens_late_key_error_witness :
  let s := mk_state Z (ndarray Z) (toy_vars false false 0 80 4 []) toy_bridge
             (list_to_map [("d_model", 2); ("seq", 20); ("cores_per_replica", 8)]) None in
  fst (toy_get_soft_tokens s) = Raise (KeyError "n_vocab")
  /\ sp _ _ (vars _ _ (snd (toy_get_soft_tokens s)))
     = Some (mk_ndarray float32 [8; 3; 2] (repeat 0 48)).
Proof.
  intros s.
  rewrite (get_soft_tokens_late_key_error 0 toy_shard_xmap s
             (mk_ndarray float32 [8; 3; 2] (repeat 0 48))
             (mk_ndarray float32 [8; 3; 2] (repeat 0 48))
             eq_refl eq_refl eq_refl eq_refl).
  split; reflexivity.
Defined.

Lemma get_soft_tokens_no_ids_witness :
  let s := toy_state (toy_vars false false 0 80 0 []) in
  exists out,
    toy_get_soft_tokens s = (Ok out, snd (toy_get_soft_tokens s))
    /\ sp_length _ _ (vars _ _ s) <= 0
    /\ out = mk_ndarray uint32 [0] [].
Proof.
  intros s.
  assert (toy_get_soft_tokens s
          = (Ok (mk_ndarray uint32 [0] []), snd (toy_get_soft_tokens s))) as Hrun
    by reflexivity.
  assert (sp_length _ _ (vars _ _ s) <= 0) as Hle by (vm_compute; discriminate).
  exists (mk_ndarray uint32 [0] []).
  split; [exact Hrun |]. split; [exact Hle |].
  exact (get_soft_tokens_no_ids 0 toy_shard_xmap _ _ _ Hrun Hle).
Defined.

End HFMTJHooksFacts.

(** * Further properties of the parts of [generic_hf_torch.py] *)

Module GenericPartsFacts.
Import GenericHFTorch.

Section Parts.

Context {Config World : Type}.
Variable perform : call Config -> World -> res answer * World.
Variable realpath : string -> string.
Variable path_join : string -> string -> string.
Variable local_model_path : string.
Variable from_pretrained_index_filename : string.

Local Abbreviation state := (load_state Config World).
Local Abbreviation extern := (extern Config World perform).
Local Abbreviation extern_ := (extern_ Config World perform).
Local Abbreviation move_from_cache :=
  (move_from_cache Config World perform realpath path_join local_model_path).
Local Abbreviation save_sharded_weights :=
  (save_sharded_weights Config World perform realpath path_join local_model_path
     from_pretrained_index_filename).
Local Abbreviation copy_checkpoint_files :=
  (copy_checkpoint_files Config World perform realpath path_join local_model_path
     from_pretrained_index_filename).
Local Abbreviation convert_and_save :=
  (convert_and_save Config World perform local_model_path).
Local Abbreviation save_downloaded_model :=
  (save_downloaded_model Config World perform realpath path_join local_model_path
     from_pretrained_index_filename).
Local Abbreviation download filename s :=
  (hf_hub_download Config (model (vars _ _ s)) filename (revision (vars _ _ s))).
Local Abbreviation world_after := (GenericNotions.world_after Config World perform).
Local Abbreviation cache_moves :=
  (GenericNotions.cache_moves Config World perform realpath path_join local_model_path).

(** A call changes the recorded calls and the world, nothing else. *)
Lemma extern_frame (c : call Config) (s : state) :
  vars _ _ (snd (extern c s)) = vars _ _ s
  /\ disk_blocks _ _ (snd (extern c s)) = disk_blocks _ _ s
  /\ num_shards _ _ (snd (extern c s)) = num_shards _ _ s
  /\ local_model _ _ (snd (extern c s)) = local_model _ _ s
  /\ self_model _ _ (snd (extern c s)) = self_model _ _ s
  /\ calls _ _ (snd (extern c s)) = calls _ _ s ++ [c].
Proof.
  unfold GenericHFTorch.extern. simpl.
  destruct (perform c (world _ _ s)) as [r w]. simpl. repeat split.
Qed.

(** X12.  A file is moved only after it was found in the cache.  If the
    download raises, that exception is the outcome and the download is the
    only call made; if it gives a cached path, the one further call is the
    move of that file's real path to the file's name under the local
    model path. *)
Theorem move_from_cache_steps (filename : string) (s : state) :
  (forall e, fst (extern (download filename s) s) = Raise e ->
     fst (move_from_cache filename s) = Raise e
     /\ calls _ _ (snd (move_from_cache filename s))
        = calls _ _ s ++ [download filename s])
  /\ (forall cached, fst (extern (download filename s) s) = Ok (Path cached) ->
        calls _ _ (snd (move_from_cache filename s))
        = calls _ _ s
          ++ [download filename s;
              shutil_move Config (realpath cached) (path_join local_model_path filename)]).
Proof.
  unfold GenericHFTorch.move_from_cache, extern_path, GenericHFTorch.extern_, bind, gets,
    ret, raise. simpl.
  destruct (extern_frame (download filename s) s) as (_ & _ & _ & _ & _ & Hc).
  destruct (extern (download filename s) s) as [[a | e0] s1]; simpl in *; split.
  - intros e He. discriminate He.
  - intros cached Ha. injection Ha as ->. simpl.
    set (mv := shutil_move Config _ _).
    destruct (extern_frame mv s1) as (_ & _ & _ & _ & _ & Hc2).
    destruct (extern mv s1) as [[a2 | e2] s2]; simpl in *;
      rewrite Hc2, Hc, <- app_assoc; reflexivity.
  - intros e He. injection He as ->. auto.
  - intros cached Ha. discriminate Ha.
Qed.

(** A move that went through: the cache answered a path, and that path
    was moved. *)
Lemma move_from_cache_found (filename : string) (s s' : state) :
  move_from_cache filename s = (Ok tt, s') ->
  vars _ _ s' = vars _ _ s
  /\ exists cached a,
       let move :=
         shutil_move Config (realpath cached) (path_join local_model_path filename) in
       fst (perform (download filename s) (world _ _ s)) = Ok (Path cached)
       /\ fst (perform move (world_after [download filename s] (world _ _ s))) = Ok a
       /\ calls _ _ s' = calls _ _ s ++ [download filename s; move]
       /\ world _ _ s' = world_after [download filename s; move] (world _ _ s).
Proof.
  unfold GenericHFTorch.move_from_cache, extern_path, GenericHFTorch.extern_,
    GenericHFTorch.extern, bind, gets, ret, raise.
  cbn [log_call set_world world vars calls fst snd].
  destruct (perform (download filename s) (world _ _ s)) as [[ans | e0] w1] eqn:Hget;
    [| discriminate].
  destruct ans as [| cached | names]; try discriminate.
  cbn [log_call set_world world vars calls fst snd].
  destruct (perform (shutil_move Config (realpath cached)
                       (path_join local_model_path filename)) w1)
    as [[a | e1] w2] eqn:Hmove; [| discriminate].
  intros H. injection H as <-. cbn [vars calls world set_world log_call].
  split; [reflexivity |]. exists cached, a. cbn zeta.
  cbn [GenericNotions.world_after]. rewrite Hget. cbn [fst snd]. rewrite Hmove.
  cbn [fst snd]. rewrite <- app_assoc. repeat split.
Qed.

Lemma move_all_found (filenames : list string) (s s' : state) :
  for_each filenames move_from_cache s = (Ok tt, s') ->
  vars _ _ s' = vars _ _ s
  /\ exists tr,
       calls _ _ s' = calls _ _ s ++ tr
       /\ world _ _ s' = world_after tr (world _ _ s)
       /\ cache_moves (model (vars _ _ s)) (revision (vars _ _ s)) filenames
            (world _ _ s) tr.
Proof.
  revert s. induction filenames as [| f0 rest IH]; intros s; simpl.
  - unfold ret. intros H. injection H as <-.
    split; [reflexivity |]. exists []. rewrite app_nil_r. repeat split.
  - unfold bind.
    destruct (move_from_cache f0 s) as [[[] | e] s1] eqn:Hmove; [| discriminate].
    intros Hrest.
    destruct (move_from_cache_found _ _ _ Hmove)
      as (Hv1 & cached & a & Hget & Hmv & Hc1 & Hw1).
    destruct (IH s1 Hrest) as (Hv & tr & Hc & Hw & Hall).
    split; [congruence |].
    exists (download f0 s
            :: shutil_move Config (realpath cached) (path_join local_model_path f0) :: tr).
    split; [rewrite Hc, Hc1, <- app_assoc; reflexivity |].
    split; [rewrite Hw, Hw1; reflexivity |].
    exists cached, tr. cbn zeta.
    split; [reflexivity |]. split; [exact Hget |]. split; [exists a; exact Hmv |].
    rewrite Hw1, Hv1 in Hall. exact Hall.
Qed.

(** X13.  Saving a sharded model returns normally only if the index
    file was read and moved to the local model path and every shard it
    lists was found in the cache and moved there.  The calls the save
    added are then exactly: the read of the index file, which answered the
    shard names; the move of the index file; and for each shard in turn
    its download, answered with a cached path, and the move of that path's
    real path to the shard's name under the local model path. *)
Theorem save_sharded_weights_complete (s s' : state) :
  save_sharded_weights s = (Ok tt, s') ->
  let read_index := load_weight_map Config from_pretrained_index_filename in
  let move_index :=
    shutil_move Config (realpath from_pretrained_index_filename)
      (path_join local_model_path WEIGHTS_INDEX_NAME) in
  exists filenames shard_calls,
    fst (perform read_index (world _ _ s)) = Ok (Filenames filenames)
    /\ (exists a, fst (perform move_index (world_after [read_index] (world _ _ s))) = Ok a)
    /\ GenericNotions.added Config World s s' = read_index :: move_index :: shard_calls
    /\ cache_moves (model (vars _ _ s)) (revision (vars _ _ s)) filenames
         (world_after [read_index; move_index] (world _ _ s)) shard_calls.
Proof.
  intros Hrun read_index move_index. revert Hrun.
  unfold GenericHFTorch.save_sharded_weights, extern_filenames, GenericHFTorch.extern_,
    GenericHFTorch.extern, bind, ret, raise.
  cbn [log_call set_world world vars calls fst snd].
  fold read_index.
  destruct (perform read_index (world _ _ s)) as [[ans | e] w0] eqn:Hread; [| discriminate].
  destruct ans as [| p | filenames]; try discriminate.
  cbn [log_call set_world world vars calls fst snd].
  fold move_index.
  destruct (perform move_index w0) as [[a1 | e1] w1] eqn:Hmove; [| discriminate].
  intros Hall. destruct (move_all_found _ _ _ Hall) as (Hv & tr & Hc & Hw & Hfiles).
  cbn [log_call set_world world vars calls] in Hv, Hc, Hw, Hfiles.
  exists filenames, tr. cbn [GenericNotions.world_after]. rewrite Hread. cbn [fst snd].
  rewrite Hmove. cbn [fst snd].
  split; [reflexivity |]. split; [exists a1; reflexivity |]. split; [| exact Hfiles].
  unfold GenericNotions.added. rewrite Hc, <- !app_assoc, drop_app_length. reflexivity.
Qed.

(** *** Which calls a part can add *)

Local Abbreviation added := (GenericNotions.added Config World).
Local Abbreviation only_calls := (GenericNotions.only_calls Config World).
Local Abbreviation no_rmtree := (fun c : call Config => GenericNotions.is_rmtree Config c = false).
Local Abbreviation transfer := (fun c : call Config => GenericNotions.is_transfer Config c = true).

Lemma only_calls_extern (P : call Config -> Prop) (c : call Config) :
  P c -> only_calls P (extern c).
Proof.
  intros Hc s. exists [c]. destruct (extern_frame c s) as (_ & _ & _ & _ & _ & H).
  split; [exact H | repeat constructor; exact Hc].
Qed.

Lemma only_calls_quiet {A} (P : call Config -> Prop) (c : M state A) :
  (forall s, calls _ _ (snd (c s)) = calls _ _ s) -> only_calls P c.
Proof.
  intros H s. exists []. rewrite app_nil_r. split; [apply H | constructor].
Qed.

Lemma only_calls_bind {A B} (P : call Config -> Prop) (c : M state A) (k : A -> M state B) :
  only_calls P c -> (forall a, only_calls P (k a)) -> only_calls P (bind c k).
Proof.
  intros Hc Hk s. unfold bind. destruct (Hc s) as (l1 & H1 & HP1).
  destruct (c s) as [[a | e] s1]; simpl in *.
  - destruct (Hk a s1) as (l2 & H2 & HP2). exists (l1 ++ l2).
    rewrite H2, H1, <- app_assoc. split; [reflexivity | apply Forall_app; auto].
  - exists l1. auto.
Qed.

Lemma only_calls_try {A} (P : call Config -> Prop) (c : M state A) (h : exn -> M state A) :
  only_calls P c -> (forall e, only_calls P (h e)) -> only_calls P (try_except c h).
Proof.
  intros Hc Hh s. unfold try_except. destruct (Hc s) as (l1 & H1 & HP1).
  destruct (c s) as [[a | e] s1]; simpl in *.
  - exists l1. auto.
  - destruct (Hh e s1) as (l2 & H2 & HP2). exists (l1 ++ l2).
    rewrite H2, H1, <- app_assoc. split; [reflexivity | apply Forall_app; auto].
Qed.

Lemma only_calls_for_each {A} (P : call Config -> Prop) (xs : list A)
      (body : A -> M state unit) :
  (forall x, only_calls P (body x)) -> only_calls P (for_each xs body).
Proof.
  intros Hbody. induction xs as [| x xs IH]; simpl.
  - apply only_calls_quiet. reflexivity.
  - apply only_calls_bind; [apply Hbody | intros _; exact IH].
Qed.

Lemma only_calls_extern_ (P : call Config -> Prop) (c : call Config) :
  P c -> only_calls P (extern_ c).
Proof.
  intros Hc. unfold GenericHFTorch.extern_.
  apply only_calls_bind; [apply only_calls_extern; exact Hc |].
  intros _. apply only_calls_quiet. reflexivity.
Qed.

Lemma only_calls_impl {A} (P Q : call Config -> Prop) (c : M state A) :
  (forall x, P x -> Q x) -> only_calls P c -> only_calls Q c.
Proof.
  intros HPQ Hc s. destruct (Hc s) as (l & Hl & HP). exists l.
  split; [exact Hl | eapply Forall_impl; [exact HP | exact HPQ]].
Qed.

Lemma move_from_cache_transfers (filename : string) :
  only_calls transfer (move_from_cache filename).
Proof.
  unfold GenericHFTorch.move_from_cache.
  apply only_calls_bind; [apply only_calls_quiet; reflexivity | intros v].
  apply only_calls_bind.
  - unfold extern_path. apply only_calls_bind; [apply only_calls_extern; reflexivity |].
    intros [| p |]; apply only_calls_quiet; reflexivity.
  - intros cached. apply only_calls_extern_. reflexivity.
Qed.

Lemma copy_checkpoint_files_transfers : only_calls transfer copy_checkpoint_files.
Proof.
  unfold GenericHFTorch.copy_checkpoint_files.
  apply only_calls_bind; [apply move_from_cache_transfers | intros _].
  apply only_calls_bind; [apply only_calls_quiet; reflexivity | intros [n |]].
  - unfold GenericHFTorch.save_sharded_weights.
    apply only_calls_bind.
    + unfold extern_filenames. apply only_calls_bind; [apply only_calls_extern; reflexivity |].
      intros [| p |]; apply only_calls_quiet; reflexivity.
    + intros filenames. apply only_calls_bind; [apply only_calls_extern_; reflexivity |].
      intros _. apply only_calls_for_each. apply move_from_cache_transfers.
  - unfold GenericHFTorch.save_unsharded_weights.
    apply only_calls_for_each. intros name.
    apply only_calls_try; [apply move_from_cache_transfers |].
    intros e. destruct (String.eqb name "model.safetensors");
      apply only_calls_quiet; reflexivity.
Qed.

Lemma transfer_no_rmtree (c : call Config) : transfer c -> no_rmtree c.
Proof. destruct c; simpl; congruence. Qed.

Lemma copy_checkpoint_files_no_rmtree : only_calls no_rmtree copy_checkpoint_files.
Proof.
  apply (only_calls_impl transfer); [apply transfer_no_rmtree |].
  apply copy_checkpoint_files_transfers.
Qed.

Lemma convert_and_save_no_rmtree : only_calls no_rmtree convert_and_save.
Proof.
  unfold GenericHFTorch.convert_and_save, read_local_model.
  apply only_calls_bind.
  - apply only_calls_bind; [apply only_calls_quiet; reflexivity |].
    intros [m |]; apply only_calls_quiet; reflexivity.
  - intros m. apply only_calls_bind; [apply only_calls_quiet; reflexivity | intros _].
    apply only_calls_bind.
    + apply only_calls_bind; [apply only_calls_quiet; reflexivity |].
      intros [m' |]; apply only_calls_quiet; reflexivity.
    + intros m'. apply only_calls_extern_. reflexivity.
Qed.

(** X14.  The download cache is removed only after everything else went
    through: [shutil.rmtree("cache/")] is among the calls of a save
    exactly when the tokenizer was saved and the conversion or the copy of
    the files returned normally.  A failed save leaves the cache in
    place. *)
Theorem cache_removed_only_after_success (s : state) :
  let step :=
    if fp32_model (vars _ _ s) && (disk_blocks _ _ s =? 0)
    then convert_and_save else copy_checkpoint_files in
  In (shutil_rmtree Config "cache/") (added s (snd (save_downloaded_model true s)))
  <-> exists s1 s2,
        extern_ (tokenizer_save_pretrained Config local_model_path) s = (Ok tt, s1)
        /\ step s1 = (Ok tt, s2).
Proof.
  intros step.
  assert (only_calls no_rmtree step) as Hstep.
  { subst step. destruct (_ && _);
      [apply convert_and_save_no_rmtree | apply copy_checkpoint_files_no_rmtree]. }
  unfold GenericHFTorch.save_downloaded_model, when, GenericNotions.added.
  unfold bind at 1.
  set (tok := tokenizer_save_pretrained Config local_model_path).
  assert (forall s1 r, extern_ tok s = (r, s1) ->
            calls _ _ s1 = calls _ _ s ++ [tok]
            /\ vars _ _ s1 = vars _ _ s /\ disk_blocks _ _ s1 = disk_blocks _ _ s) as Htok.
  { intros s1 r. unfold GenericHFTorch.extern_, bind, ret.
    destruct (extern_frame tok s) as (Hv & Hb & _ & _ & _ & Hc).
    destruct (extern tok s) as [[a | e] s0]; simpl in *;
      intros H; injection H as _ <-; auto. }
  destruct (extern_ tok s) as [[[] | e] s1] eqn:Hrun.
  - destruct (Htok s1 _ eq_refl) as (Hc1 & Hv1 & Hb1).
    unfold bind, gets. simpl. rewrite Hv1, Hb1. fold step.
    destruct (Hstep s1) as (l & Hl & HP).
    destruct (step s1) as [[[] | e] s2] eqn:Hs; simpl in *.
    + split; [intros _; exists s1, s2; auto |]. intros _.
      unfold GenericHFTorch.extern_, bind, ret.
      destruct (extern_frame (shutil_rmtree Config "cache/") s2) as (_ & _ & _ & _ & _ & Hc).
      destruct (extern (shutil_rmtree Config "cache/") s2) as [[a | e] s3]; simpl in *;
        rewrite Hc, Hl, Hc1, <- !app_assoc, drop_app_length;
        apply in_or_app; right; apply in_or_app; right; left; reflexivity.
    + split.
      * rewrite Hl, Hc1, <- app_assoc, drop_app_length. intros Hin.
        apply in_app_or in Hin. destruct Hin as [[Heq | []] | Hin]; [discriminate Heq |].
        rewrite Forall_forall in HP. apply list_elem_of_In, HP in Hin. discriminate Hin.
      * intros (s1' & s2' & H1 & H2). injection H1 as <-. rewrite Hs in H2. discriminate H2.
  - destruct (Htok s1 _ eq_refl) as (Hc1 & _). simpl. split.
    + rewrite Hc1, drop_app_length. intros [Heq | []]. discriminate Heq.
    + intros (s1' & s2' & H1 & _). discriminate H1.
Qed.




End Parts.

(** *** The parts run in the toy world *)

Import ToyWorld.

Local Abbreviation toy_save_sharded :=
  (save_sharded_weights unit (list string) toy_perform id toy_join "models/m"
     "cache/index.json").
Local Abbreviation toy_save :=
  (save_downloaded_model unit (list string) toy_perform id toy_join "models/m"
     "cache/index.json").

Lemma save_sharded_weights_complete_witness :
  let s := toy_state (toy_vars false false false false false) 0 ["a.bin"; "b.bin"] in
  let s' := snd (toy_save_sharded s) in
  let read_index := load_weight_map unit "cache/index.json" in
  let move_index :=
    shutil_move unit "cache/index.json" "models/m/pytorch_model.bin.index.json" in
  toy_save_sharded s = (Ok tt, s')
  /\ exists filenames shard_calls,
       fst (toy_perform read_index (world _ _ s)) = Ok (Filenames filenames)
       /\ (exists a,
             fst (toy_perform move_index
                    (GenericNotions.world_after unit (list string) toy_perform [read_index]
                       (world _ _ s))) = Ok a)
       /\ GenericNotions.added unit (list string) s s' = read_index :: move_index :: shard_calls
       /\ GenericNotions.cache_moves unit (list string) toy_perform id toy_join "models/m"
            "org/model" "main" filenames
            (GenericNotions.world_after unit (list string) toy_perform
               [read_index; move_index] (world _ _ s))
            shard_calls.
Proof.
  intros s s' read_index move_index.
  assert (toy_save_sharded s = (Ok tt, s')) as Hrun by (vm_compute; reflexivity).
  split; [exact Hrun |].
  exact (save_sharded_weights_complete toy_perform id toy_join "models/m"
           "cache/index.json" s s' Hrun).
Defined.

(** The same run, call by call. *)
Example save_sharded_weights_calls :
  calls _ _ (snd (toy_save_sharded
                    (toy_state (toy_vars false false false false false) 0
                       ["a.bin"; "b.bin"])))
  = [load_weight_map unit "cache/index.json";
     shutil_move unit "cache/index.json" "models/m/pytorch_model.bin.index.json";
     hf_hub_download unit "org/model" "a.bin" "main";
     shutil_move unit "cache/a.bin" "models/m/a.bin";
     hf_hub_download unit "org/model" "b.bin" "main";
     shutil_move unit "cache/b.bin" "models/m/b.bin"].
Proof. vm_compute. reflexivity. Qed.

(** One shard missing from the cache: the save fails and the cache is
    not removed. *)
Example save_sharded_weights_missing_shard :
  let perform_missing :=
    fun (c : call unit) (cache : list string) =>
      match c with
      | load_weight_map _ _ => (Ok (Filenames ["a.bin"; "b.bin"]), cache)
      | _ => toy_perform c cache
      end in
  let s := toy_state (toy_vars false false false false false) 0 ["a.bin"] in
  fst (save_sharded_weights unit (list string) perform_missing id toy_join "models/m"
         "cache/index.json" s)
  = Raise (LibraryError "hf_hub_download").
Proof. vm_compute. reflexivity. Qed.

Lemma cache_removed_only_after_success_witness :
  let s := toy_state (toy_vars false false false false false) 0
             ["config.json"; "pytorch_model.bin"] in
  fst (toy_save true s) = Raise (LibraryError "hf_hub_download")
  /\ ~ In (shutil_rmtree unit "cache/")
         (GenericNotions.added unit (list string) s (snd (toy_save true s))).
Proof.
  intros s. split; [vm_compute; reflexivity |].
  intros Hin.
  apply (cache_removed_only_after_success toy_perform id toy_join "models/m"
           "cache/index.json" s) in Hin.
  destruct Hin as (s1 & s2 & Htok & Hstep).
  vm_compute in Htok. injection Htok as <-.
  vm_compute in Hstep. discriminate Hstep.
Defined.


Lemma move_from_cache_steps_witness :
  let s := toy_state (toy_vars false false false false false) 0 ["config.json"] in
  calls _ _ (snd (move_from_cache unit (list string) toy_perform id toy_join "models/m"
                    "config.json" s))
  = [hf_hub_download unit "org/model" "config.json" "main";
     shutil_move unit "cache/config.json" "models/m/config.json"]
  /\ calls _ _ (snd (move_from_cache unit (list string) toy_perform id toy_join "models/m"
                       "weights.bin" s))
     = [hf_hub_download unit "org/model" "weights.bin" "main"].
Proof.
  intros s. split.
  - exact (proj2 (move_from_cache_steps toy_perform id toy_join "models/m" "config.json" s)
             "cache/config.json" eq_refl).
  - exact (proj2 (proj1 (move_from_cache_steps toy_perform id toy_join "models/m"
                           "weights.bin" s)
                    (LibraryError "hf_hub_download") eq_refl)).
Defined.

End GenericPartsFacts.

(** * Further properties of the bad-words derivation *)

Module BadwordsMoreFacts.
Import Badwords.

(** X17.  The derivation happens once: after it has run for a model type
    that is not excluded, running it again, for any model type, mode and
    vocabulary, leaves the list of the first run (the list is no longer
    the default object). *)
Theorem derive_only_once (model_type newlinemode model_type' newlinemode' : string)
        (vocab vocab' : list (string * Z)) :
  excluded_model_type model_type = false ->
  derive (derive badwordsids_default model_type newlinemode vocab)
    model_type' newlinemode' vocab'
  = badwords_list (comprehension newlinemode vocab).
Proof.
  intros Hmt. unfold derive at 2. rewrite Hmt. reflexivity.
Qed.

Lemma derive_only_once_witness :
  excluded_model_type "llama" = false
  /\ derive (derive badwordsids_default "llama" "n" example_vocab) "opt" "s"
       [("<s>", 7); ("[x]", 8)]
     = badwords_list [[0]; [2]].
Proof.
  split; [reflexivity |].
  exact (derive_only_once "llama" "n" "opt" "s" example_vocab [("<s>", 7); ("[x]", 8)]
           eq_refl).
Defined.

End BadwordsMoreFacts.

(** * Properties of the rest of [hf_mtj.py] *)

Module HFMTJSessionFacts.
Import Numpy HFMTJ HFMTJSession.

Section Session.

Context {pyfloat Sharded Config : Type}.
Variable fzero : pyfloat.
Variable shard_xmap : ndarray pyfloat -> res Sharded.
Variable isdir : string -> bool.
Variable init_model_config : res (Config * string).
Variable load_model :
  string -> bool -> bool -> Config -> res (gmap string Z * list (string * Z)).
Variable infer_static : infer_static_args pyfloat Sharded -> res (ndarray Z).

Local Abbreviation session := (HFMTJSession.session pyfloat Sharded Config).
Local Abbreviation setup_mtj := (HFMTJSession.setup_mtj pyfloat Sharded Config isdir).
Local Abbreviation _load :=
  (HFMTJSession._load pyfloat Sharded Config isdir init_model_config load_model).
Local Abbreviation _raw_generate :=
  (HFMTJSession._raw_generate pyfloat fzero Sharded shard_xmap Config infer_static).
Local Abbreviation soft_tokens_in_session :=
  (in_hooks_state pyfloat Sharded Config
     (get_soft_tokens pyfloat fzero Sharded shard_xmap)).
Local Abbreviation bad_path x :=
  (is_mesh_model (model _ _ _ x)
   && (String.eqb (custmodpth _ _ _ x) "" || negb (isdir (custmodpth _ _ _ x)))).
Local Abbreviation badwords_of x :=
  (badwordsids _ _ (vars _ _ (hooks_state _ _ _ x))).


Lemma setup_mtj_ok (x x1 : session) :
  setup_mtj x = (Ok tt, x1) ->
  bad_path x = false
  /\ x1 = set_hooks_installed _ _ _ true
            (if String.eqb (model _ _ _ x) GPTNeoX
             then set_pad_token_id _ _ _ 2
                    (on_hooks_state _ _ _
                       (with_vars _ _ (set_badwordsids _ _ badwordsids_neox)) x)
             else x).
Proof.
  unfold HFMTJSession.setup_mtj, bind, gets, when, modify, raise, ret.
  set (bad := bad_path x).
  destruct (String.eqb (model _ _ _ x) GPTNeoX);
    cbv beta iota; cbn [model custmodpth on_hooks_state]; fold bad;
    destruct bad; cbv beta iota; intros H; try discriminate H;
    injection H as <-; split; reflexivity.
Qed.

(** What a normal return of [_load] tells. *)
Lemma load_returned (save_model initial_load : bool) (x x' : session) :
  _load save_model initial_load x = (Ok tt, x') ->
  let hf_checkpoint := negb (is_mesh_model (model _ _ _ x)) && use_colab_tpu _ _ _ x in
  bad_path x = false
  /\ exists cfg model_type' prm vocab d_model,
       init_model_config = Ok (cfg, model_type')
       /\ load_model (model _ _ _ x) hf_checkpoint initial_load cfg = Ok (prm, vocab)
       /\ prm !! "d_model" = Some d_model
       /\ engine_calls _ _ _ x'
          = engine_calls _ _ _ x
            ++ [load_model_call _ _ _ (model _ _ _ x) hf_checkpoint initial_load cfg]
       /\ params _ _ (hooks_state _ _ _ x') = prm
       /\ modeldim _ _ _ x' = dict_get prm "d_embed" d_model
       /\ allowsp _ _ _ x' = true
       /\ hooks_installed _ _ _ x' = true
       /\ self_tokenizer _ (self _ _ _ x') = Some vocab
       /\ badwords_of x'
          = Badwords.derive
              (if String.eqb (model _ _ _ x) GPTNeoX then badwordsids_neox
               else badwords_of x)
              model_type' (newlinemode _ _ (vars _ _ (hooks_state _ _ _ x))) vocab
       /\ pad_token_id _ _ _ x'
          = (if String.eqb (model _ _ _ x) GPTNeoX then 2 else pad_token_id _ _ _ x).
Proof.
  unfold HFMTJSession._load. unfold bind at 1.
  destruct (setup_mtj x) as [[[] | e] x1] eqn:Hsetup; [| discriminate].
  apply setup_mtj_ok in Hsetup. destruct Hsetup as [Hbad ->].
  unfold bind, lift, gets, modify, ret.
  destruct init_model_config as [[cfg model_type'] | e]; [| discriminate].
  cbv beta iota. cbn [fst snd].
  destruct (String.eqb (model _ _ _ x) GPTNeoX) eqn:Hneo;
    cbn [model use_colab_tpu set_hooks_installed set_pad_token_id on_hooks_state
         set_self set_allowsp log_engine_call];
    (destruct (load_model _ _ _ _) as [[prm vocab] | e] eqn:Hload; [| discriminate]);
    cbv beta iota; cbn [fst snd];
    unfold getitem;
    (destruct (prm !! "d_model") as [d_model |] eqn:Hdm; [| discriminate]);
    cbv beta iota; unfold in_hooks_state, load_badwords, modify;
    intros H; injection H as <-;
    (split; [exact Hbad |]);
    exists cfg, model_type', prm, vocab, d_model;
    repeat split; try assumption; reflexivity.
Qed.

(** X19.  For the GPT-NeoX engine, after a [_load] that returned the
    bad-words list is the NeoX list, whatever the tokenizer's vocabulary
    and the model type are, and the pad token is 2: the derivation from
    the vocabulary never applies to this engine. *)
Theorem load_neox_keeps_neox_list (save_model initial_load : bool) (x x' : session) :
  model _ _ _ x = GPTNeoX ->
  _load save_model initial_load x = (Ok tt, x') ->
  badwords_of x' = badwordsids_neox /\ pad_token_id _ _ _ x' = 2.
Proof.
  intros Hneo Hrun. apply load_returned in Hrun. cbn zeta in Hrun.
  destruct Hrun as (_ & cfg & mt & prm & vocab & d_model & _ & _ & _ & _ & _ & _ & _ & _
                    & _ & Hbw & Hpad).
  rewrite Hneo in Hbw, Hpad. rewrite String.eqb_refl in Hbw, Hpad.
  split; [| exact Hpad].
  rewrite Hbw. apply BadwordsFacts.derive_untouched. left. reflexivity.
Qed.

(** X20.  [_load] returns only if the path check passed and the
    configuration was read.  Then the engine was loaded exactly once, as a
    Hugging Face checkpoint exactly when the model is neither of the two
    mesh-transformer names and a Colab TPU is in use; [modeldim] is the
    embedding width of the engine's parameters (["d_embed"], else
    ["d_model"]), the width [get_soft_tokens] gives its placeholder; soft
    prompts are allowed and the hooks are installed. *)
Theorem load_success_summary (save_model initial_load : bool) (x x' : session) :
  _load save_model initial_load x = (Ok tt, x') ->
  bad_path x = false
  /\ (exists cfg,
        engine_calls _ _ _ x'
        = engine_calls _ _ _ x
          ++ [load_model_call _ _ _ (model _ _ _ x)
                (negb (is_mesh_model (model _ _ _ x)) && use_colab_tpu _ _ _ x)
                initial_load cfg])
  /\ embedding_width (params _ _ (hooks_state _ _ _ x')) = Ok (modeldim _ _ _ x')
  /\ allowsp _ _ _ x' = true
  /\ hooks_installed _ _ _ x' = true.
Proof.
  intros Hrun. apply load_returned in Hrun. cbn zeta in Hrun.
  destruct Hrun as (Hbad & cfg & mt & prm & vocab & d_model & _ & _ & Hdm & Hcalls & Hprm
                    & Hdim & Hsp & Hhooks & _).
  split; [exact Hbad |]. split; [exists cfg; exact Hcalls |].
  split; [| split; [exact Hsp | exact Hhooks]].
  rewrite Hprm, Hdim. unfold embedding_width, getitem. rewrite Hdm. reflexivity.
Qed.

(** X21.  The engine is loaded only after the path check and the
    configuration went through: if [setup_mtj] fails or the configuration
    cannot be read, [_load] fails and no engine call is made. *)
Theorem load_fails_before_engine (save_model initial_load : bool) (x : session) :
  bad_path x = true \/ (exists e, init_model_config = Raise e) ->
  (exists e, fst (_load save_model initial_load x) = Raise e)
  /\ engine_calls _ _ _ (snd (_load save_model initial_load x)) = engine_calls _ _ _ x.
Proof.
  intros Hcase.
  assert (exists e x1, _load save_model initial_load x = (Raise e, x1)
                       /\ engine_calls _ _ _ x1 = engine_calls _ _ _ x)
    as (e & x1 & -> & Hcalls); [| split; [exists e; reflexivity | exact Hcalls]].
  unfold HFMTJSession._load. unfold bind at 1.
  destruct (setup_mtj x) as [[[] | e] x1] eqn:Hsetup.
  - destruct (setup_mtj_ok _ _ Hsetup) as [Hbad ->].
    destruct Hcase as [Hcase | [e He]]; [congruence |].
    unfold bind, lift. rewrite He. cbv beta iota.
    eexists. eexists. split; [reflexivity |].
    destruct (String.eqb (model _ _ _ x) GPTNeoX); reflexivity.
  - exists e, x1. split; [reflexivity |].
    revert Hsetup.
    unfold HFMTJSession.setup_mtj, bind, gets, when, modify, raise, ret.
    set (bad := bad_path x).
    destruct (String.eqb (model _ _ _ x) GPTNeoX);
      cbv beta iota; cbn [model custmodpth on_hooks_state]; fold bad;
      destruct bad; cbv beta iota; intros H; try discriminate H;
      injection H as _ <-; reflexivity.
Qed.

(** [_raw_generate], step by step. *)
Lemma raw_generate_steps (prompt_tokens : list Z) (max_new : Z)
      (gen_settings : sampler_vars pyfloat) (single_line : bool) (batch_count : Z)
      (x : session) :
  _raw_generate prompt_tokens max_new gen_settings single_line batch_count x
  = match get_soft_tokens pyfloat fzero Sharded shard_xmap (hooks_state _ _ _ x) with
    | (Raise e, s1) => (Raise e, on_hooks_state _ _ _ (fun _ => s1) x)
    | (Ok ids, s1) =>
        let args :=
          mk_infer_args _ _ (np_uint32 prompt_tokens) max_new
            (temp _ gen_settings) (top_p _ gen_settings) (top_k _ gen_settings)
            (tfs _ gen_settings) (typical _ gen_settings) (top_a _ gen_settings)
            batch_count
            (rep_pen _ gen_settings) (rep_pen_slope _ gen_settings)
            (rep_pen_range _ gen_settings)
            (sp _ _ (vars _ _ s1)) ids (sampler_order _ gen_settings) in
        (match infer_static args with
         | Ok genout => Raise (NameError "GenerationResult")
         | Raise e => Raise e
         end,
         log_engine_call _ _ _ (infer_static_call _ _ _ args)
           (on_hooks_state _ _ _ (fun _ => s1) x))
    end.
Proof.
  unfold HFMTJSession._raw_generate, in_hooks_state, bind, gets, modify, lift, ret, raise.
  destruct (get_soft_tokens pyfloat fzero Sharded shard_xmap (hooks_state _ _ _ x))
    as [[ids | e] s1]; [| reflexivity].
  cbn [hooks_state on_hooks_state log_engine_call].
  destruct (infer_static _); reflexivity.
Qed.

(** X22.  [_raw_generate] calls the engine only once the soft-token ids
    are there: if [get_soft_tokens] raises, so does [_raw_generate], and no
    engine call is made.  Otherwise there is exactly one call; it always
    carries a soft prompt, the ids [get_soft_tokens] returned, the prompt
    as 32-bit ids, [max_new] as length, [batch_count] as number of
    sequences and the sampler order of the settings passed in.  An
    exception of the engine is passed on.  When the engine returns,
    [_raw_generate] raises [NameError] on [GenerationResult], a name that
    [hf_mtj.py] does not import: no call of [_raw_generate] returns a
    result. *)
Theorem raw_generate_engine_call (prompt_tokens : list Z) (max_new : Z)
        (gen_settings : sampler_vars pyfloat) (single_line : bool) (batch_count : Z)
        (x : session) :
  let out := _raw_generate prompt_tokens max_new gen_settings single_line batch_count x in
  (forall e, fst (soft_tokens_in_session x) = Raise e ->
     fst out = Raise e /\ engine_calls _ _ _ (snd out) = engine_calls _ _ _ x)
  /\ (forall result, fst out <> Ok result)
  /\ (forall ids, fst (soft_tokens_in_session x) = Ok ids ->
        exists args,
          engine_calls _ _ _ (snd out) = engine_calls _ _ _ x ++ [infer_static_call _ _ _ args]
          /\ is_Some (kw_soft_embeddings _ _ args)
          /\ kw_soft_tokens _ _ args = ids
          /\ kw_prompt _ _ args = np_uint32 prompt_tokens
          /\ kw_gen_len _ _ args = max_new
          /\ kw_numseqs _ _ args = batch_count
          /\ kw_sampler_order _ _ args = sampler_order _ gen_settings
          /\ fst out = match infer_static args with
                       | Ok genout => Raise (NameError "GenerationResult")
                       | Raise e => Raise e
                       end).
Proof.
  cbn zeta. rewrite raw_generate_steps. unfold in_hooks_state.
  destruct (get_soft_tokens pyfloat fzero Sharded shard_xmap (hooks_state _ _ _ x))
    as [[ids0 | e0] s1] eqn:Hrun; cbn [fst snd]; (split; [| split]).
  - intros e He. discriminate He.
  - intros result. destruct (infer_static _); discriminate.
  - intros ids Hids. injection Hids as ->.
    pose proof (HFMTJFacts.get_soft_tokens_state fzero shard_xmap (hooks_state _ _ _ x))
      as Hstate.
    rewrite Hrun in Hstate. cbn [snd] in Hstate.
    assert (exists sharded, sp _ _ (vars _ _ s1) = Some sharded) as [sharded Hsp].
    { destruct (HFMTJ.ensure_soft_prompt pyfloat fzero Sharded shard_xmap
                  (hooks_state _ _ _ x)) as [[[] | e] s2] eqn:Hens.
      - cbn [snd] in Hstate. subst s2.
        apply (HFMTJHooksFacts.ensure_soft_prompt_installs fzero shard_xmap _ _ Hens).
      - revert Hrun.
        unfold HFMTJ.get_soft_tokens, bind. rewrite Hens. discriminate. }
    eexists. split; [reflexivity |].
    cbn [kw_soft_embeddings kw_soft_tokens kw_prompt kw_gen_len kw_numseqs kw_sampler_order].
    split; [exists sharded; exact Hsp |]. repeat split.
  - intros e He. injection He as ->. split; reflexivity.
  - intros result. discriminate.
  - intros ids Hids. discriminate Hids.
Qed.

End Session.

(** *** The model run in the toy session *)

Import ToyEngine ToySession.

Local Abbreviation toy_setup := (setup_mtj Z (ndarray Z) unit toy_isdir).
Local Abbreviation toy_load :=
  (_load Z (ndarray Z) unit toy_isdir toy_init_model_config toy_load_model).
Local Abbreviation toy_raw_generate :=
  (_raw_generate Z 0 (ndarray Z) toy_shard_xmap unit toy_infer_static).
Local Abbreviation neox_session := (toy_session GPTNeoX "models/neox").
Local Abbreviation lost_session := (toy_session GPTNeoX "models/gone").


Lemma load_neox_keeps_neox_list_witness :
  model _ _ _ neox_session = GPTNeoX
  /\ toy_load false true neox_session = (Ok tt, snd (toy_load false true neox_session))
  /\ badwordsids _ _
       (vars _ _ (hooks_state _ _ _ (snd (toy_load false true neox_session))))
     = badwordsids_neox.
Proof.
  assert (toy_load false true neox_session
          = (Ok tt, snd (toy_load false true neox_session))) as Hrun
    by (vm_compute; reflexivity).
  split; [reflexivity |]. split; [exact Hrun |].
  exact (proj1 (load_neox_keeps_neox_list toy_isdir toy_init_model_config toy_load_model
                  false true neox_session _ eq_refl Hrun)).
Defined.

Lemma load_success_summary_witness :
  let x := toy_session "org/model" "" in
  let x' := snd (toy_load false true x) in
  toy_load false true x = (Ok tt, x')
  /\ (exists cfg, engine_calls _ _ _ x' = [load_model_call _ _ _ "org/model" true true cfg])
  /\ embedding_width (params _ _ (hooks_state _ _ _ x')) = Ok (modeldim _ _ _ x')
  /\ allowsp _ _ _ x' = true.
Proof.
  intros x x'.
  assert (toy_load false true x = (Ok tt, x')) as Hrun by (vm_compute; reflexivity).
  split; [exact Hrun |].
  destruct (load_success_summary toy_isdir toy_init_model_config toy_load_model
              false true x x' Hrun) as (_ & Hcalls & Hwidth & Hsp & _).
  split; [exact Hcalls |]. split; [exact Hwidth | exact Hsp].
Defined.

Lemma load_fails_before_engine_witness :
  is_mesh_model (model _ _ _ lost_session) = true
  /\ toy_isdir (custmodpth _ _ _ lost_session) = false
  /\ (exists e, fst (toy_load false true lost_session) = Raise e)
  /\ engine_calls _ _ _ (snd (toy_load false true lost_session)) = [].
Proof.
  split; [reflexivity |]. split; [reflexivity |].
  exact (load_fails_before_engine toy_isdir toy_init_model_config toy_load_model
           false true lost_session (or_introl eq_refl)).
Defined.

Lemma raw_generate_engine_call_witness :
  let x := toy_session "org/model" "" in
  let out := toy_raw_generate [5; 6; 7] 16 (toy_sampling [6; 0; 1]) false 1 x in
  exists args,
    engine_calls _ _ _ (snd out) = [infer_static_call _ _ _ args]
    /\ is_Some (kw_soft_embeddings _ _ args)
    /\ kw_soft_tokens _ _ args = mk_ndarray uint32 [4] [50400; 50401; 50402; 50403]
    /\ kw_sampler_order _ _ args = [6; 0; 1]
    /\ fst out = match toy_infer_static args with
                 | Ok genout => Raise (NameError "GenerationResult")
                 | Raise e => Raise e
                 end.
Proof.
  intros x out.
  pose proof (raw_generate_engine_call 0 toy_shard_xmap toy_infer_static
                [5; 6; 7] 16 (toy_sampling [6; 0; 1]) false 1 x) as H.
  cbn zeta in H. destruct H as (_ & _ & H).
  destruct (H (mk_ndarray uint32 [4] [50400; 50401; 50402; 50403]) eq_refl)
    as (args & Hcalls & Hsp & Hids & _ & _ & _ & Horder & Hout).
  exists args. split; [exact Hcalls |]. split; [exact Hsp |].
  split; [exact Hids |]. split; [exact Horder | exact Hout].
Defined.

(** The toy engine returns, and [_raw_generate] raises. *)
Example raw_generate_toy_raises :
  fst (toy_raw_generate [5; 6; 7] 16 (toy_sampling [6; 0; 1]) false 1
         (toy_session "org/model" ""))
  = Raise (NameError "GenerationResult").
Proof. vm_compute. reflexivity. Qed.

End HFMTJSessionFacts.

(** * Properties of [_load] of [generic_hf_torch.py] as a whole *)

Module OutcomeFacts.
Import Outcome.

Section Post.

Context {S : Type}.

Lemma post_ret {A} (a : A) (s : S) (Q : res A -> S -> Prop) :
  Q (Ok a) s -> post (ret a) s Q.
Proof. exact (fun H => H). Qed.

Lemma post_raise {A} (e : exn) (s : S) (Q : res A -> S -> Prop) :
  Q (Raise e) s -> post (raise e) s Q.
Proof. exact (fun H => H). Qed.

Lemma post_gets {A} (f : S -> A) (s : S) (Q : res A -> S -> Prop) :
  Q (Ok (f s)) s -> post (gets f) s Q.
Proof. exact (fun H => H). Qed.

Lemma post_modify (f : S -> S) (s : S) (Q : res unit -> S -> Prop) :
  Q (Ok tt) (f s) -> post (modify f) s Q.
Proof. exact (fun H => H). Qed.

Lemma post_lift {A} (r : res A) (s : S) (Q : res A -> S -> Prop) :
  Q r s -> post (lift r) s Q.
Proof. exact (fun H => H). Qed.

Lemma post_bind {A B} (c : M S A) (k : A -> M S B) (s : S) (Q : res B -> S -> Prop) :
  post c s (fun r s1 => match r with
                        | Ok a => post (k a) s1 Q
                        | Raise e => Q (Raise e) s1
                        end) ->
  post (bind c k) s Q.
Proof.
  unfold post, bind. destruct (c s) as [[a | e] s1]; cbn [fst snd]; auto.
Qed.

(** Over a statement that keeps [J]. *)
Lemma post_seq {A B} (J : S -> Prop) (c : M S A) (k : A -> M S B) (s : S)
      (Q : res B -> S -> Prop) :
  post c s (fun _ s1 => J s1) ->
  (forall a s1, J s1 -> post (k a) s1 Q) ->
  (forall e s1, J s1 -> Q (Raise e) s1) ->
  post (bind c k) s Q.
Proof.
  intros Hc Hk He. apply post_bind. unfold post in *.
  destruct (c s) as [[a | e] s1]; cbn [fst snd] in *; auto.
Qed.

Lemma post_when (b : bool) (c : M S unit) (s : S) (Q : res unit -> S -> Prop) :
  (b = true -> post c s Q) -> (b = false -> Q (Ok tt) s) -> post (when b c) s Q.
Proof. destruct b; cbn; intros H1 H2; [apply H1 | apply H2]; reflexivity. Qed.

Lemma post_try {A} (J : S -> Prop) (c : M S A) (h : exn -> M S A) (s : S)
      (Q : res A -> S -> Prop) :
  post c s (fun r s1 => match r with Ok a => Q (Ok a) s1 | Raise _ => J s1 end) ->
  (forall e s1, J s1 -> post (h e) s1 Q) ->
  post (try_except c h) s Q.
Proof.
  unfold post, try_except. intros Hc Hh.
  destruct (c s) as [[a | e] s1]; cbn [fst snd] in *; [exact Hc | exact (Hh e s1 Hc)].
Qed.

Lemma post_try_same {A} (J : S -> Prop) (c : M S A) (h : exn -> M S A) (s : S) :
  post c s (fun _ s1 => J s1) ->
  (forall e s1, J s1 -> post (h e) s1 (fun _ s2 => J s2)) ->
  post (try_except c h) s (fun _ s' => J s').
Proof.
  intros Hc Hh. apply (post_try J); [| exact Hh].
  unfold post in *. destruct (c s) as [[a | e] s1]; exact Hc.
Qed.

Lemma post_for_each {A} (J : S -> Prop) (xs : list A) (body : A -> M S unit) (s : S) :
  J s ->
  (forall x s1, J s1 -> post (body x) s1 (fun _ s2 => J s2)) ->
  post (for_each xs body) s (fun _ s' => J s').
Proof.
  intros Hs Hbody. revert s Hs. induction xs as [| x xs IH]; intros s Hs.
  - exact Hs.
  - cbn [for_each]. apply (post_seq J); auto.
Qed.

Lemma post_conseq {A} (c : M S A) (s : S) (Q Q' : res A -> S -> Prop) :
  (forall r s', Q r s' -> Q' r s') -> post c s Q -> post c s Q'.
Proof. unfold post. auto. Qed.

End Post.

End OutcomeFacts.

Module GenericLoadFacts.
Import Outcome OutcomeFacts GenericHFTorch GenericLoad GenericLoadNotions.

Section Whole.

Context {Config World Payload Tensor Obj : Type}.
Variable obj_truthy : Obj -> bool.
Variable perform : call Config -> World -> res answer * World.
Variable realpath : string -> string.
Variable path_join : string -> string -> string.
Variable from_pretrained_index_filename : string.
Variable old_rebuild_tensor : storage Payload -> Z -> list Z -> list Z -> res Tensor.
Variable basename : string -> string.
Variable normpath : string -> string.
Variable local_model_path : string.
Variable legacy_model_path : string.
Variable answer_of : load_call Config Obj -> World -> res (value Config Obj) * World.
Variable rebuilds_during : load_call Config Obj -> World -> list (rebuild_args Payload).

Local Abbreviation state := (load_state Config World).
Local Abbreviation loader := (GenericLoad.loader Config World Obj).
Local Abbreviation extern := (GenericHFTorch.extern Config World perform).
Local Abbreviation extern_ := (GenericHFTorch.extern_ Config World perform).
Local Abbreviation save_downloaded_model :=
  (GenericHFTorch.save_downloaded_model Config World perform realpath path_join
     local_model_path from_pretrained_index_filename).
Local Abbreviation place_model := (GenericHFTorch.place_model Config World perform).
Local Abbreviation rebuild_seen :=
  (GenericLoad.rebuild_seen Config World Payload Tensor old_rebuild_tensor).
Local Abbreviation ask := (GenericLoad.ask answer_of).
Local Abbreviation ask_probed :=
  (GenericLoad.ask_probed Config World Payload Tensor Obj old_rebuild_tensor answer_of
     rebuilds_during).
Local Abbreviation with_ := (GenericLoad.with_ Config World Obj obj_truthy answer_of).
Local Abbreviation resolve_model :=
  (GenericLoad.resolve_model Config World Obj obj_truthy perform basename normpath
     local_model_path legacy_model_path answer_of).
Local Abbreviation choose_tf_kwargs := (GenericLoad.choose_tf_kwargs Config World Obj perform).
Local Abbreviation discover_layers :=
  (GenericLoad.discover_layers Config World Obj obj_truthy answer_of).
Local Abbreviation ask_loading :=
  (GenericLoad.ask_loading Config World Payload Tensor Obj old_rebuild_tensor answer_of
     rebuilds_during).
Local Abbreviation download :=
  (GenericLoad.download Config World Payload Tensor Obj perform realpath path_join
     from_pretrained_index_filename old_rebuild_tensor local_model_path answer_of
     rebuilds_during).
Local Abbreviation fetch_body :=
  (GenericLoad.fetch_body Config World Payload Tensor Obj obj_truthy perform realpath
     path_join from_pretrained_index_filename old_rebuild_tensor local_model_path answer_of
     rebuilds_during).
Local Abbreviation fetch :=
  (GenericLoad.fetch Config World Payload Tensor Obj obj_truthy perform realpath path_join
     from_pretrained_index_filename old_rebuild_tensor local_model_path answer_of
     rebuilds_during).
Local Abbreviation assign_badwords := (GenericLoad.assign_badwords Config World Obj).
Local Abbreviation _load :=
  (GenericLoad._load Config World Payload Tensor Obj obj_truthy perform realpath path_join
     from_pretrained_index_filename old_rebuild_tensor basename normpath local_model_path
     legacy_model_path answer_of rebuilds_during).

(** *** Steps of the parts *)

Lemma part_quiet_refl (P : call Config -> Prop) (s : state) : part_quiet P s s.
Proof.
  split; [reflexivity |]. split; [auto |].
  exists []. rewrite app_nil_r. split; [reflexivity | constructor].
Qed.

Lemma part_quiet_step (P : call Config -> Prop) (s0 s s' : state) :
  part_quiet P s0 s ->
  part_view_of s' = part_view_of s ->
  (local_model _ _ s = None -> local_model _ _ s' = None) ->
  (exists l, calls _ _ s' = calls _ _ s ++ l /\ Forall P l) ->
  part_quiet P s0 s'.
Proof.
  intros (Hv & Hl & l1 & Hc & HP) Hv' Hl' (l2 & Hc' & HP').
  split; [congruence |]. split; [auto |].
  exists (l1 ++ l2). rewrite Hc', Hc, <- app_assoc.
  split; [reflexivity | apply Forall_app; auto].
Qed.

Lemma post_extern (c : call Config) (s : state) (Q : res answer -> state -> Prop) :
  (forall r w, Q r (set_world _ _ w (log_call _ _ c s))) -> post (extern c) s Q.
Proof.
  intros H. unfold post, GenericHFTorch.extern. cbn zeta.
  destruct (perform c _) as [r w]. apply H.
Qed.

Lemma extern_quiet (P : call Config -> Prop) (c : call Config) (s0 s : state) :
  P c -> part_quiet P s0 s -> post (extern c) s (fun _ s' => part_quiet P s0 s').
Proof.
  intros Hc Hs. apply post_extern. intros r w.
  apply (part_quiet_step P s0 s); [exact Hs | reflexivity | auto |].
  exists [c]. split; [reflexivity | repeat constructor; exact Hc].
Qed.

Lemma extern__quiet (P : call Config -> Prop) (c : call Config) (s0 s : state) :
  P c -> part_quiet P s0 s -> post (extern_ c) s (fun _ s' => part_quiet P s0 s').
Proof.
  intros Hc Hs. unfold GenericHFTorch.extern_.
  apply (post_seq (part_quiet P s0)); [apply extern_quiet; assumption | |]; auto.
Qed.


Ltac head_of t :=
  lazymatch t with
  | ?f _ => head_of f
  | _ => t
  end.

(** Walk through a part, keeping [part_quiet P s0]. *)
Ltac part_leaf :=
  eapply part_quiet_step;
  [ eassumption
  | reflexivity
  | exact (fun H => H)
  | exists []; split; [symmetry; apply app_nil_r | constructor] ].

Ltac part_walk J :=
  lazymatch goal with
  | |- post (bind (gets _) _) _ _ =>
      apply post_bind, post_gets; cbv beta iota; part_walk J
  | |- post (bind _ _) _ _ =>
      apply (post_seq J);
      [ part_walk J | intros ? ? ?; part_walk J | intros ? ? ?; assumption ]
  | |- post (ret _) _ _ => apply post_ret; assumption
  | |- post (raise _) _ _ => apply post_raise; assumption
  | |- post (gets _) _ _ => apply post_gets; assumption
  | |- post (lift _) _ _ => apply post_lift; assumption
  | |- post (modify _) _ _ => apply post_modify; part_leaf
  | |- post (GenericHFTorch.extern _ _ _ _) _ _ =>
      apply extern_quiet; [reflexivity | assumption]
  | |- post (GenericHFTorch.extern_ _ _ _ _) _ _ =>
      apply extern__quiet; [reflexivity | assumption]
  | |- post (when _ _) _ _ =>
      apply post_when; [intros ?; part_walk J | intros ?; assumption]
  | |- post (for_each _ _) _ _ =>
      apply (post_for_each J); [assumption | intros ? ? ?; part_walk J]
  | |- post (try_except _ _) _ _ =>
      apply (post_try_same J); [part_walk J | intros ? ? ?; part_walk J]
  | |- post (if ?b then _ else _) _ _ => destruct b; part_walk J
  | |- post (match ?a with _ => _ end) _ _ => destruct a; part_walk J
  | |- post ?c _ _ => let h := head_of c in unfold h; part_walk J
  end.

Local Abbreviation saves := (fun c : call Config => is_save c = true).
Local Abbreviation places := (fun c : call Config => is_placement c = true).

Lemma copy_checkpoint_files_quiet (s0 s : state) :
  part_quiet saves s0 s ->
  post (copy_checkpoint_files Config World perform realpath path_join local_model_path
          from_pretrained_index_filename) s
    (fun _ s' => part_quiet saves s0 s').
Proof. intros Hs. part_walk (part_quiet saves s0). Qed.

Lemma convert_and_save_quiet (s0 s : state) :
  part_quiet saves s0 s ->
  post (convert_and_save Config World perform local_model_path) s
    (fun _ s' => part_quiet saves s0 s').
Proof.
  intros Hs. unfold convert_and_save, read_local_model.
  apply post_bind, post_bind, post_gets. cbv beta iota.
  destruct (local_model _ _ s) as [m |] eqn:Hm; [| exact Hs].
  apply post_ret. cbv beta iota.
  apply post_bind, post_modify. cbv beta iota.
  apply post_bind, post_bind, post_gets. cbv beta iota. cbn [local_model set_local_model].
  apply post_ret. cbv beta iota.
  apply extern__quiet; [reflexivity |].
  apply (part_quiet_step saves s0 s); [exact Hs | reflexivity | congruence |].
  exists []. split; [symmetry; apply app_nil_r | constructor].
Qed.

Lemma save_downloaded_model_keeps (save_model : bool) (s0 s : state) :
  part_quiet saves s0 s ->
  post (save_downloaded_model save_model) s (fun _ s' => part_quiet saves s0 s').
Proof.
  intros Hs. unfold GenericHFTorch.save_downloaded_model.
  apply post_when; [intros _ | intros _; exact Hs].
  apply (post_seq (part_quiet saves s0)); [apply extern__quiet; [reflexivity | exact Hs] | |
                                          intros; assumption].
  intros _ s2 Hs2. apply post_bind, post_gets. cbv beta iota.
  apply post_bind, post_gets. cbv beta iota.
  apply (post_seq (part_quiet saves s0)); [| | intros; assumption].
  - destruct (_ && _); [apply convert_and_save_quiet | apply copy_checkpoint_files_quiet];
      exact Hs2.
  - intros _ s3 Hs3. apply extern__quiet; [reflexivity | exact Hs3].
Qed.

Lemma save_downloaded_model_quiet (save_model : bool) (s : state) :
  part_quiet saves s (snd (save_downloaded_model save_model s)).
Proof. apply (save_downloaded_model_keeps save_model s s), part_quiet_refl. Qed.

Lemma place_model_quiet (s : state) : part_quiet places s (snd (place_model s)).
Proof.
  change (post place_model s (fun _ s' => part_quiet places s s')).
  pose proof (part_quiet_refl places s) as Hs.
  part_walk (part_quiet places s).
Qed.

Lemma load_badwords_quiet (P : call Config -> Prop) (vocab : list (string * Z)) (s : state) :
  part_quiet P s (snd (load_badwords Config World vocab s)).
Proof.
  apply (part_quiet_step P s s); [apply part_quiet_refl | reflexivity | auto |].
  exists []. split; [symmetry; apply app_nil_r | constructor].
Qed.

Lemma extern__quiet_from (c : call Config) (s : state) :
  part_quiet (eq c) s (snd (extern_ c s)).
Proof.
  apply (extern__quiet (eq c) c s s); [reflexivity | apply part_quiet_refl].
Qed.

(** What the probe leaves after the library has rebuilt its tensors. *)
Lemma rebuild_seen_effect (r : rebuild_args Payload) (s : state) :
  rebuild_seen r s
  = (Ok tt, if probe_hit r then with_vars _ _ (set_fp32_model true) s else s).
Proof.
  unfold GenericLoad.rebuild_seen, try_except, bind, new_rebuild_tensor, when, modify, lift,
    ret, probe_hit.
  destruct (dtype_is _ _ && _); cbn; destruct (old_rebuild_tensor _ _ _ _); reflexivity.
Qed.

Lemma rebuilds_effect (reqs : list (rebuild_args Payload)) (s : state) :
  for_each reqs rebuild_seen s
  = (Ok tt, if existsb probe_hit reqs then with_vars _ _ (set_fp32_model true) s else s).
Proof.
  revert s. induction reqs as [| r reqs IH]; intros s; [reflexivity |].
  cbn [for_each existsb]. unfold bind. rewrite rebuild_seen_effect, IH.
  destruct (probe_hit r), (existsb probe_hit reqs); reflexivity.
Qed.


(** *** Steps of the whole function *)

Section Calm.

Context {V : Type}.
Variable pick : view Config Obj -> V.
Variable P : load_call Config Obj -> Prop.

Lemma calm_refl (x : loader) : calm pick P x x.
Proof.
  split; [reflexivity |]. split; [auto |].
  exists []. split; [symmetry; apply app_nil_r | constructor].
Qed.

Lemma calm_step (x s s' : loader) :
  calm pick P x s ->
  pick (view_of s') = pick (view_of s) ->
  (unbound s -> unbound s') ->
  adds P s s' ->
  calm pick P x s'.
Proof.
  intros (Hv & Hu & l1 & Hc & HP) Hv' Hu' (l2 & Hc' & HP').
  split; [congruence |]. split; [auto |].
  exists (l1 ++ l2). rewrite Hc', Hc, <- app_assoc.
  split; [reflexivity | apply Forall_app; auto].
Qed.

Lemma calm_trans (x s s' : loader) : calm pick P x s -> calm pick P s s' -> calm pick P x s'.
Proof. intros Hs (Hv & Hu & Ha). apply (calm_step x s s'); assumption. Qed.

Lemma post_ask (c : load_call Config Obj) (x : loader)
      (Q : res (value Config Obj) -> loader -> Prop) :
  (forall r w, answer_of c (world _ _ (parts x)) = (r, w) ->
               Q r (log [c] (on_parts (set_world _ _ w) x))) ->
  post (ask c) x Q.
Proof.
  intros H. unfold post, GenericLoad.ask.
  destruct (answer_of c _) as [r w] eqn:Heq. apply H. reflexivity.
Qed.

Lemma post_in_parts {A} (p : M state A) (x : loader) (Q : res A -> loader -> Prop) :
  (forall r s', p (parts x) = (r, s') ->
     Q r (log (map part (drop (length (calls _ _ (parts x))) (calls _ _ s')))
            (set_parts s' x))) ->
  post (in_parts p) x Q.
Proof.
  intros H. unfold post, GenericLoad.in_parts.
  destruct (p (parts x)) as [r s'] eqn:Heq. apply H. reflexivity.
Qed.

Lemma ask_calm (c : load_call Config Obj) (x s : loader) :
  P c -> calm pick P x s -> post (ask c) s (fun _ s' => calm pick P x s').
Proof.
  intros Hc Hs. apply post_ask. intros r w _.
  apply (calm_step x s); [exact Hs | reflexivity | exact (fun H => H) |].
  exists [c]. split; [reflexivity | repeat constructor; exact Hc].
Qed.

Lemma in_parts_calm {A} (P0 : call Config -> Prop) (p : M state A) (x s : loader) :
  part_quiet P0 (parts s) (snd (p (parts s))) ->
  (forall c, P0 c -> P (part c)) ->
  calm pick P x s ->
  post (in_parts p) s (fun _ s' => calm pick P x s').
Proof.
  intros (Hv & Hl & l & Hc & HP) HP0 Hs. apply post_in_parts. intros r s' Heq.
  rewrite Heq in *. cbn [snd] in *.
  apply (calm_step x s); [exact Hs | | exact Hl |].
  - unfold view_of.
    cbn [parts set_parts log nobreakmodel self_model_config modeldim kai_model
         probe_installed].
    rewrite Hv. reflexivity.
  - exists (map part l). cbn [trace log set_parts]. rewrite Hc, drop_app_length.
    split; [reflexivity |]. apply Forall_map. eapply Forall_impl; [exact HP | exact HP0].
Qed.

Lemma in_parts_extern__trace (c : call Config) (x : loader) :
  trace (snd (in_parts (extern_ c) x)) = trace x ++ [part c].
Proof.
  unfold GenericLoad.in_parts, GenericHFTorch.extern_, bind, ret, GenericHFTorch.extern.
  cbn zeta. destruct (perform c _) as [[a | e] w]; cbn; rewrite drop_app_length; reflexivity.
Qed.

Lemma with_calm (enter : load_call Config Obj) (leave : bool -> load_call Config Obj)
      (body : M loader unit) (x s : loader) :
  P enter -> (forall b, P (leave b)) ->
  calm pick P x s ->
  (forall s1, calm pick P x s1 -> post body s1 (fun _ s2 => calm pick P x s2)) ->
  post (with_ enter leave body) s (fun _ s' => calm pick P x s').
Proof.
  intros He Hl Hs Hbody. unfold GenericLoad.with_.
  apply (post_seq (calm pick P x)); [apply ask_calm; assumption | | intros; assumption].
  intros _ s1 Hs1. specialize (Hbody s1 Hs1). unfold post in *.
  destruct (body s1) as [[[] | e] s2]; cbn [fst snd] in Hbody.
  - pose proof (ask_calm (leave false) x s2 (Hl false) Hbody) as H.
    unfold post, bind in *. destruct (ask _ s2) as [[a | e] s3]; exact H.
  - pose proof (ask_calm (leave true) x s2 (Hl true) Hbody) as H.
    unfold post, bind in *. destruct (ask _ s2) as [[a | e'] s3]; [| exact H].
    cbn [fst snd] in *. destruct (truthy _ _); exact H.
Qed.

Lemma probe_calm (reqs : list (rebuild_args Payload)) (x s : loader) :
  (forall y : loader, pick (view_of (on_vars (set_fp32_model true) y)) = pick (view_of y)) ->
  calm pick P x s ->
  post (in_parts (for_each reqs rebuild_seen)) s (fun _ s' => calm pick P x s').
Proof.
  intros Hfp32 Hs. apply post_in_parts. intros r s'. rewrite rebuilds_effect.
  intros Heq. injection Heq as _ <-.
  apply (calm_step x s); [exact Hs | | |].
  - destruct (existsb _ _); [exact (Hfp32 s) | reflexivity].
  - destruct (existsb _ _); exact (fun H => H).
  - exists []. split; [| constructor].
    cbn [trace log set_parts].
    destruct (existsb _ _); cbn [calls with_vars]; rewrite drop_all; reflexivity.
Qed.

Lemma ask_probed_calm (c : load_call Config Obj) (x s : loader) :
  (forall y : loader, pick (view_of (on_vars (set_fp32_model true) y)) = pick (view_of y)) ->
  P c -> calm pick P x s -> post (ask_probed c) s (fun _ s' => calm pick P x s').
Proof.
  intros Hfp32 Hc Hs. unfold GenericLoad.ask_probed.
  apply post_bind, post_gets. cbv beta iota.
  apply (post_seq (calm pick P x)); [apply probe_calm; assumption | | intros; assumption].
  intros _ s1 Hs1. apply ask_calm; assumption.
Qed.

(** A load leaves what [pick] takes when [pick] does not look at the
    fp32 flag. *)
Lemma ask_loading_calm (c : load_call Config Obj) (x s : loader) :
  (forall y : loader, pick (view_of (on_vars (set_fp32_model true) y)) = pick (view_of y)) ->
  P c -> calm pick P x s -> post (ask_loading c) s (fun _ s' => calm pick P x s').
Proof.
  intros Hfp32 Hc Hs. unfold GenericLoad.ask_loading.
  apply post_bind, post_gets. cbv beta iota.
  destruct (probe_installed s); [apply ask_probed_calm | apply ask_calm]; assumption.
Qed.

(** A load while the library's own function is installed leaves the
    settings as they are. *)
Lemma ask_loading_unprobed (c : load_call Config Obj) (x s : loader) :
  probe_installed s = false ->
  P c -> calm pick P x s -> post (ask_loading c) s (fun _ s' => calm pick P x s').
Proof.
  intros Hprobe Hc Hs. unfold GenericLoad.ask_loading.
  apply post_bind, post_gets. cbv beta iota. rewrite Hprobe.
  apply ask_calm; assumption.
Qed.

End Calm.

Lemma calm_weaken {V W} (pick : view Config Obj -> V) (f : V -> W)
      (P Q : load_call Config Obj -> Prop) (x x' : loader) :
  (forall c, P c -> Q c) -> calm pick P x x' -> calm (fun v => f (pick v)) Q x x'.
Proof.
  intros HPQ (Hv & Hu & l & Hc & HP).
  split; [rewrite Hv; reflexivity |]. split; [exact Hu |].
  exists l. split; [exact Hc | eapply Forall_impl; [exact HP | exact HPQ]].
Qed.

(** Walk through the function, keeping [J], which is [calm pick P x0]:
    [leafP] shows that a call satisfies [P], [special] is tried first. *)
Ltac load_leaf :=
  eapply calm_step;
  [ eassumption
  | first [reflexivity | solve [auto]]
  | first [exact (fun H => H) | intros _; reflexivity]
  | exists []; split; [symmetry; apply app_nil_r | constructor] ].

Ltac load_walk J leafP special :=
  first
  [ special
  | lazymatch goal with
    | |- post (bind (gets _) _) _ _ =>
        apply post_bind, post_gets; cbv beta iota; load_walk J leafP special
    | |- post (bind _ _) _ _ =>
        apply (post_seq J);
        [ load_walk J leafP special
        | intros ? ? ?; load_walk J leafP special
        | intros ? ? ?; assumption ]
    | |- post (ret _) _ _ => apply post_ret; assumption
    | |- post (raise _) _ _ => apply post_raise; assumption
    | |- post (gets _) _ _ => apply post_gets; assumption
    | |- post (lift _) _ _ => apply post_lift; assumption
    | |- post (modify (log _)) _ _ =>
        apply post_modify; eapply calm_step;
        [ eassumption | reflexivity | exact (fun H => H)
        | eexists; split; [reflexivity | repeat constructor; leafP] ]
    | |- post (modify _) _ _ => apply post_modify; load_leaf
    | |- post (GenericLoad.ask _ _) _ _ => apply ask_calm; [leafP | assumption]
    | |- post (GenericLoad.ask_loading _ _ _ _ _ _ _ _ _) _ _ =>
        apply ask_loading_calm;
        [first [solve [auto] | intros ?; reflexivity] | leafP | assumption]
    | |- post (in_parts (load_badwords _ _ _)) _ _ =>
        apply (in_parts_calm _ _ (fun _ => False));
        [ apply load_badwords_quiet | intros ? [] | assumption ]
    | |- post (in_parts (GenericHFTorch.save_downloaded_model _ _ _ _ _ _ _ _)) _ _ =>
        apply (in_parts_calm _ _ (fun c => is_save c = true));
        [ apply save_downloaded_model_quiet | intros ? ?; leafP | assumption ]
    | |- post (in_parts (GenericHFTorch.place_model _ _ _)) _ _ =>
        apply (in_parts_calm _ _ (fun c => is_placement c = true));
        [ apply place_model_quiet | intros ? ?; leafP | assumption ]
    | |- post (in_parts (GenericHFTorch.extern_ _ _ _ ?c)) _ _ =>
        apply (in_parts_calm _ _ (eq c));
        [ apply extern__quiet_from | intros ? <-; leafP | assumption ]
    | |- post (GenericLoad.with_ _ _ _ _ _ _ _ _) _ _ =>
        apply with_calm;
        [ leafP | intros ?; leafP | assumption | intros ? ?; load_walk J leafP special ]
    | |- post (when _ _) _ _ =>
        apply post_when; [intros ?; load_walk J leafP special | intros ?; assumption]
    | |- post (try_except _ _) _ _ =>
        apply (post_try_same J);
        [load_walk J leafP special | intros ? ? ?; load_walk J leafP special]
    | |- post (if ?b then _ else _) _ _ => destruct b; load_walk J leafP special
    | |- post (match ?a with _ => _ end) _ _ => destruct a; load_walk J leafP special
    | |- post ?c _ _ =>
        first [progress cbv zeta | let h := head_of c in unfold h];
        load_walk J leafP special
    end ].

Section Phases.

Context {V : Type}.
Variable pick : view Config Obj -> V.

Local Abbreviation resolves := (fun c : load_call Config Obj => is_resolve_step c = true).
Local Abbreviation discovers := (fun c : load_call Config Obj => is_discover_step c = true).

(** Lines 21-43 change the model's name, its type and its configuration
    and nothing else of the settings. *)
Lemma resolve_model_calm (x : loader) :
  (forall (y : loader) cfg, pick (view_of (set_model_config cfg y)) = pick (view_of y)) ->
  (forall (y : loader) t, pick (view_of (on_vars (set_model_type t) y)) = pick (view_of y)) ->
  calm pick resolves x (snd (resolve_model x)).
Proof.
  intros Hcfg Htype.
  change (post resolve_model x (fun _ s' => calm pick resolves x s')).
  pose proof (calm_refl pick resolves x) as Hx.
  load_walk (calm pick resolves x) ltac:(reflexivity) fail.
Qed.

(** Lines 67-78 change nothing of the settings. *)
Lemma discover_layers_calm (x : loader) :
  calm pick discovers x (snd (discover_layers x)).
Proof.
  change (post discover_layers x (fun _ s' => calm pick discovers x s')).
  pose proof (calm_refl pick discovers x) as Hx.
  load_walk (calm pick discovers x) ltac:(reflexivity) fail.
Qed.


Lemma fetch_body_calm (save_model : bool) (tf_kwargs : gmap string bool) (x s : loader) :
  (forall y : loader, pick (view_of (on_vars (set_fp32_model true) y)) = pick (view_of y)) ->
  (forall (y : loader) b, pick (view_of (set_probe_installed b y)) = pick (view_of y)) ->
  calm pick (fetch_step (lazy_load (the_vars s)) tf_kwargs) x s ->
  post (fetch_body save_model tf_kwargs) s
    (fun _ s' => calm pick (fetch_step (lazy_load (the_vars s)) tf_kwargs) x s').
Proof.
  intros Hfp32 Hprobe Hs. unfold GenericLoad.fetch_body.
  apply post_bind, post_gets. cbv beta iota.
  set (lz := lazy_load (the_vars s)) in *. clearbody lz.
  load_walk (calm pick (fetch_step lz tf_kwargs) x)
    ltac:(first [exact I | reflexivity | assumption]) fail.
Qed.

(** Lines 227-236 change the bad-words list and nothing else. *)
Lemma assign_badwords_calm (x : loader) :
  calm pick (fun _ => False) x (snd (assign_badwords x)).
Proof.
  change (post assign_badwords x (fun _ s' => calm pick (fun _ => False) x s')).
  pose proof (calm_refl pick (fun _ => False) x) as Hx.
  load_walk (calm pick (fun _ : load_call Config Obj => False) x) fail fail.
Qed.

(** The placement changes nothing of the settings. *)
Lemma place_model_calm (x : loader) :
  calm pick (fun c => exists c0, c = part c0 /\ is_placement c0 = true) x
    (snd (in_parts place_model x)).
Proof.
  apply (in_parts_calm pick _ (fun c => is_placement c = true) place_model x x).
  - apply place_model_quiet.
  - intros c Hc. exists c. auto.
  - apply calm_refl.
Qed.

End Phases.

(** Lines 81-225 change the fp32 flag and what
    [torch._utils._rebuild_tensor] holds, and nothing else of the settings;
    [tf_kwargs] goes to [_get_model] without [low_cpu_mem_usage] when lazy
    loading is on, and as it is otherwise. *)
Lemma fetch_calm {V} (pick : view Config Obj -> V) (save_model : bool)
      (tf_kwargs : gmap string bool) (x : loader) :
  (forall y : loader, pick (view_of (on_vars (set_fp32_model true) y)) = pick (view_of y)) ->
  (forall (y : loader) b, pick (view_of (set_probe_installed b y)) = pick (view_of y)) ->
  calm pick (fetch_step (lazy_load (the_vars x)) tf_kwargs) x
    (snd (fetch save_model tf_kwargs x)).
Proof.
  intros Hfp32 Hprobe.
  set (pick' := fun v : view Config Obj => (pick v, pv_lazy_load (v_parts v))).
  set (P := fetch_step (lazy_load (the_vars x)) tf_kwargs).
  assert (forall y : loader,
            pick' (view_of (on_vars (set_fp32_model true) y)) = pick' (view_of y)) as Hfp32'.
  { intros y. unfold pick'. rewrite Hfp32. reflexivity. }
  assert (forall (y : loader) b,
            pick' (view_of (set_probe_installed b y)) = pick' (view_of y)) as Hprobe'.
  { intros y b. unfold pick'. rewrite Hprobe. reflexivity. }
  apply (calm_weaken pick' fst P P); [auto |].
  change (post (fetch save_model tf_kwargs) x (fun _ s' => calm pick' P x s')).
  pose proof (calm_refl pick' P x) as Hx.
  unfold GenericLoad.fetch.
  load_walk (calm pick' P x)
    ltac:(first [exact I | reflexivity | assumption])
    ltac:(idtac;
          lazymatch goal with
          | H : calm pick' P x ?s |- post (fetch_body _ _) ?s _ =>
              let Hlz := fresh "Hlz" in
              let Hb := fresh "Hb" in
              assert (lazy_load (the_vars s) = lazy_load (the_vars x)) as Hlz
                by (destruct H as (Hv & _); exact (f_equal snd Hv));
              pose proof (fetch_body_calm pick' save_model tf_kwargs x s Hfp32' Hprobe')
                as Hb;
              rewrite Hlz in Hb; exact (Hb H)
          end).
Qed.

(** Lines 45-65, run. *)
Lemma choose_tf_kwargs_run (x : loader) :
  let gpt2 := String.eqb (model_type (the_vars x)) "gpt2" in
  let x1 := if gpt2 then on_vars (set_lazy_load false) x else x in
  let kw : gmap string bool :=
    if gpt2 then delete low_cpu_mem_usage {[ low_cpu_mem_usage := true ]}
    else {[ low_cpu_mem_usage := true ]} in
  let v := the_vars x1 in
  choose_tf_kwargs x
  = if lazy_load v && hascuda v && breakmodel v && negb (nobreakmodel x1)
    then match in_parts (extern_ (breakmodel_device_config Config (self_model_config x1))) x1
         with
         | (Ok _, x2) => (Ok kw, x2)
         | (Raise e, x2) => (Raise e, x2)
         end
    else (Ok kw, x1).
Proof.
  cbn zeta. unfold GenericLoad.choose_tf_kwargs, bind, gets, when, modify, ret.
  destruct (String.eqb (model_type (the_vars x)) "gpt2"); cbv beta iota;
    (destruct (_ && _); [| reflexivity]);
    match goal with |- context [in_parts ?p ?y] => destruct (in_parts p y) as [[[] | e] x2] end;
    reflexivity.
Qed.


Lemma calm_post {V A} (pick : view Config Obj -> V) (P P' : load_call Config Obj -> Prop)
      (c : M loader A) (x s : loader) :
  calm pick P' s (snd (c s)) ->
  (forall c, P' c -> P c) ->
  calm pick P x s ->
  post c s (fun _ s' => calm pick P x s').
Proof.
  intros Hc HP Hs. apply (calm_trans pick P x s); [exact Hs |].
  apply (calm_weaken pick id P' P); assumption.
Qed.

Lemma done_between_adds (P : load_call Config Obj -> Prop) (x x' : loader) :
  adds P x x' -> Forall P (done_between x x').
Proof.
  intros (l & Hl & HP). unfold done_between. rewrite Hl, drop_app_length. exact HP.
Qed.

Lemma resolve_not_final (c : load_call Config Obj) :
  is_resolve_step c = true -> is_final_step c = false.
Proof. destruct c as [[] | [] | | | | | | | | | | | | | | | | |]; cbn; congruence. Qed.

Lemma fetch_not_final (lz : bool) (kw : gmap string bool) (c : load_call Config Obj) :
  fetch_step lz kw c -> is_final_step c = false.
Proof.
  destruct c as [[] | [] | | | | | | | | | | | | | | | | |]; cbn;
    first [congruence | contradiction | reflexivity].
Qed.

(** X16.  With an accelerator, the split flag, no VRAM-only flag and
    lazy loading off, [_load] never returns normally, whatever the outside
    answers: what does not fail earlier fails at the placement, which
    reads the unbound [model].  No device plan is computed, no block is
    moved, the hidden size is not asked for and [modeldim] is left as it
    was. *)
Theorem load_split_eager_never_returns (save_model initial_load : bool) (x : loader) :
  hascuda (the_vars x) = true ->
  usegpu (the_vars x) = false ->
  breakmodel (the_vars x) = true ->
  lazy_load (the_vars x) = false ->
  let out := _load save_model initial_load x in
  raised (fst out)
  /\ modeldim (snd out) = modeldim x
  /\ kai_model (snd out) = kai_model x
  /\ Forall (fun c => is_final_step c = false) (done_between x (snd out)).
Proof.
  intros Hcuda Hgpu Hsplit Hlazy out.
  set (pick := fun v : view Config Obj =>
                 (pv_hascuda (v_parts v), pv_usegpu (v_parts v),
                  pv_breakmodel (v_parts v), pv_lazy_load (v_parts v),
                  v_modeldim v, v_kai_model v)).
  set (P := fun c : load_call Config Obj => is_final_step c = false).
  set (x0 := on_parts (set_local_model Config World None) x).
  set (J := calm pick P x0).
  assert (forall s, J s ->
            hascuda (the_vars s) = true /\ usegpu (the_vars s) = false
            /\ breakmodel (the_vars s) = true /\ lazy_load (the_vars s) = false
            /\ unbound s) as Hflags.
  { intros s (Hv & Hu & _). unfold pick in Hv. cbn in Hv.
    injection Hv as H1 H2 H3 H4 _ _.
    unfold the_vars. rewrite H1, H2, H3, H4.
    split; [exact Hcuda |]. split; [exact Hgpu |]. split; [exact Hsplit |].
    split; [exact Hlazy |]. apply Hu. reflexivity. }
  assert (forall (r : res unit) s, J s -> raised r ->
            raised r /\ modeldim s = modeldim x /\ kai_model s = kai_model x
            /\ Forall P (done_between x s)) as Hfinal.
  { intros r s (Hv & _ & Ha) Hr. unfold pick in Hv. cbn in Hv.
    injection Hv as _ _ _ _ H5 H6.
    split; [exact Hr |]. split; [exact H5 |]. split; [exact H6 |].
    apply done_between_adds. exact Ha. }
  assert (forall e : exn, raised (Raise (A := unit) e)) as Hraised by (intros e; exists e; reflexivity).
  change (post (_load save_model initial_load) x
            (fun r s => raised r /\ modeldim s = modeldim x /\ kai_model s = kai_model x
                        /\ Forall P (done_between x s))).
  unfold GenericLoad._load.
  apply post_bind, post_modify. cbv beta iota. fold x0.
  assert (J x0) as Hx0 by apply calm_refl.
  apply (post_seq J); [| | intros e s Hs; apply Hfinal; auto].
  { apply (calm_post pick P (fun c => is_resolve_step c = true)); [| apply resolve_not_final | exact Hx0].
    apply resolve_model_calm; reflexivity. }
  intros _ s1 Hs1. destruct (Hflags s1 Hs1) as (H1 & H2 & H3 & H4 & H5).
  apply post_bind. unfold post at 1. rewrite choose_tf_kwargs_run. cbn zeta.
  set (s2 := if String.eqb _ "gpt2" then on_vars (set_lazy_load false) s1 else s1).
  assert (J s2 /\ lazy_load (the_vars s2) = false) as [Hs2 Hl2].
  { subst s2. destruct (String.eqb _ "gpt2"); [| auto]. split; [| reflexivity].
    apply (calm_step pick P x0 s1); [exact Hs1 | | exact (fun H => H) |].
    - unfold pick. cbn. unfold the_vars in H4. rewrite H4. reflexivity.
    - exists []. split; [symmetry; apply app_nil_r | constructor]. }
  rewrite Hl2. cbn [andb fst snd].
  apply post_bind, post_gets. cbv beta iota. rewrite Hl2.
  apply post_bind, post_ret. cbv beta iota.
  apply (post_seq J); [| | intros e s Hs; apply Hfinal; auto].
  { eapply (calm_post pick P);
      [apply fetch_calm; reflexivity | intros c; apply fetch_not_final | exact Hs2]. }
  intros _ s3 Hs3.
  apply (post_seq J); [| | intros e s Hs; apply Hfinal; auto].
  { apply (calm_post pick P (fun _ => False)); [| intros c [] | exact Hs3].
    apply assign_badwords_calm. }
  intros _ s4 Hs4.
  apply (post_seq J); [| | intros e s Hs; apply Hfinal; auto].
  { apply ask_calm; [reflexivity | exact Hs4]. }
  intros _ s5 Hs5. destruct (Hflags s5 Hs5) as (G1 & G2 & G3 & G4 & G5).
  apply post_bind, post_in_parts. intros r s'.
  rewrite (GenericHFTorchFacts.place_model_split_eager perform (parts s5) G1 G2 G3 G4 G5).
  intros Heq. injection Heq as <- <-.
  apply Hfinal; [| apply Hraised].
  apply (calm_step pick P x0 s5); [exact Hs5 | reflexivity | exact (fun H => H) |].
  exists []. split; [| constructor].
  cbn [trace log set_parts]. rewrite drop_all. reflexivity.
Qed.


Ltac part_cases :=
  first
  [ reflexivity
  | exact I
  | match goal with
    | c : call _ |- _ => destruct c; cbn in *; first [reflexivity | congruence | discriminate]
    end ].

(** With a local copy the body of the second [with] loads it. *)
Lemma fetch_body_local {V} (pick : view Config Obj -> V) (save_model : bool)
      (tf_kwargs : gmap string bool) (x s : loader) :
  (forall w, exists p w',
      answer_of (get_local_model_path false) w = (Ok (Str p), w') /\ p <> "") ->
  (forall c s1,
      is_download_step c = false ->
      calm pick (fun c => is_download_step c = false) x s1 ->
      post (ask_loading c) s1
        (fun _ s' => calm pick (fun c => is_download_step c = false) x s')) ->
  calm pick (fun c => is_download_step c = false) x s ->
  post (fetch_body save_model tf_kwargs) s
    (fun _ s' => calm pick (fun c => is_download_step c = false) x s').
Proof.
  intros Hlocal Hload Hs. unfold GenericLoad.fetch_body.
  apply post_bind, post_gets. cbv beta iota.
  apply post_bind, post_ask. intros r w Heq.
  destruct (Hlocal (world _ _ (parts s))) as (p & w' & Hp & Hne).
  rewrite Hp in Heq. injection Heq as <- <-.
  cbn [truthy]. apply String.eqb_neq in Hne. rewrite Hne. cbn [negb].
  match goal with |- post _ ?s1 _ =>
    assert (calm pick (fun c => is_download_step c = false) x s1) as Hs1
  end.
  { apply (calm_step pick _ x s); [exact Hs | reflexivity | exact (fun H => H) |].
    eexists. split; [reflexivity | repeat constructor]. }
  load_walk (calm pick (fun c : load_call Config Obj => is_download_step c = false) x)
    part_cases
    ltac:(idtac;
          lazymatch goal with
          | |- post (GenericLoad.ask_loading _ _ _ _ _ _ _ _ _) _ _ =>
              apply Hload; [reflexivity | assumption]
          end).
Qed.

(** X23.  When the model is stored locally, [_load] does nothing of what
    the download branch does: [torch._utils._rebuild_tensor] is not
    assigned and holds at the end what it held on entry, nothing is saved,
    the hub cache is not read and not removed.  The fp32 flag is left as
    it was when the library's own function is installed on entry; a
    [new_rebuild_tensor] that an earlier download left installed probes
    this load as well. *)
Theorem local_copy_is_not_downloaded (save_model initial_load : bool) (x : loader) :
  (forall w, exists p w',
      answer_of (get_local_model_path false) w = (Ok (Str p), w') /\ p <> "") ->
  let out := _load save_model initial_load x in
  Forall (fun c => is_download_step c = false) (done_between x (snd out))
  /\ probe_installed (snd out) = probe_installed x
  /\ (probe_installed x = false ->
      fp32_model (the_vars (snd out)) = fp32_model (the_vars x)).
Proof.
  intros Hlocal out.
  set (P := fun c : load_call Config Obj => is_download_step c = false).
  set (pick0 := fun v : view Config Obj => v_probe_installed v).
  assert (calm pick0 P x (snd out)) as (Hprobe & _ & Ha).
  { assert (forall c s1, P c -> calm pick0 P x s1 ->
                         post (ask_loading c) s1 (fun _ s' => calm pick0 P x s')) as Hload.
    { intros c s1 Hc Hs1.
      apply ask_loading_calm; [intros y; reflexivity | exact Hc | exact Hs1]. }
    subst out.
    change (post (_load save_model initial_load) x (fun _ s' => calm pick0 P x s')).
    pose proof (calm_refl pick0 P x) as Hx.
    load_walk (calm pick0 P x) part_cases
      ltac:(idtac;
            lazymatch goal with
            | |- post (fetch_body _ _) _ _ => apply fetch_body_local; assumption
            end). }
  split; [apply done_between_adds; exact Ha |]. split; [exact Hprobe |].
  intros Hlib.
  set (pick := fun v : view Config Obj => (pv_fp32_model (v_parts v), v_probe_installed v)).
  assert (calm pick P x (snd out)) as (Hv & _ & _).
  { assert (forall c s1, P c -> calm pick P x s1 ->
                         post (ask_loading c) s1 (fun _ s' => calm pick P x s')) as Hload.
    { intros c s1 Hc Hs1.
      apply ask_loading_unprobed; [| exact Hc | exact Hs1].
      destruct Hs1 as (Hv1 & _ & _). rewrite <- Hlib. exact (f_equal snd Hv1). }
    subst out.
    change (post (_load save_model initial_load) x (fun _ s' => calm pick P x s')).
    pose proof (calm_refl pick P x) as Hx.
    load_walk (calm pick P x) part_cases
      ltac:(idtac;
            lazymatch goal with
            | |- post (fetch_body _ _) _ _ => apply fetch_body_local; assumption
            end). }
  exact (f_equal fst Hv).
Qed.


Local Abbreviation is_gpt2 := (fun x : loader => String.eqb (model_type (the_vars x)) "gpt2").
Local Abbreviation plans := (fun c : load_call Config Obj =>
                               exists cfg, c = part (breakmodel_device_config Config cfg)).

(** Lines 45-65 change the lazy-loading flag and nothing else of the
    settings, and the only call they make is the one for the early device
    plan. *)
Lemma choose_tf_kwargs_calm {V} (pick : view Config Obj -> V) (x : loader) :
  (forall y : loader, pick (view_of (on_vars (set_lazy_load false) y)) = pick (view_of y)) ->
  calm pick plans x (snd (choose_tf_kwargs x)).
Proof.
  intros Hlazy.
  change (post choose_tf_kwargs x (fun _ s' => calm pick plans x s')).
  pose proof (calm_refl pick plans x) as Hx.
  load_walk (calm pick plans x) ltac:(eexists; reflexivity) fail.
Qed.

(** What lines 45-65 leave: [tf_kwargs], the lazy-loading flag, and the
    early plan in the trace. *)
Lemma choose_tf_kwargs_result (x : loader) :
  let out := choose_tf_kwargs x in
  let lazy' := if is_gpt2 x then false else lazy_load (the_vars x) in
  lazy_load (the_vars (snd out)) = lazy'
  /\ trace (snd out)
     = trace x
       ++ (if lazy' && hascuda (the_vars x) && breakmodel (the_vars x)
              && negb (nobreakmodel x)
           then [part (breakmodel_device_config Config (self_model_config x))]
           else [])
  /\ (forall kw, fst out = Ok kw ->
        kw = if is_gpt2 x then delete low_cpu_mem_usage {[ low_cpu_mem_usage := true ]}
             else {[ low_cpu_mem_usage := true ]}).
Proof.
  cbn zeta. rewrite choose_tf_kwargs_run. cbn zeta.
  set (x1 := if is_gpt2 x then on_vars (set_lazy_load false) x else x).
  assert (lazy_load (the_vars x1) = (if is_gpt2 x then false else lazy_load (the_vars x))
          /\ hascuda (the_vars x1) = hascuda (the_vars x)
          /\ breakmodel (the_vars x1) = breakmodel (the_vars x)
          /\ nobreakmodel x1 = nobreakmodel x
          /\ self_model_config x1 = self_model_config x
          /\ trace x1 = trace x) as (H1 & H2 & H3 & H4 & H5 & H6).
  { subst x1. destruct (is_gpt2 x); repeat split. }
  rewrite H1, H2, H3, H4, H5.
  destruct (_ && _ && _ && _).
  - pose proof (in_parts_calm (fun v => v) (fun _ => True)
                  (eq (breakmodel_device_config Config (self_model_config x)))
                  (extern_ (breakmodel_device_config Config (self_model_config x)))
                  x1 x1 (extern__quiet_from _ _) (fun _ _ => I) (calm_refl _ _ x1)) as Hc.
    unfold post in Hc. destruct Hc as (Hv & _ & _).
    pose proof (in_parts_extern__trace (breakmodel_device_config Config (self_model_config x)) x1) as Ht.
    destruct (in_parts _ x1) as [[[] | e] x2]; cbn [fst snd] in *.
    + split; [| split; [rewrite Ht, H6; reflexivity | intros kw [= <-]; reflexivity]].
      rewrite <- H1. exact (f_equal (fun v => pv_lazy_load (v_parts v)) Hv).
    + split; [| split; [rewrite Ht, H6; reflexivity | intros kw [=]]].
      rewrite <- H1. exact (f_equal (fun v => pv_lazy_load (v_parts v)) Hv).
  - cbn [fst snd]. split; [exact H1 |].
    split; [rewrite H6, app_nil_r; reflexivity | intros kw [= <-]; reflexivity].
Qed.


Lemma resolve_not_get_model (c : load_call Config Obj) :
  is_resolve_step c = true -> is_get_model c = false.
Proof. destruct c as [[] | [] | | | | | | | | | | | | | | | | |]; cbn; congruence. Qed.

Lemma plan_not_get_model (c : load_call Config Obj) : plans c -> is_get_model c = false.
Proof. intros [cfg ->]. reflexivity. Qed.

(** What comes after lines 45-65 leaves the model type, the lazy-loading
    flag and the configuration as they are, and [_get_model] gets
    [tf_kwargs] without [low_cpu_mem_usage] when lazy loading is on. *)
Lemma after_choose_calm (save_model : bool) (tf_kwargs : gmap string bool) (x : loader) :
  let pick := fun v : view Config Obj =>
                (pv_model_type (v_parts v), pv_lazy_load (v_parts v), v_model_config v) in
  let P := fun c : load_call Config Obj =>
             forall location kwargs, c = _get_model location kwargs ->
               kwargs = (if lazy_load (the_vars x) then delete low_cpu_mem_usage tf_kwargs
                         else tf_kwargs) in
  post (do lazy <- gets (fun x => lazy_load (the_vars x)) ;;
        run when lazy discover_layers ;;
        run fetch save_model tf_kwargs ;;
        run assign_badwords ;;
        run ask patch_embedding ;;
        run in_parts place_model ;;
        run modify (set_kai_model true) ;;
        do n <- ask get_hidden_size ;;
        modify (set_modeldim n)) x
    (fun _ s => calm pick P x s).
Proof.
  intros pick P.
  pose proof (calm_refl pick P x) as Hx.
  load_walk (calm pick P x)
    ltac:(first [ intros ? ? [=]
                | match goal with
                  | c : call _ |- _ => destruct c; intros ? ? [=]
                  end ])
    ltac:(idtac;
          lazymatch goal with
          | H : calm pick P x ?s |- post (fetch _ _) ?s _ =>
              eapply (calm_post pick P);
              [ apply fetch_calm; reflexivity
              | let Hv := fresh "Hv" in
                intros c Hc location kwargs ->; cbn in Hc; rewrite Hc;
                destruct H as (Hv & _);
                apply (f_equal (fun p => snd (fst p))) in Hv; unfold pick in Hv;
                cbn in Hv; unfold the_vars; rewrite Hv; reflexivity
              | exact H ]
          end).
Qed.

(** X24.  Whenever [_load] calls [_get_model], it passes
    [low_cpu_mem_usage] exactly when lazy loading is off and the model
    type is not [gpt2]; for a [gpt2] model lazy loading has been switched
    off before. *)
Theorem get_model_kwargs (save_model initial_load : bool) (x : loader) :
  let out := _load save_model initial_load x in
  let v' := the_vars (snd out) in
  forall location tf_kwargs,
    In (_get_model location tf_kwargs) (done_between x (snd out)) ->
    tf_kwargs = (if lazy_load v' || String.eqb (model_type v') "gpt2"
                 then ∅ else {[ low_cpu_mem_usage := true ]})
    /\ (model_type v' = "gpt2" -> lazy_load v' = false).
Proof.
  cbn zeta.
  set (Q := fun s : loader =>
              forall location tf_kwargs,
                In (_get_model location tf_kwargs) (done_between x s) ->
                tf_kwargs = (if lazy_load (the_vars s) || String.eqb (model_type (the_vars s)) "gpt2"
                             then ∅ else {[ low_cpu_mem_usage := true ]})
                /\ (model_type (the_vars s) = "gpt2" -> lazy_load (the_vars s) = false)).
  set (PA := fun c : load_call Config Obj => is_get_model c = false).
  set (pickA := fun _ : view Config Obj => tt).
  set (JA := calm pickA PA x).
  assert (forall s, JA s -> Q s) as HQA.
  { intros s (_ & _ & Ha) location kw Hin.
    apply done_between_adds in Ha. rewrite Forall_forall in Ha.
    apply list_elem_of_In, Ha in Hin. discriminate Hin. }
  change (post (_load save_model initial_load) x (fun _ s => Q s)).
  unfold GenericLoad._load.
  apply (post_seq JA); [| | intros e s Hs; apply HQA; exact Hs].
  { apply post_modify.
    apply (calm_step pickA PA x x); [apply calm_refl | reflexivity | intros _; reflexivity |].
    exists []. split; [symmetry; apply app_nil_r | constructor]. }
  intros _ s0 Hs0.
  apply (post_seq JA); [| | intros e s Hs; apply HQA; exact Hs].
  { apply (calm_post pickA PA (fun c => is_resolve_step c = true));
      [apply resolve_model_calm; reflexivity | apply resolve_not_get_model | exact Hs0]. }
  intros _ s1 Hs1.
  apply post_bind. unfold post at 1.
  pose proof (choose_tf_kwargs_calm (fun v => pv_model_type (v_parts v)) s1
                (fun _ => eq_refl)) as Hplan.
  assert (JA (snd (choose_tf_kwargs s1))) as Hs2.
  { apply (calm_trans pickA PA x s1); [exact Hs1 |].
    apply (calm_weaken (fun v => pv_model_type (v_parts v)) (fun _ => tt) plans PA); [apply plan_not_get_model | exact Hplan]. }
  destruct Hplan as (Hmt & _ & _). cbn beta in Hmt.
  destruct (choose_tf_kwargs_result s1) as (Hlazy & _ & Hkw).
  destruct (choose_tf_kwargs s1) as [[kw | e] s2]; cbn [fst snd] in *;
    [| apply HQA; exact Hs2].
  specialize (Hkw kw eq_refl).
  eapply post_conseq; [| apply (after_choose_calm save_model kw s2)].
  cbn beta. intros r s (Hv & _ & Hb).
  unfold view_of, part_view_of in Hv, Hmt. cbn in Hv, Hmt. injection Hv as Htype Hlz _.
  destruct Hs2 as (_ & _ & la & Hla & HPA). destruct Hb as (lb & Hlb & HPB).
  intros location kwargs Hin.
  unfold done_between in Hin. rewrite Hlb, Hla, <- app_assoc, drop_app_length in Hin.
  apply in_app_or in Hin. destruct Hin as [Hin | Hin].
  { rewrite Forall_forall in HPA. apply list_elem_of_In, HPA in Hin. discriminate Hin. }
  pose proof (proj1 (Forall_forall _ _) HPB _ (proj2 (list_elem_of_In _ _) Hin)) as Hgm.
  clear Hin. pose proof (Hgm location kwargs eq_refl) as Hin. cbv beta in Hin.
  unfold the_vars in *. rewrite Htype, Hlz, Hmt, Hlazy. rewrite Hin, Hlazy, Hkw.
  destruct (String.eqb_spec (model_type (vars _ _ (parts s1))) "gpt2") as [Hg | Hg].
  - rewrite delete_singleton_eq. split; [reflexivity | reflexivity].
  - destruct (lazy_load (vars _ _ (parts s1))); cbn [orb];
      [rewrite delete_singleton_eq |]; (split; [reflexivity | intros H; contradiction]).
Qed.



Lemma first_get_model_after (la lb pre post : list (load_call Config Obj))
      (p g : load_call Config Obj) :
  la ++ p :: lb = pre ++ g :: post ->
  Forall (fun c => is_get_model c = false) la ->
  is_get_model p = false -> is_get_model g = true ->
  In p pre.
Proof.
  intros Heq Hla Hp Hg. revert pre Heq.
  induction la as [| a la IH]; intros [| b pre] Heq; cbn in Heq.
  - injection Heq as -> _. congruence.
  - injection Heq as -> _. left. reflexivity.
  - injection Heq as -> _. inversion Hla; subst. congruence.
  - injection Heq as -> Heq. right. apply IH; [| exact Heq].
    inversion Hla; assumption.
Qed.

Lemma no_get_model_yet (l pre post : list (load_call Config Obj)) (g : load_call Config Obj) :
  l = pre ++ g :: post ->
  Forall (fun c => is_get_model c = false) l ->
  is_get_model g = true -> False.
Proof.
  intros -> Hl Hg. apply Forall_app in Hl. destruct Hl as [_ Hl].
  inversion Hl; subst. congruence.
Qed.

(** X25.  When lazy loading, an accelerator and the split flag are set
    and [nobreakmodel] is not, the device plan is computed before the model
    is loaded: every call of [_get_model] comes after the call of
    [breakmodel_device_config] on the configuration that
    [init_model_config] left, unless the model type is [gpt2], for which
    lazy loading is switched off. *)
Theorem early_plan_before_get_model (save_model initial_load : bool) (x : loader) :
  lazy_load (the_vars x) = true ->
  hascuda (the_vars x) = true ->
  breakmodel (the_vars x) = true ->
  nobreakmodel x = false ->
  let out := _load save_model initial_load x in
  forall pre location tf_kwargs post,
    done_between x (snd out) = pre ++ _get_model location tf_kwargs :: post ->
    model_type (the_vars (snd out)) = "gpt2"
    \/ In (part (breakmodel_device_config Config (self_model_config (snd out)))) pre.
Proof.
  intros Hlazy Hcuda Hsplit Hnobreak. cbn zeta.
  set (Q := fun s : loader =>
              forall pre location tf_kwargs post,
                done_between x s = pre ++ _get_model location tf_kwargs :: post ->
                model_type (the_vars s) = "gpt2"
                \/ In (part (breakmodel_device_config Config (self_model_config s))) pre).
  set (PA := fun c : load_call Config Obj => is_get_model c = false).
  set (pickA := fun v : view Config Obj =>
                  (pv_lazy_load (v_parts v), pv_hascuda (v_parts v),
                   pv_breakmodel (v_parts v), v_nobreakmodel v)).
  set (JA := calm pickA PA x).
  assert (forall s, JA s -> Q s) as HQA.
  { intros s (_ & _ & Ha) pre location kw post Heq. exfalso.
    apply done_between_adds in Ha.
    apply (no_get_model_yet _ _ _ _ Heq Ha). reflexivity. }
  change (post (_load save_model initial_load) x (fun _ s => Q s)).
  unfold GenericLoad._load.
  apply (post_seq JA); [| | intros e s Hs; apply HQA; exact Hs].
  { apply post_modify.
    apply (calm_step pickA PA x x); [apply calm_refl | reflexivity | intros _; reflexivity |].
    exists []. split; [symmetry; apply app_nil_r | constructor]. }
  intros _ s0 Hs0.
  apply (post_seq JA); [| | intros e s Hs; apply HQA; exact Hs].
  { apply (calm_post pickA PA (fun c => is_resolve_step c = true));
      [apply resolve_model_calm; reflexivity | apply resolve_not_get_model | exact Hs0]. }
  intros _ s1 Hs1.
  apply post_bind. unfold post at 1.
  pose proof (choose_tf_kwargs_calm
                (fun v => (pv_model_type (v_parts v), v_model_config v)) s1
                (fun _ => eq_refl)) as Hplan.
  destruct (choose_tf_kwargs_result s1) as (_ & Htrace & _).
  set (out2 := choose_tf_kwargs s1) in *. clearbody out2.
  assert (adds PA x (snd out2)) as Ha2.
  { destruct Hs1 as (_ & _ & l1 & Hl1 & HP1). destruct Hplan as (_ & _ & l2 & Hl2 & HP2).
    exists (l1 ++ l2). rewrite Hl2, Hl1, <- app_assoc. split; [reflexivity |].
    apply Forall_app. split; [exact HP1 |].
    eapply Forall_impl; [exact HP2 | apply plan_not_get_model]. }
  destruct Hplan as (Hmc & _ & _).
  unfold view_of, part_view_of in Hmc. cbn in Hmc. injection Hmc as Hmt Hcfg.
  assert (lazy_load (the_vars s1) = true /\ hascuda (the_vars s1) = true
          /\ breakmodel (the_vars s1) = true /\ nobreakmodel s1 = false)
    as (G1 & G2 & G3 & G4).
  { destruct Hs1 as (Hv & _ & _). unfold pickA, view_of, part_view_of in Hv. cbn in Hv.
    injection Hv as H1 H2 H3 H4. unfold the_vars.
    rewrite H1, H2, H3, H4. auto. }
  rewrite G1, G2, G3, G4 in Htrace. cbn [andb negb] in Htrace.
  destruct out2 as [[kw | e] s2]; cbn [fst snd] in *.
  2:{ intros pre location tf_kwargs post Heq. exfalso.
      apply done_between_adds in Ha2.
      apply (no_get_model_yet _ _ _ _ Heq Ha2). reflexivity. }
  eapply post_conseq; [| apply (after_choose_calm save_model kw s2)].
  cbn beta. intros r s (Hv & _ & lb & Hlb & _).
  unfold view_of, part_view_of in Hv. cbn in Hv. injection Hv as Htype _ Hconfig.
  intros pre location tf_kwargs post Heq.
  unfold the_vars in *. rewrite Htype, Hconfig, Hmt, Hcfg.
  destruct (String.eqb_spec (model_type (vars _ _ (parts s1))) "gpt2") as [Hg | Hg];
    [left; exact Hg | right].
  destruct Hs1 as (_ & _ & la & Hla & HPA).
  unfold done_between in Heq.
  rewrite Hlb, Htrace, Hla, <- !app_assoc, drop_app_length in Heq. cbn [app] in Heq.
  apply (first_get_model_after la lb pre post _ _ Heq HPA); reflexivity.
Qed.


Lemma log_nil (x : loader) : log [] x = x.
Proof. destruct x. unfold log. cbn. rewrite app_nil_r. reflexivity. Qed.

(** A call under the probe is the call in the state the probe leaves. *)
Lemma ask_probed_run (c : load_call Config Obj) (x : loader) :
  ask_probed c x
  = ask c (if existsb probe_hit (rebuilds_during c (world _ _ (parts x)))
           then on_vars (set_fp32_model true) x else x).
Proof.
  unfold GenericLoad.ask_probed, bind, gets, GenericLoad.in_parts.
  rewrite rebuilds_effect.
  destruct (existsb _ _); cbn [calls with_vars]; rewrite drop_all; cbn [map];
    rewrite log_nil; [reflexivity |].
  destruct x as [s ? ? ? ? ? ? ? ? ? ? ?]. reflexivity.
Qed.

Lemma post_ask_probed (c : load_call Config Obj) (x : loader)
      (Q : res (value Config Obj) -> loader -> Prop) :
  (forall b : bool,
     post (ask c) (if b then on_vars (set_fp32_model true) x else x) Q) ->
  post (ask_probed c) x Q.
Proof. intros H. unfold post. rewrite ask_probed_run. apply H. Qed.

Lemma post_ask_probed_at (c : load_call Config Obj) (x : loader)
      (Q : res (value Config Obj) -> loader -> Prop) :
  post (ask c) (if existsb probe_hit (rebuilds_during c (world _ _ (parts x)))
                then on_vars (set_fp32_model true) x else x) Q ->
  post (ask_probed c) x Q.
Proof. intros H. unfold post. rewrite ask_probed_run. exact H. Qed.

Lemma post_ask_loading (c : load_call Config Obj) (x : loader)
      (Q : res (value Config Obj) -> loader -> Prop) :
  (forall b : bool,
     post (ask c) (if b then on_vars (set_fp32_model true) x else x) Q) ->
  post (ask_loading c) x Q.
Proof.
  intros H. unfold GenericLoad.ask_loading. apply post_bind, post_gets. cbv beta iota.
  destruct (probe_installed x); [apply post_ask_probed; exact H | exact (H false)].
Qed.

Lemma post_ask_loading_at (c : load_call Config Obj) (x : loader)
      (Q : res (value Config Obj) -> loader -> Prop) :
  probe_installed x = true ->
  post (ask c) (if existsb probe_hit (rebuilds_during c (world _ _ (parts x)))
                then on_vars (set_fp32_model true) x else x) Q ->
  post (ask_loading c) x Q.
Proof.
  intros Hp H. unfold GenericLoad.ask_loading. apply post_bind, post_gets. cbv beta iota.
  rewrite Hp. apply post_ask_probed_at. exact H.
Qed.

Lemma done_between_is (x s : loader) (l : list (load_call Config Obj)) :
  trace s = trace x ++ l -> done_between x s = l.
Proof. intros H. unfold done_between. rewrite H. apply drop_app_length. Qed.

Lemma raised_raise {A} (e : exn) : raised (Raise (A := A) e).
Proof. exists e. reflexivity. Qed.

Lemma raised_ok {A} (a : A) : raised (Ok a) -> False.
Proof. intros [e H]. discriminate H. Qed.

(** X26.  The download branch puts back what
    [torch._utils._rebuild_tensor] held only after both [_get_model] and
    [_get_tokenizer] have returned, and before anything is saved.  A
    download that returns normally has put it back, and the attribute then
    holds what it held on entry.  When [_get_model] raises, the download
    raises the same exception after the two steps of installing the probe
    and calling [_get_model]; when [_get_tokenizer] raises, after these and
    the call of [_get_tokenizer]: in both cases nothing is put back and
    [new_rebuild_tensor] is left installed.  When both loads return, the
    attribute is put back. *)
Theorem download_restores_after_both_loads (save_model : bool)
        (tf_kwargs : gmap string bool) (x : loader) :
  let out := download save_model tf_kwargs x in
  let name : value Config Obj := Str (model (the_vars x)) in
  let done := done_between x (snd out) in
  let patch : load_call Config Obj := set_rebuild_tensor true in
  let restore : load_call Config Obj := set_rebuild_tensor false in
  let gm : load_call Config Obj := _get_model name tf_kwargs in
  let gt : load_call Config Obj := _get_tokenizer name in
  (exists rest, done = patch :: gm :: rest)
  /\ (In restore done ->
      exists l,
        done = [patch; gm; gt; restore] ++ map part l
        /\ Forall (fun c => is_save c = true) l)
  /\ (fst out = Ok tt -> In restore done)
  /\ (In restore done -> probe_installed (snd out) = probe_installed x)
  /\ (~ In restore done -> probe_installed (snd out) = true /\ raised (fst out))
  /\ (forall e, fst (answer_of gm (world _ _ (parts x))) = Raise e ->
        fst out = Raise e /\ done = [patch; gm])
  /\ (forall m w1,
        answer_of gm (world _ _ (parts x)) = (Ok (ModelOf m), w1) ->
        (forall e, fst (answer_of gt w1) = Raise e ->
                   fst out = Raise e /\ done = [patch; gm; gt])
        /\ (forall t, fst (answer_of gt w1) = Ok t -> In restore done)).
Proof.
  cbn zeta.
  set (name := Str (model (the_vars x)) : value Config Obj).
  set (patch := set_rebuild_tensor true : load_call Config Obj).
  set (restore := set_rebuild_tensor false : load_call Config Obj).
  set (gm := _get_model name tf_kwargs : load_call Config Obj).
  set (gt := _get_tokenizer name : load_call Config Obj).
  set (w0 := world _ _ (parts x)).
  set (Q := fun (r : res unit) (s : loader) =>
              (exists rest, done_between x s = patch :: gm :: rest)
              /\ (In restore (done_between x s) ->
                  exists l, done_between x s = [patch; gm; gt; restore] ++ map part l
                            /\ Forall (fun c => is_save c = true) l)
              /\ (r = Ok tt -> In restore (done_between x s))
              /\ (In restore (done_between x s) -> probe_installed s = probe_installed x)
              /\ (~ In restore (done_between x s) -> probe_installed s = true /\ raised r)
              /\ (forall e, fst (answer_of gm w0) = Raise e ->
                    r = Raise e /\ done_between x s = [patch; gm])
              /\ (forall m w1,
                    answer_of gm w0 = (Ok (ModelOf m), w1) ->
                    (forall e, fst (answer_of gt w1) = Raise e ->
                               r = Raise e /\ done_between x s = [patch; gm; gt])
                    /\ (forall t, fst (answer_of gt w1) = Ok t ->
                                  In restore (done_between x s)))).
  change (post (download save_model tf_kwargs) x Q).
  assert (forall (e : exn) s,
            probe_installed s = true ->
            done_between x s = [patch; gm] ->
            (forall e', fst (answer_of gm w0) = Raise e' -> e' = e) ->
            (forall m w1, answer_of gm w0 <> (Ok (ModelOf m), w1)) ->
            Q (Raise e) s) as Hmodel.
  { intros e s Hp Hd He Hm. unfold Q. rewrite Hd.
    assert (~ In restore [patch; gm]) as Hno.
    { cbn. intros H. repeat destruct H as [H | H]; try discriminate H; contradiction. }
    split; [eexists; reflexivity |]. split; [intros H; contradiction |].
    split; [discriminate |]. split; [intros H; contradiction |].
    split; [intros _; split; [exact Hp | apply raised_raise] |].
    split; [intros e' He'; rewrite (He e' He'); auto |].
    intros m w1 H. exfalso. exact (Hm m w1 H). }
  assert (forall (e : exn) s m w1,
            probe_installed s = true ->
            done_between x s = [patch; gm; gt] ->
            answer_of gm w0 = (Ok (ModelOf m), w1) ->
            fst (answer_of gt w1) = Raise e ->
            Q (Raise e) s) as Htokenizer.
  { intros e s m w1 Hp Hd Hm He. unfold Q. rewrite Hd.
    assert (~ In restore [patch; gm; gt]) as Hno.
    { cbn. intros H. repeat destruct H as [H | H]; try discriminate H; contradiction. }
    split; [eexists; reflexivity |]. split; [intros H; contradiction |].
    split; [discriminate |]. split; [intros H; contradiction |].
    split; [intros _; split; [exact Hp | apply raised_raise] |].
    split; [intros e' He'; rewrite Hm in He'; discriminate He' |].
    intros m' w1' H. rewrite Hm in H. injection H as <- <-.
    split; [intros e' He'; rewrite He in He'; injection He' as <-; auto |].
    intros t Ht. rewrite He in Ht. discriminate Ht. }
  unfold GenericLoad.download.
  apply post_bind, post_gets. cbv beta iota.
  apply post_bind, post_modify. cbv beta iota.
  apply post_bind, post_modify. cbv beta iota.
  apply post_bind, post_gets. cbv beta iota.
  apply post_bind, post_ask_loading. intros b1.
  apply post_ask. intros r1 w1 Heq1.
  assert (answer_of gm w0 = (r1, w1)) as Hgm by (destruct b1; exact Heq1).
  clear Heq1.
  destruct r1 as [a | e1].
  2:{ apply Hmodel.
      - destruct b1; reflexivity.
      - apply done_between_is; destruct b1; cbn; rewrite <- app_assoc; reflexivity.
      - intros e' He'. rewrite Hgm in He'. injection He' as <-. reflexivity.
      - intros m w1' H. rewrite Hgm in H. discriminate H. }
  apply post_bind.
  destruct a as [| | | | | | m |];
    try (apply post_raise; apply Hmodel;
         [ destruct b1; reflexivity
         | apply done_between_is; destruct b1; cbn; rewrite <- app_assoc; reflexivity
         | intros e' He'; rewrite Hgm in He'; discriminate He'
         | intros m w1' H; rewrite Hgm in H; discriminate H ]).
  apply post_ret. cbv beta iota.
  apply post_bind, post_modify. cbv beta iota.
  apply post_bind, post_gets. cbv beta iota.
  apply post_bind, post_ask_loading. intros b2.
  apply post_ask. intros r2 w2 Heq2.
  assert (answer_of gt w1 = (r2, w2)) as Hgt by (destruct b1, b2; exact Heq2).
  clear Heq2.
  destruct r2 as [t | e2].
  2:{ apply (Htokenizer e2 _ m w1).
      - destruct b1, b2; reflexivity.
      - apply done_between_is; destruct b1, b2; cbn; rewrite <- !app_assoc; reflexivity.
      - exact Hgm.
      - rewrite Hgt. reflexivity. }
  apply post_bind, post_modify. cbv beta iota.
  apply post_bind, post_modify. cbv beta iota.
  apply post_bind, post_modify. cbv beta iota.
  apply post_in_parts. intros r s' Heq.
  match type of Heq with
  | _ ?s = _ =>
      pose proof (save_downloaded_model_quiet save_model s) as (_ & _ & l & Hl & HP)
  end.
  rewrite Heq in Hl. cbn [snd] in Hl.
  match goal with |- Q r ?sf =>
    assert (done_between x sf = [patch; gm; gt; restore] ++ map part l) as Hd;
    [| assert (probe_installed sf = probe_installed x) as Hp ]
  end.
  { apply done_between_is. cbn [trace log set_parts set_probe_installed].
    rewrite Hl, drop_app_length.
    destruct b1, b2; cbn; rewrite <- !app_assoc; reflexivity. }
  { destruct b1, b2; reflexivity. }
  assert (In restore ([patch; gm; gt; restore] ++ map part l)) as Hin.
  { cbn. right. right. right. left. reflexivity. }
  unfold Q. rewrite Hd. split; [eexists; reflexivity |].
  split; [intros _; exists l; auto |].
  split; [intros _; exact Hin |].
  split; [intros _; exact Hp |].
  split; [intros Hno; exfalso; exact (Hno Hin) |].
  split; [intros e He; rewrite Hgm in He; discriminate He |].
  intros m' w1' H. rewrite Hgm in H. injection H as <- <-.
  split; [intros e He; rewrite Hgt in He; discriminate He | intros t' _; exact Hin].
Qed.



(** The save of a downloaded model with the fp32 flag set, no disk blocks
    and [model] unbound: the tokenizer is saved, then the conversion
    fails. *)
Lemma save_fp32_unbound (s : state) :
  local_model _ _ s = None ->
  fp32_model (vars _ _ s) = true ->
  disk_blocks _ _ s = 0 ->
  post (save_downloaded_model true) s
    (fun r s' =>
       raised r
       /\ part_quiet (eq (tokenizer_save_pretrained Config local_model_path)) s s').
Proof.
  intros Hlocal Hfp Hdisk.
  unfold GenericHFTorch.save_downloaded_model. cbn [when].
  apply post_bind. unfold GenericHFTorch.extern_.
  apply post_bind, post_extern. intros r w.
  assert (part_quiet (eq (tokenizer_save_pretrained Config local_model_path)) s
            (set_world _ _ w (log_call _ _ (tokenizer_save_pretrained Config local_model_path) s)))
    as Hq.
  { apply (part_quiet_step _ s s); [apply part_quiet_refl | reflexivity | auto |].
    exists [tokenizer_save_pretrained Config local_model_path].
    split; [reflexivity | repeat constructor]. }
  destruct r as [a | e]; [| split; [apply raised_raise | exact Hq]].
  apply post_ret. cbv beta iota.
  apply post_bind, post_gets. cbv beta iota.
  apply post_bind, post_gets. cbv beta iota.
  cbn [vars disk_blocks set_world log_call]. rewrite Hfp, Hdisk. cbn [andb Z.eqb].
  apply post_bind. unfold convert_and_save, read_local_model.
  apply post_bind, post_bind, post_gets. cbv beta iota.
  cbn [local_model set_world log_call]. rewrite Hlocal.
  apply post_raise. split; [apply raised_raise | exact Hq].
Qed.

Section NeverSaved.

Hypothesis never_local :
  forall w a w',
    answer_of (get_local_model_path false) w = (Ok a, w') -> truthy obj_truthy a = false.
Hypothesis probe_hits :
  forall location tf_kwargs w,
    existsb probe_hit (rebuilds_during (_get_model location tf_kwargs) w) = true.

Local Abbreviation quiet_save := (fun c : load_call Config Obj => is_model_save_step c = false).
Local Abbreviation pick_disk := (fun v : view Config Obj => pv_disk_blocks (v_parts v)).
Local Abbreviation pick_both :=
  (fun v : view Config Obj => (pv_disk_blocks (v_parts v), pv_fp32_model (v_parts v))).

(** The download of a model whose weights the probe takes for fp32, to
    be saved, without disk blocks and with [model] unbound, raises, and
    nothing of the model is written. *)
Lemma download_fp32_raises (tf_kwargs : gmap string bool) (x s : loader) :
  unbound s ->
  disk_blocks _ _ (parts s) = 0 ->
  calm pick_disk quiet_save x s ->
  post (download true tf_kwargs) s
    (fun r s' => calm pick_disk quiet_save x s' /\ raised r).
Proof.
  intros Hu Hdisk Hs.
  assert (forall y, calm pick_both quiet_save s y ->
            calm pick_disk quiet_save x y
            /\ disk_blocks _ _ (parts y) = 0
            /\ unbound y
            /\ (fp32_model (the_vars s) = true -> fp32_model (the_vars y) = true)) as Hback.
  { intros y Hy. split.
    - apply (calm_trans _ _ x s); [exact Hs |].
      exact (calm_weaken pick_both fst quiet_save quiet_save s y (fun _ H => H) Hy).
    - destruct Hy as (Hv & Huy & _). unfold view_of, part_view_of in Hv. cbn in Hv.
      injection Hv as H1 H2. unfold the_vars. rewrite H1, H2. auto. }
  unfold GenericLoad.download.
  set (J0 := calm pick_both quiet_save s).
  assert (J0 s) as Hs0 by apply calm_refl.
  assert (forall e y, J0 y -> calm pick_disk quiet_save x y /\ raised (Raise (A := unit) e))
    as Hraise.
  { intros e y Hy. split; [apply (Hback y Hy) | apply raised_raise]. }
  apply post_bind, post_gets. cbv beta iota.
  apply post_bind, post_modify. cbv beta iota.
  apply post_bind, post_modify. cbv beta iota.
  set (s1 := log [set_rebuild_tensor true] (set_probe_installed true s)).
  assert (J0 s1) as Hs1.
  { apply (calm_step _ _ s s); [exact Hs0 | reflexivity | exact (fun H => H) |].
    eexists. split; [reflexivity | repeat constructor]. }
  apply post_bind, post_gets. cbv beta iota.
  apply post_bind, post_ask_loading_at; [reflexivity |]. rewrite probe_hits.
  set (sp := on_vars (set_fp32_model true) s1).
  set (J := calm pick_both quiet_save sp).
  assert (forall y, J y ->
            calm pick_disk quiet_save x y
            /\ disk_blocks _ _ (parts y) = 0 /\ unbound y
            /\ fp32_model (the_vars y) = true) as Hback'.
  { intros y Hy. destruct (Hback _ Hs1) as (Hx1 & Hd1 & Hu1 & _).
    split.
    - apply (calm_trans _ _ x sp).
      + apply (calm_step _ _ x s1); [exact Hx1 | reflexivity | exact (fun H => H) |].
        exists []. split; [symmetry; apply app_nil_r | constructor].
      + exact (calm_weaken pick_both fst quiet_save quiet_save sp y (fun _ H => H) Hy).
    - destruct Hy as (Hv & Huy & _). unfold view_of, part_view_of in Hv. cbn in Hv.
      injection Hv as H1 H2. unfold the_vars. rewrite H1, H2.
      split; [exact Hd1 |]. split; [apply Huy; exact Hu1 | reflexivity]. }
  assert (J sp) as Hsp by apply calm_refl.
  assert (forall e y, J y -> calm pick_disk quiet_save x y /\ raised (Raise (A := unit) e))
    as Hraise'.
  { intros e y Hy. split; [apply (Hback' y Hy) | apply raised_raise]. }
  apply (post_conseq _ _ (fun r s2 => J s2 /\ forall a, r = Ok a ->
           post (do m <- as_model a ;;
                 run modify (on_parts (set_self_model Config World m)) ;;
                 do name' <- gets (fun x => model (the_vars x)) ;;
                 do t <- ask_loading (_get_tokenizer (Str name')) ;;
                 run modify (set_tokenizer t) ;;
                 run modify (set_probe_installed (probe_installed s)) ;;
                 run modify (log [set_rebuild_tensor false]) ;;
                 in_parts (save_downloaded_model true)) s2
             (fun r s' => calm pick_disk quiet_save x s' /\ raised r))).
  { intros [a | e] s2 [Hs2 Hk]; [exact (Hk a eq_refl) | apply Hraise'; exact Hs2]. }
  apply post_ask. intros r w _.
  match goal with |- J ?s2 /\ _ => assert (J s2) as Hs2 end.
  { apply (calm_step _ _ sp sp); [exact Hsp | reflexivity | exact (fun H => H) |].
    eexists. split; [reflexivity | repeat constructor]. }
  split; [exact Hs2 |]. intros a _.
  match goal with |- post _ ?s2 _ => generalize dependent s2 end.
  intros s2 Hs2.
  apply (post_seq J); [| | exact Hraise'].
  { destruct a; first [apply post_ret | apply post_raise]; exact Hs2. }
  intros m s3 Hs3.
  apply (post_seq J); [| | exact Hraise'].
  { apply post_modify.
    apply (calm_step _ _ sp s3); [exact Hs3 | reflexivity | exact (fun H => H) |].
    exists []. split; [symmetry; apply app_nil_r | constructor]. }
  intros _ s4 Hs4.
  apply post_bind, post_gets. cbv beta iota.
  apply (post_seq J); [| | exact Hraise'].
  { apply post_ask_loading. intros b.
    assert (J (if b then on_vars (set_fp32_model true) s4 else s4)) as Hs4'.
    { destruct b; [| exact Hs4].
      apply (calm_step _ _ sp s4); [exact Hs4 | | exact (fun H => H) |].
      - destruct (Hback' _ Hs4) as (_ & _ & _ & Hf). unfold the_vars in Hf.
        unfold view_of, part_view_of. cbn. rewrite Hf. reflexivity.
      - exists []. split; [symmetry; apply app_nil_r | constructor]. }
    apply ask_calm; [reflexivity | exact Hs4']. }
  intros t s5 Hs5.
  apply (post_seq J); [| | exact Hraise'].
  { apply post_modify.
    apply (calm_step _ _ sp s5); [exact Hs5 | reflexivity | exact (fun H => H) |].
    exists []. split; [symmetry; apply app_nil_r | constructor]. }
  intros _ s5' Hs5'.
  apply (post_seq J); [| | exact Hraise'].
  { apply post_modify.
    apply (calm_step _ _ sp s5'); [exact Hs5' | reflexivity | exact (fun H => H) |].
    exists []. split; [symmetry; apply app_nil_r | constructor]. }
  intros _ s6 Hs6.
  apply (post_seq J); [| | exact Hraise'].
  { apply post_modify.
    apply (calm_step _ _ sp s6); [exact Hs6 | reflexivity | exact (fun H => H) |].
    eexists. split; [reflexivity | repeat constructor]. }
  intros _ s7 Hs7.
  destruct (Hback' _ Hs7) as (Hx7 & Hd7 & Hu7 & Hf7).
  apply post_in_parts. intros r7 s' Heq.
  pose proof (save_fp32_unbound (parts s7) Hu7 Hf7 Hd7) as Hsave.
  unfold post in Hsave. rewrite Heq in Hsave. cbn [fst snd] in Hsave.
  destruct Hsave as [Hr Hq]. split; [| exact Hr].
  pose proof (in_parts_calm pick_disk quiet_save
                (eq (tokenizer_save_pretrained Config local_model_path))
                (save_downloaded_model true) x s7) as Hc.
  unfold post in Hc. unfold GenericLoad.in_parts in Hc. rewrite Heq in Hc. cbn [snd] in Hc.
  apply Hc; [exact Hq | intros c <-; reflexivity | exact Hx7].
Qed.



Lemma fetch_body_fp32_raises (tf_kwargs : gmap string bool) (x s : loader) :
  unbound s ->
  disk_blocks _ _ (parts s) = 0 ->
  calm pick_disk quiet_save x s ->
  post (fetch_body true tf_kwargs) s
    (fun r s' => calm pick_disk quiet_save x s' /\ raised r).
Proof.
  intros Hu Hdisk Hs. unfold GenericLoad.fetch_body.
  apply post_bind, post_gets. cbv beta iota.
  apply post_bind, post_ask. intros r w Heq.
  assert (calm pick_disk quiet_save x
            (log [get_local_model_path false] (on_parts (set_world _ _ w) s))) as Hs1.
  { apply (calm_step _ _ x s); [exact Hs | reflexivity | exact (fun H => H) |].
    eexists. split; [reflexivity | repeat constructor]. }
  destruct r as [a | e]; [| split; [exact Hs1 | apply raised_raise]].
  rewrite (never_local _ _ _ Heq).
  apply download_fp32_raises; [exact Hu | exact Hdisk | exact Hs1].
Qed.

(** A [with] whose body raises, and whose manager lets exceptions pass,
    raises. *)
Lemma with_raises {V} (pick : view Config Obj -> V) (P : load_call Config Obj -> Prop)
      (R : Prop) (enter : load_call Config Obj) (leave : bool -> load_call Config Obj)
      (body : M loader unit) (x s : loader) :
  P enter -> (forall b, P (leave b)) ->
  (R -> forall w a w', answer_of (leave true) w = (Ok a, w') -> truthy obj_truthy a = false) ->
  calm pick P x s ->
  (forall s1, calm pick P x s1 ->
              post body s1 (fun r s2 => calm pick P x s2 /\ (R -> raised r))) ->
  post (with_ enter leave body) s (fun r s' => calm pick P x s' /\ (R -> raised r)).
Proof.
  intros He Hl Hpass Hs Hbody. unfold GenericLoad.with_.
  apply (post_seq (calm pick P x)); [apply ask_calm; assumption | |].
  2:{ intros e s1 Hs1. split; [exact Hs1 | intros _; apply raised_raise]. }
  intros _ s1 Hs1. specialize (Hbody s1 Hs1). unfold post in Hbody |- *.
  destruct (body s1) as [[[] | e] s2]; cbn [fst snd] in Hbody; destruct Hbody as [Hs2 Hr].
  - pose proof (ask_calm pick P (leave false) x s2 (Hl false) Hs2) as H.
    unfold post, bind in *. destruct (ask _ s2) as [[a | e] s3]; cbn [fst snd] in *.
    + split; [exact H | intros HR; exfalso; exact (raised_ok _ (Hr HR))].
    + split; [exact H | intros _; apply raised_raise].
  - pose proof (ask_calm pick P (leave true) x s2 (Hl true) Hs2) as H.
    unfold post, bind, GenericLoad.ask in *.
    destruct (answer_of (leave true) _) as [[a | e'] w] eqn:Heq; cbn [fst snd] in *.
    + destruct (truthy obj_truthy a) eqn:Ht; cbn [fst snd].
      * split; [exact H | intros HR]. rewrite (Hpass HR _ _ _ Heq) in Ht. discriminate Ht.
      * split; [exact H | intros _; apply raised_raise].
    + split; [exact H | intros _; apply raised_raise].
Qed.

Local Abbreviation exits_pass :=
  (forall c w a w',
      is_exit_raising c = true -> answer_of c w = (Ok a, w') ->
      truthy obj_truthy a = false).

Lemma fetch_fp32_raises (tf_kwargs : gmap string bool) (x s : loader) :
  unbound x ->
  disk_blocks _ _ (parts x) = 0 ->
  calm pick_disk quiet_save x s ->
  post (fetch true tf_kwargs) s
    (fun r s' => calm pick_disk quiet_save x s' /\ (exits_pass -> raised r)).
Proof.
  intros Hu Hdisk Hs. unfold GenericLoad.fetch.
  apply with_raises; [reflexivity | intros b; reflexivity | | exact Hs |].
  { intros HR w a w'. apply HR. reflexivity. }
  intros s1 Hs1.
  apply post_bind, post_gets. cbv beta iota.
  apply (post_seq (calm pick_disk quiet_save x)).
  - load_walk (calm pick_disk quiet_save x) ltac:(reflexivity) fail.
  - intros cb s2 Hs2.
    apply with_raises; [reflexivity | intros b; reflexivity | | exact Hs2 |].
    { intros HR w a w'. apply HR. reflexivity. }
    intros s3 Hs3.
    eapply post_conseq; [| apply fetch_body_fp32_raises].
    + cbn beta. intros r s' [H1 H2]. split; [exact H1 | intros _; exact H2].
    + destruct Hs3 as (_ & H & _). apply H. exact Hu.
    + destruct Hs3 as (H & _ & _). unfold view_of, part_view_of in H. cbn in H.
      rewrite H. exact Hdisk.
    + exact Hs3.
  - intros e s2 Hs2. split; [exact Hs2 | intros _; apply raised_raise].
Qed.

Lemma resolve_quiet_save (c : load_call Config Obj) :
  is_resolve_step c = true -> is_model_save_step c = false.
Proof. destruct c as [[] | [] | | | | | | | | | | | | | | | | |]; cbn; congruence. Qed.

(** X27.  A model that is not stored locally, whose weights the probe
    takes for fp32, is to be saved, and no disk blocks are configured:
    nothing of the model is written, whatever else the outside answers: no
    [save_pretrained] of the model, no read of the hub cache, no removal of
    the cache.  When the context managers let exceptions pass, [_load]
    does not return normally. *)
Theorem fp32_download_is_never_saved (initial_load : bool) (x : loader) :
  disk_blocks _ _ (parts x) = 0 ->
  let out := _load true initial_load x in
  Forall (fun c => is_model_save_step c = false) (done_between x (snd out))
  /\ (exits_pass -> raised (fst out)).
Proof.
  intros Hdisk out.
  set (x0 := on_parts (set_local_model Config World None) x).
  set (J := calm pick_disk quiet_save x0).
  assert (unbound x0) as Hu0 by reflexivity.
  assert (disk_blocks _ _ (parts x0) = 0) as Hd0 by exact Hdisk.
  assert (post (_load true initial_load) x (fun r s => J s /\ (exits_pass -> raised r)))
    as [HJ Hr].
  { unfold GenericLoad._load.
    apply post_bind, post_modify. cbv beta iota. fold x0.
    assert (J x0) as Hx0 by apply calm_refl.
    assert (forall e s, J s -> J s /\ (exits_pass -> raised (Raise (A := unit) e))) as Hraise.
    { intros e s Hs. split; [exact Hs | intros _; apply raised_raise]. }
    apply (post_seq J); [| | exact Hraise].
    { apply (calm_post pick_disk quiet_save (fun c => is_resolve_step c = true));
        [apply resolve_model_calm; reflexivity | apply resolve_quiet_save | exact Hx0]. }
    intros _ s1 Hs1.
    apply (post_seq J); [| | exact Hraise].
    { eapply (calm_post pick_disk quiet_save);
        [apply choose_tf_kwargs_calm; reflexivity | intros c [cfg ->]; reflexivity
        | exact Hs1]. }
    intros kw s2 Hs2.
    apply post_bind, post_gets. cbv beta iota.
    apply (post_seq J); [| | exact Hraise].
    { apply post_when; [intros _ | intros _; exact Hs2].
      eapply (calm_post pick_disk quiet_save);
        [apply discover_layers_calm | | exact Hs2].
      intros c Hc. destruct c as [[] | | | | | | | | | | | | | | | | | |]; cbn in *;
        first [reflexivity | congruence]. }
    intros _ s3 Hs3.
    apply post_bind.
    eapply post_conseq; [| apply (fetch_fp32_raises kw x0 s3 Hu0 Hd0 Hs3)].
    cbn beta. intros r s4 [Hs4 Hr4].
    destruct r as [[] | e]; [| split; [exact Hs4 | intros _; apply raised_raise]].
    apply (post_conseq _ _ (fun _ s => calm pick_disk quiet_save x0 s)).
    { intros r s5 Hs5. split; [exact Hs5 |].
      intros HR. exfalso. exact (raised_ok _ (Hr4 HR)). }
    load_walk (calm pick_disk quiet_save x0) part_cases fail. }
  split; [| exact Hr].
  destruct HJ as (_ & _ & Ha).
  apply (done_between_adds quiet_save x0) in Ha. exact Ha.
Qed.

End NeverSaved.

End Whole.

End GenericLoadFacts.

Module GenericLoadExamples.
Import Outcome GenericHFTorch GenericLoad GenericLoadNotions GenericLoadFacts ToyWorld ToyLoad.

Local Abbreviation toy_load local save_model :=
  (_load unit (list string) unit unit unit (fun _ => true) toy_perform id toy_join
     "cache/index.json" toy_old_rebuild_tensor id id "models/org_model" "org_model"
     (toy_answer local) toy_rebuilds save_model true).

Lemma load_split_eager_never_returns_witness :
  let x := toy_loader (toy_vars true false true false false) [] in
  let out := toy_load true false x in
  raised (fst out)
  /\ modeldim (snd out) = Int 0
  /\ kai_model (snd out) = false
  /\ Forall (fun c => is_final_step c = false) (done_between x (snd out)).
Proof.
  intros x out.
  exact (load_split_eager_never_returns (fun _ => true) toy_perform id toy_join
           "cache/index.json" toy_old_rebuild_tensor id id "models/org_model" "org_model"
           (toy_answer true) toy_rebuilds false true x eq_refl eq_refl eq_refl eq_refl).
Defined.

Lemma early_plan_before_get_model_witness :
  let x := toy_loader (toy_vars true false true true false) [] in
  let done := done_between x (snd (toy_load true false x)) in
  lazy_load (the_vars x) = true
  /\ In (part (breakmodel_device_config unit tt)) (firstn 15 done).
Proof.
  intros x done. split; [reflexivity |].
  destruct (early_plan_before_get_model (fun _ => true) toy_perform id toy_join
              "cache/index.json" toy_old_rebuild_tensor id id "models/org_model" "org_model"
              (toy_answer true) toy_rebuilds false true x eq_refl eq_refl eq_refl eq_refl
              (firstn 15 done) (Str "models/org_model") ∅ (skipn 16 done)) as [H | H].
  - vm_compute. reflexivity.
  - vm_compute in H. discriminate H.
  - exact H.
Defined.

Lemma get_model_kwargs_witness :
  let x := toy_loader (toy_vars true false true true false) [] in
  let out := toy_load true false x in
  let v' := the_vars (snd out) in
  In (_get_model (Str "models/org_model") ∅) (done_between x (snd out))
  /\ (∅ : gmap string bool)
     = (if lazy_load v' || String.eqb (model_type v') "gpt2"
        then ∅ else {[ low_cpu_mem_usage := true ]}).
Proof.
  intros x out v'.
  assert (In (_get_model (Str "models/org_model") ∅) (done_between x (snd out))) as Hin.
  { vm_compute. do 15 right. left. reflexivity. }
  split; [exact Hin |].
  exact (proj1 (get_model_kwargs (fun _ => true) toy_perform id toy_join "cache/index.json"
                  toy_old_rebuild_tensor id id "models/org_model" "org_model"
                  (toy_answer true) toy_rebuilds false true x (Str "models/org_model") ∅
                  Hin)).
Defined.

Lemma local_copy_is_not_downloaded_witness :
  let x := toy_loader (toy_vars false false false false false) [] in
  let out := toy_load true true x in
  Forall (fun c => is_download_step c = false) (done_between x (snd out))
  /\ probe_installed (snd out) = false
  /\ fp32_model (the_vars (snd out)) = false.
Proof.
  intros x out.
  destruct (local_copy_is_not_downloaded (fun _ => true) toy_perform id toy_join
              "cache/index.json" toy_old_rebuild_tensor id id "models/org_model"
              "org_model" (toy_answer true) toy_rebuilds true true x) as (H1 & H2 & H3).
  - intros w. exists "models/org_model", w. split; [reflexivity | discriminate].
  - split; [exact H1 |]. split; [exact H2 | exact (H3 eq_refl)].
Defined.

(** A [new_rebuild_tensor] that an earlier download left installed: the
    load of the local copy runs under it and sets the fp32 flag. *)
Example load_local_under_left_probe :
  let x := set_probe_installed true
             (toy_loader (toy_vars false false false false false) []) in
  let out := toy_load true true x in
  fst out = Ok tt
  /\ fp32_model (the_vars x) = false
  /\ fp32_model (the_vars (snd out)) = true
  /\ probe_installed (snd out) = true.
Proof. vm_compute. repeat split. Qed.

(** The tokenizer of a model that is not stored locally cannot be loaded:
    [_load] raises, line 121 is not reached and the probe stays. *)
Example load_download_tokenizer_raises :
  let out := _load unit (list string) unit unit unit (fun _ => true) toy_perform id toy_join
               "cache/index.json" toy_old_rebuild_tensor id id "models/org_model"
               "org_model" toy_answer_no_tokenizer toy_rebuilds true true
               (toy_loader (toy_vars false false false false false)
                  ["config.json"; "pytorch_model.bin"]) in
  fst out = Raise (LibraryError "_get_tokenizer")
  /\ trace (snd out)
     = [get_local_model_path true; init_model_config; _maybe_use_float16;
        use_lazy_torch_load (mk_lazy_kwargs (Some false) (Some PyNone) (Some true) None);
        get_local_model_path false; set_rebuild_tensor true;
        _get_model (Str "org/model") {[ low_cpu_mem_usage := true ]};
        _get_tokenizer (Str "org/model");
        exit_lazy_torch_load true; exit_maybe_use_float16 true]
  /\ probe_installed (snd out) = true.
Proof. vm_compute. repeat split. Qed.

Lemma fp32_download_is_never_saved_witness :
  let x := toy_loader (toy_vars false false false false false)
             ["config.json"; "pytorch_model.bin"] in
  let out := toy_load false true x in
  Forall (fun c => is_model_save_step c = false) (done_between x (snd out))
  /\ raised (fst out).
Proof.
  intros x out.
  destruct (fp32_download_is_never_saved (fun _ => true) toy_perform id toy_join
              "cache/index.json" toy_old_rebuild_tensor id id "models/org_model" "org_model"
              (toy_answer false) toy_rebuilds) with (initial_load := true) (x := x)
    as [Hquiet Hraised].
  - intros w a w' H. injection H as <- _. reflexivity.
  - intros location tf_kwargs w. reflexivity.
  - reflexivity.
  - split; [exact Hquiet | apply Hraised].
    intros c w a w' Hc H. destruct c; try discriminate Hc; injection H as <- _; reflexivity.
Defined.

(** The model is stored locally, no accelerator: what [_load] does
    outside. *)
Example load_local_trace :
  trace (snd (toy_load true true (toy_loader (toy_vars false false false false false) [])))
  = [get_local_model_path true; init_model_config; _maybe_use_float16;
     use_lazy_torch_load (mk_lazy_kwargs (Some false) (Some PyNone) (Some true) None);
     get_local_model_path false; get_local_model_path false;
     _get_model (Str "models/org_model") {[ low_cpu_mem_usage := true ]};
     get_local_model_path false; _get_tokenizer (Str "models/org_model");
     exit_lazy_torch_load false; exit_maybe_use_float16 false;
     patch_embedding; get_hidden_size].
Proof. vm_compute. reflexivity. Qed.

(** The model is downloaded and found to be fp32: the save fails after
    the tokenizer, both managers are left, the cache stays. *)
Example load_fp32_download_trace :
  let out := toy_load false true
               (toy_loader (toy_vars false false false false false)
                  ["config.json"; "pytorch_model.bin"]) in
  fst out = Raise (UnboundLocalError "model")
  /\ trace (snd out)
     = [get_local_model_path true; init_model_config; _maybe_use_float16;
        use_lazy_torch_load (mk_lazy_kwargs (Some false) (Some PyNone) (Some true) None);
        get_local_model_path false; set_rebuild_tensor true;
        _get_model (Str "org/model") {[ low_cpu_mem_usage := true ]};
        _get_tokenizer (Str "org/model"); set_rebuild_tensor false;
        part (tokenizer_save_pretrained unit "models/org_model");
        exit_lazy_torch_load true; exit_maybe_use_float16 true]
  /\ fp32_model (the_vars (snd out)) = true
  /\ probe_installed (snd out) = false.
Proof. vm_compute. repeat split. Qed.

End GenericLoadExamples.
